(** * WeatherDataIngestor: a shallow embedding of [WeatherDataIngestor.py]

    The handler fetches the current weather of one city, flattens the
    provider's JSON answer into a record and appends it to a Firehose
    delivery stream.  This file embeds the Python module in Rocq:

    - [pyval] are the Python values the module manipulates (what
      [json.loads] can produce), dictionaries keep their insertion order;
    - Python exceptions are the [Err] case of [result];
    - the collaborators of the module (process environment, Secrets
      Manager, HTTP pool, Firehose, the random generator and the clock)
      are the fields of a [World]; the calls made to them are recorded in a
      trace, so that statements such as "no fetch is attempted" can be
      expressed;
    - library functions whose text format is irrelevant to the handler's
      logic ([json.loads], [json.dumps], [repr] of floats and containers)
      are the fields of a [PyLib]. *)

From Stdlib Require Import ZArith List String Ascii Bool Lia.
From Stdlib Require Import DecimalString.
From Stdlib Require Import Floats.PrimFloat Floats.FloatOps Floats.SpecFloat.
From Stdlib Require Import Floats.FloatAxioms.
Import ListNotations.

Local Open Scope string_scope.
Local Open Scope Z_scope.

Set Implicit Arguments.
Local Set Warnings "-register-all,-inexact-float".

(* ================================================================== *)
(** * Python values and exceptions *)
(* ================================================================== *)

(** The values [json.loads] produces, which are also all the values the
    module stores in its own dictionaries.  A [str] is held as its UTF-8
    encoding; a [dict] is an association list in insertion order. *)
Inductive pyval : Type :=
| PyNone
| PyBool (b : bool)
| PyInt (n : Z)
| PyFloat (x : float)
| PyStr (s : string)
| PyList (items : list pyval)
| PyDict (entries : list (string * pyval)).

Definition pydict := list (string * pyval).

(** The exception classes the module can meet.  Every one of them derives
    from [Exception]; [JSONDecodeError] is the only class a handler of the
    module singles out. *)
Inductive exc_class : Type :=
| KeyError
| IndexError
| TypeError
| AttributeError
| ValueError
| OverflowError
| JSONDecodeError
| UnicodeDecodeError
| OtherException (name : string).

(** An exception instance: its class and [str(e)]. *)
Record exception : Type := Raise { exc_type : exc_class; exc_str : string }.

Inductive result (A : Type) : Type :=
| Ok (a : A)
| Err (e : exception).
Arguments Ok {A} a.
Arguments Err {A} e.

Definition rbind {A B} (r : result A) (k : A -> result B) : result B :=
  match r with
  | Ok a => k a
  | Err e => Err e
  end.

Declare Scope result_scope.
Delimit Scope result_scope with result.
Notation "'let?' x ':=' r 'in' k" := (rbind r (fun x => k))
  (at level 10, x name, r at level 100, k at level 200) : result_scope.

Definition is_ok {A} (r : result A) : bool :=
  match r with Ok _ => true | Err _ => false end.

(** [KeyError] and [IndexError]: a field or an array element that a
    subscript expected is not there. *)
Definition is_missing_field (e : exception) : bool :=
  match exc_type e with
  | KeyError | IndexError => true
  | _ => false
  end.

(* ------------------------------------------------------------------ *)
(** ** Types, truth values and [str] *)

Definition type_name (v : pyval) : string :=
  match v with
  | PyNone => "NoneType"
  | PyBool _ => "bool"
  | PyInt _ => "int"
  | PyFloat _ => "float"
  | PyStr _ => "str"
  | PyList _ => "list"
  | PyDict _ => "dict"
  end.

(** [bool(v)]: [None], [False], zero, and empty strings and containers
    are false. *)
Definition truthy (v : pyval) : bool :=
  match v with
  | PyNone => false
  | PyBool b => b
  | PyInt n => negb (n =? 0)
  | PyFloat x => negb (PrimFloat.eqb x 0%float)
  | PyStr s => negb (String.eqb s EmptyString)
  | PyList l => match l with [] => false | _ => true end
  | PyDict d => match d with [] => false | _ => true end
  end.

(** [a or b], on values. *)
Definition py_or (a : pyval) (b : pyval) : pyval :=
  if truthy a then a else b.

Definition str_of_int (n : Z) : string := NilZero.string_of_int (Z.to_int n).

(* ------------------------------------------------------------------ *)
(** ** Dictionaries *)

Fixpoint dict_lookup (k : string) (d : pydict) : option pyval :=
  match d with
  | [] => None
  | (k', v) :: d' => if String.eqb k k' then Some v else dict_lookup k d'
  end.

Definition dict_mem (k : string) (d : pydict) : bool :=
  match dict_lookup k d with Some _ => true | None => false end.

(** [d[k] = v]: an existing key keeps its position, a new one goes last. *)
Fixpoint dict_set (k : string) (v : pyval) (d : pydict) : pydict :=
  match d with
  | [] => [(k, v)]
  | (k', v') :: d' =>
      if String.eqb k k' then (k', v) :: d' else (k', v') :: dict_set k v d'
  end.

(** [d.update(other)] *)
Definition dict_update (d : pydict) (other : pydict) : pydict :=
  fold_left (fun acc kv => dict_set (fst kv) (snd kv) acc) other d.

Definition dict_keys (d : pydict) : list string := map fst d.

(* ------------------------------------------------------------------ *)
(** ** Subscripts, [.get] and [in] *)

(** [repr] of the keys the module subscripts with; they are identifiers,
    which [repr] only wraps in quotes. *)
Definition repr_key (k : string) : string := "'" ++ k ++ "'".

Definition not_subscriptable (v : pyval) : exception :=
  Raise TypeError ("'" ++ type_name v ++ "' object is not subscriptable").

(** [v[k]] for a string [k]. *)
Definition getitem (v : pyval) (k : string) : result pyval :=
  match v with
  | PyDict d =>
      match dict_lookup k d with
      | Some x => Ok x
      | None => Err (Raise KeyError (repr_key k))
      end
  | PyList _ =>
      Err (Raise TypeError "list indices must be integers or slices, not str")
  | PyStr _ =>
      Err (Raise TypeError "string indices must be integers, not 'str'")
  | _ => Err (not_subscriptable v)
  end.

(** The bytes of the first code point of a UTF-8 string: its first byte
    and the continuation bytes (10xxxxxx) after it. *)
Definition is_continuation (c : ascii) : bool :=
  let n := Z.of_nat (nat_of_ascii c) in (128 <=? n) && (n <? 192).

Fixpoint leading_continuations (s : string) : string :=
  match s with
  | String c s' =>
      if is_continuation c then String c (leading_continuations s')
      else EmptyString
  | EmptyString => EmptyString
  end.

(** [v[0]] *)
Definition getitem0 (v : pyval) : result pyval :=
  match v with
  | PyList l =>
      match l with
      | x :: _ => Ok x
      | [] => Err (Raise IndexError "list index out of range")
      end
  | PyStr s =>
      match s with
      | String c s' => Ok (PyStr (String c (leading_continuations s')))
      | EmptyString => Err (Raise IndexError "string index out of range")
      end
  | PyDict _ => Err (Raise KeyError "0")
  | _ => Err (not_subscriptable v)
  end.

(** [v.get(k)] *)
Definition get_method (v : pyval) (k : string) : result pyval :=
  match v with
  | PyDict d =>
      Ok (match dict_lookup k d with Some x => x | None => PyNone end)
  | _ =>
      Err (Raise AttributeError
             ("'" ++ type_name v ++ "' object has no attribute 'get'"))
  end.

Fixpoint is_substring (p s : string) : bool :=
  String.prefix p s ||
  match s with
  | EmptyString => false
  | String _ s' => is_substring p s'
  end.

Definition is_str (k : string) (v : pyval) : bool :=
  match v with PyStr s => String.eqb k s | _ => false end.

(** [k in v] for a string [k]. *)
Definition contains (k : string) (v : pyval) : result bool :=
  match v with
  | PyDict d => Ok (dict_mem k d)
  | PyList l => Ok (existsb (is_str k) l)
  | PyStr s => Ok (is_substring k s)
  | _ =>
      Err (Raise TypeError
             ("argument of type '" ++ type_name v ++ "' is not iterable"))
  end.

(* ================================================================== *)
(** * Floating point: [kelvin - 273.15] and [round(x, 2)] *)
(* ================================================================== *)

(** Python floats are binary64 numbers, here Rocq's primitive floats.
    [float(n)] for an integer rounds to the nearest float, ties to even,
    and raises [OverflowError] when the result would be infinite. *)
Definition float_of_int (n : Z) : result float :=
  match binary_normalize prec emax n 0 false with
  | S754_infinity _ =>
      Err (Raise OverflowError "int too large to convert to float")
  | sf => Ok (SF2Prim sf)
  end.

(** [v - y] for a float [y]: a float, integer or boolean [v] is turned
    into a float first; no other type supports the subtraction. *)
Definition sub_float (v : pyval) (y : float) : result float :=
  match v with
  | PyFloat x => Ok (PrimFloat.sub x y)
  | PyInt n => let? x := float_of_int n in Ok (PrimFloat.sub x y)
  | PyBool b => let? x := float_of_int (if b then 1 else 0) in Ok (PrimFloat.sub x y)
  | _ =>
      Err (Raise TypeError
             ("unsupported operand type(s) for -: '" ++ type_name v
                ++ "' and 'float'"))
  end%result.

(** The integer nearest to [n / d] ([d > 0]), ties to even. *)
Definition round_half_even_div (n d : Z) : Z :=
  let q := n / d in
  let r := n mod d in
  match 2 * r ?= d with
  | Lt => q
  | Gt => q + 1
  | Eq => if Z.even q then q else q + 1
  end.

(** [round(x, 2)] on a float.  Zeros, infinities and NaN are returned as
    they are.  A finite [x = (-1)^s * m * 2^e] is first rounded, on its
    exact value, to the nearest multiple of 1/100 (ties to even): the
    hundredths count [q]; the result is the float nearest to [q / 100],
    with the sign of [x]. *)
Definition round2 (x : float) : float :=
  match Prim2SF x with
  | S754_finite s m e =>
      let q :=
        if 0 <=? e then Zpos m * 100 * 2 ^ e
        else round_half_even_div (Zpos m * 100) (2 ^ (- e)) in
      match q with
      | Zpos p =>
          SF2Prim (SFdiv prec emax (S754_finite s p 0) (S754_finite false 100 0))
      | _ => SF2Prim (S754_zero s)
      end
  | _ => x
  end.

(** [kelvin_to_celsius], lines 50-52:
    [return round(kelvin - 273.15, 2)] *)
Definition kelvin_to_celsius (kelvin : pyval) : result pyval :=
  (let? c := sub_float kelvin 273.15%float in
   Ok (PyFloat (round2 c)))%result.

(* ================================================================== *)
(** * Calendar: [datetime.utcfromtimestamp] and [strftime] *)
(* ================================================================== *)

Record datetime : Type := Datetime {
  year : Z; month : Z; day : Z; hour : Z; minute : Z; second : Z
}.

(** The proleptic Gregorian date of the day [days] days after
    1970-01-01, computed era by era (an era is 400 years, 146097 days,
    and starts on a 1st of March). *)
Definition civil_from_days (days : Z) : Z * Z * Z :=
  let z := days + 719468 in
  let era := z / 146097 in
  let doe := z mod 146097 in
  let yoe := (doe - doe / 1460 + doe / 36524 - doe / 146096) / 365 in
  let doy := doe - (365 * yoe + yoe / 4 - yoe / 100) in
  let mp := (5 * doy + 2) / 153 in
  let d := doy - (153 * mp + 2) / 5 + 1 in
  let m := if mp <? 10 then mp + 3 else mp - 9 in
  let y := yoe + era * 400 + (if m <=? 2 then 1 else 0) in
  (y, m, d).

(** The UTC broken-down time of [t] seconds after the epoch. *)
Definition gmtime (t : Z) : datetime :=
  let '(y, m, d) := civil_from_days (t / 86400) in
  let rem := t mod 86400 in
  Datetime y m d (rem / 3600) (rem mod 3600 / 60) (rem mod 60).

(** The timestamps whose date lies in the years 1 to 9999. *)
Definition min_timestamp : Z := -62135596800.
Definition max_timestamp : Z := 253402300799.

Definition timestamp_in_range (t : Z) : bool :=
  (min_timestamp <=? t) && (t <=? max_timestamp).

(** The whole seconds of a finite float timestamp
    [x = (-1)^s * m * 2^e].  The integral and fractional parts are
    split exactly; the fractional part is scaled to microseconds by a
    float multiplication (rounded to the nearest float), rounded to an
    integer (ties to even), and a carry or a borrow is passed to the
    integral part. *)
Definition seconds_of_float (x : float) : option Z :=
  match Prim2SF x with
  | S754_nan | S754_infinity _ => None
  | S754_zero _ => Some 0
  | S754_finite s m e =>
      if 0 <=? e then Some (cond_Zopp s (Zpos m * 2 ^ e))
      else
        let intpart := cond_Zopp s (Zpos m / 2 ^ (- e)) in
        let us :=
          match Zpos m mod 2 ^ (- e) with
          | Zpos f =>
              match SFmul prec emax (S754_finite s f e)
                      (S754_finite false 1000000 0) with
              | S754_finite s' m' e' =>
                  cond_Zopp s'
                    (if 0 <=? e' then Zpos m' * 2 ^ e'
                     else round_half_even_div (Zpos m') (2 ^ (- e')))
              | _ => 0
              end
          | _ => 0
          end in
        Some (if 1000000 <=? us then intpart + 1
              else if us <? 0 then intpart - 1
              else intpart)
  end.

Definition digit (n : Z) : ascii := ascii_of_nat (48 + Z.to_nat (n mod 10)).

Definition pad2 (n : Z) : string :=
  String (digit (n / 10)) (String (digit n) EmptyString).

Definition pad4 (n : Z) : string :=
  String (digit (n / 1000)) (String (digit (n / 100)) (pad2 n)).

(** [dt.strftime('%Y-%m-%d %H:%M:%S UTC')].  The C library writes [%Y]
    as the decimal digits of the year, without padding (a year below
    1000 has fewer than four digits), and the other fields with two
    digits. *)
Definition strftime (dt : datetime) : string :=
  str_of_int (year dt) ++ "-" ++ pad2 (month dt) ++ "-" ++ pad2 (day dt) ++ " "
    ++ pad2 (hour dt) ++ ":" ++ pad2 (minute dt) ++ ":" ++ pad2 (second dt)
    ++ " UTC".

(* ================================================================== *)
(** * Text: [str], UTF-8 *)
(* ================================================================== *)

Definition byte_value (c : ascii) : Z := Z.of_nat (nat_of_ascii c).

(** What a leading byte announces: how many bytes follow, and the bounds
    of the first of them (they exclude over-long forms, surrogates and
    code points above U+10FFFF). *)
Definition utf8_lead (b : Z) : option (nat * Z * Z) :=
  if b <? 0x80 then Some (0%nat, 0, 0)
  else if (0xC2 <=? b) && (b <=? 0xDF) then Some (1%nat, 0x80, 0xBF)
  else if b =? 0xE0 then Some (2%nat, 0xA0, 0xBF)
  else if b =? 0xED then Some (2%nat, 0x80, 0x9F)
  else if (0xE1 <=? b) && (b <=? 0xEF) then Some (2%nat, 0x80, 0xBF)
  else if b =? 0xF0 then Some (3%nat, 0x90, 0xBF)
  else if (0xF1 <=? b) && (b <=? 0xF3) then Some (3%nat, 0x80, 0xBF)
  else if b =? 0xF4 then Some (3%nat, 0x80, 0x8F)
  else None.

(** The strict UTF-8 automaton: [pending] bytes of the current code point
    are still expected, the next one within [lo..hi]. *)
Fixpoint utf8_valid (pending : nat) (lo hi : Z) (s : string) : bool :=
  match s with
  | EmptyString => match pending with O => true | S _ => false end
  | String c s' =>
      let b := byte_value c in
      match pending with
      | O =>
          match utf8_lead b with
          | Some (n, lo', hi') => utf8_valid n lo' hi' s'
          | None => false
          end
      | S n => (lo <=? b) && (b <=? hi) && utf8_valid n 0x80 0xBF s'
      end
  end.

Definition newline : string := String (ascii_of_nat 10) EmptyString.

(* ================================================================== *)
(** * Library functions and collaborators *)
(* ================================================================== *)

(** Library behaviour the module relies on without depending on its
    details.  [json_dumps] is total: the module only serialises
    dictionaries of values that came out of [json.loads], strings and
    floats. *)
Record PyLib : Type := {
  (** [json.loads] on a [str] *)
  json_loads : string -> result pyval;
  (** [json.dumps] *)
  json_dumps : pyval -> string;
  (** [str] of a float, a list or a dict *)
  repr_value : pyval -> string;
  (** [str] of the [UnicodeDecodeError] raised for invalid bytes *)
  decode_error_str : string -> string;
  (** the exception [utcfromtimestamp] raises for a number outside the
      years 1 to 9999 ([ValueError], [OverflowError] or [OSError]) *)
  timestamp_error : pyval -> exception
}.

(** [response.status] and [response.data] of an HTTP response. *)
Record HTTPResponse : Type := { status : Z; data : string }.

(** What an invocation finds around it. *)
Record World : Type := {
  (** [os.environ] *)
  environ : list (string * string);
  (** [secretsmanager_client.get_secret_value(SecretId=...)] *)
  get_secret_value : string -> result pyval;
  (** [http.request(method, url)] *)
  http_request : string -> string -> result HTTPResponse;
  (** [firehose_client.put_record(DeliveryStreamName=..., Record={'Data': ...})] *)
  put_record : string -> string -> result pyval;
  (** the draw of the random generator *)
  random_draw : nat;
  (** [int(datetime.utcnow().timestamp())] *)
  utcnow_timestamp : Z
}.

(** The calls an invocation makes to its collaborators; the trace also
    records when a text is handed to [json.loads]. *)
Inductive call : Type :=
| GetSecretValue (secret_id : string)
| HttpRequest (method url : string)
| PutRecord (stream : string) (record : string)
| JsonLoads (text : string)
| RandomChoice
| Utcnow.

(** Computations that may raise and that record their calls. *)
Definition M (A : Type) : Type := (result A * list call)%type.

Definition ret {A} (a : A) : M A := (Ok a, []).
Definition raise {A} (e : exception) : M A := (Err e, []).
Definition lift {A} (r : result A) : M A := (r, []).
Definition perform {A} (c : call) (r : result A) : M A := (r, [c]).

Definition bind {A B} (m : M A) (k : A -> M B) : M B :=
  match m with
  | (Ok a, t) => let (r, t') := k a in (r, (t ++ t')%list)
  | (Err e, t) => (Err e, t)
  end.

(** [try: body  except Exception as e: handler] *)
Definition try_except {A} (body : M A) (handler : exception -> M A) : M A :=
  match body with
  | (Ok a, t) => (Ok a, t)
  | (Err e, t) => let (r, t') := handler e in (r, (t ++ t')%list)
  end.

(** [try: body  except json.JSONDecodeError: handler] *)
Definition try_except_JSONDecodeError {A} (body : M A) (handler : M A) : M A :=
  match body with
  | (Err (Raise JSONDecodeError _), t) => let (r, t') := handler in (r, (t ++ t')%list)
  | other => other
  end.

Declare Scope M_scope.
Delimit Scope M_scope with M.
Notation "x <- m ;; k" := (bind m (fun x => k))
  (at level 61, m at next level, right associativity) : M_scope.

Definition outcome {A} (m : M A) : result A := fst m.
Definition trace {A} (m : M A) : list call := snd m.

Definition is_http_request (c : call) : bool :=
  match c with HttpRequest _ _ => true | _ => false end.
Definition is_put_record (c : call) : bool :=
  match c with PutRecord _ _ => true | _ => false end.
Definition is_utcnow (c : call) : bool :=
  match c with Utcnow => true | _ => false end.
Definition is_json_loads (c : call) : bool :=
  match c with JsonLoads _ => true | _ => false end.

Local Open Scope result_scope.
Local Open Scope M_scope.

Section Module.

Context (lib : PyLib) (w : World).

(* ------------------------------------------------------------------ *)
(** ** Library calls *)

(** [str(v)], as f-strings apply it. *)
Definition str (v : pyval) : string :=
  match v with
  | PyStr s => s
  | PyInt n => str_of_int n
  | PyBool true => "True"
  | PyBool false => "False"
  | PyNone => "None"
  | _ => repr_value lib v
  end.

(** [data.decode('utf-8')] *)
Definition decode_utf8 (bytes : string) : result string :=
  if utf8_valid 0 0 0 bytes then Ok bytes
  else Err (Raise UnicodeDecodeError (decode_error_str lib bytes)).

(** [json.loads(v)] *)
Definition loads (v : pyval) : M pyval :=
  match v with
  | PyStr s => perform (JsonLoads s) (json_loads lib s)
  | _ =>
      raise (Raise TypeError
               ("the JSON object must be str, bytes or bytearray, not "
                  ++ type_name v))
  end.

(** [datetime.utcfromtimestamp(v)] *)
Definition utcfromtimestamp (v : pyval) : result datetime :=
  let at_second (t : Z) :=
    if timestamp_in_range t then Ok (gmtime t)
    else Err (timestamp_error lib v) in
  match v with
  | PyInt t => at_second t
  | PyBool b => at_second (if b then 1 else 0)
  | PyFloat x =>
      if PrimFloat.is_nan x
      then Err (Raise ValueError "Invalid value NaN (not a number)")
      else match seconds_of_float x with
           | Some t => at_second t
           | None => Err (timestamp_error lib v)
           end
  | _ =>
      Err (Raise TypeError
             ("'" ++ type_name v ++ "' object cannot be interpreted as an integer"))
  end.

(** [os.environ.get(name)] and [os.environ.get(name, default)] *)
Fixpoint assoc (name : string) (l : list (string * string)) : option string :=
  match l with
  | [] => None
  | (k, v) :: l' => if String.eqb name k then Some v else assoc name l'
  end.

Definition environ_get (name : string) : pyval :=
  match assoc name (environ w) with
  | Some v => PyStr v
  | None => PyNone
  end.

Definition environ_get_default (name default : string) : string :=
  match assoc name (environ w) with
  | Some v => v
  | None => default
  end.

(** [random.choice(seq)]: the element at the drawn index, which is below
    [len(seq)]. *)
Definition random_choice (seq : list string) : string :=
  nth (Nat.modulo (random_draw w) (List.length seq)) seq EmptyString.

(* ------------------------------------------------------------------ *)
(** ** Constants, lines 19-25 *)

Definition DELIVERY_STREAM_NAME : string :=
  environ_get_default "DELIVERY_STREAM_NAME" "weather-data-stream".
Definition SECRET_NAME : option string :=
  assoc "WEATHER_API_SECRET_NAME" (environ w).
Definition DEFAULT_CITY : string := environ_get_default "DEFAULT_CITY" "London".
Definition WEATHER_API_URL : string :=
  "https://api.openweathermap.org/data/2.5/weather".

Definition RANDOM_CITIES : list string :=
  ["London"; "New York"; "Paris"; "Berlin"; "Tokyo"; "Sydney"; "Cairo";
   "Toronto"; "Istanbul"].

(* ------------------------------------------------------------------ *)
(** ** [get_api_key], lines 27-48 *)

Definition get_api_key : M pyval :=
  try_except
    (match SECRET_NAME with
     | None | Some EmptyString =>
         (* [if not SECRET_NAME] *)
         ret (environ_get "OpenWeatherMapApiKey")
     | Some secret_name =>
         response <- perform (GetSecretValue secret_name)
                       (get_secret_value w secret_name) ;;
         secret <- lift (getitem response "SecretString") ;;
         try_except_JSONDecodeError
           (secret_dict <- loads secret ;;
            lift (get_method secret_dict "OpenWeatherMapApiKey"))
           (ret secret)
     end)
    (fun e => ret (environ_get "OpenWeatherMapApiKey")).

(* ------------------------------------------------------------------ *)
(** ** [transform_weather_data], lines 54-93 *)

(** [data[k1][k2]] and [data['weather'][0][k]] *)
Definition getitem2 (data : pyval) (k1 k2 : string) : result pyval :=
  let? x := getitem data k1 in getitem x k2.

Definition weather0 (data : pyval) (k : string) : result pyval :=
  let? x := getitem data "weather" in
  let? y := getitem0 x in
  getitem y k.

(** [kelvin_to_celsius(data['main'][k])] *)
Definition main_celsius (data : pyval) (k : string) : result pyval :=
  let? x := getitem2 data "main" k in kelvin_to_celsius x.

(** [datetime.utcfromtimestamp(data['sys'][k]).strftime(...)] *)
Definition sys_time (data : pyval) (k : string) : result pyval :=
  let? x := getitem2 data "sys" k in
  let? dt := utcfromtimestamp x in
  Ok (PyStr (strftime dt)).

(** ['sys' in data and 'sunrise' in data['sys'] and 'sunset' in data['sys']] *)
Definition has_sun_times (data : pyval) : result bool :=
  let? a := contains "sys" data in
  if a then
    let? sys := getitem data "sys" in
    let? b := contains "sunrise" sys in
    if b then
      let? sys := getitem data "sys" in
      contains "sunset" sys
    else Ok false
  else Ok false.

(** The body of [transform_weather_data] once the clock has been read
    (lines 60-93). *)
Definition transform_at (event_timestamp : Z) (data : pyval) : result pydict :=
  let? city := getitem data "name" in
  let? country := getitem2 data "sys" "country" in
  let? weather_condition := weather0 data "main" in
  let? weather_description := weather0 data "description" in
  let transformed_data :=
    [("city", city);
     ("country", country);
     ("weather_condition", weather_condition);
     ("weather_description", weather_description);
     ("event_timestamp", PyInt event_timestamp)] in
  let? has_main := contains "main" data in
  let? transformed_data :=
    if has_main then
      let? temperature_celsius := main_celsius data "temp" in
      let? feels_like_celsius := main_celsius data "feels_like" in
      let? temp_min_celsius := main_celsius data "temp_min" in
      let? temp_max_celsius := main_celsius data "temp_max" in
      let? humidity_percent := getitem2 data "main" "humidity" in
      let? pressure_hpa := getitem2 data "main" "pressure" in
      Ok (dict_update transformed_data
            [("temperature_celsius", temperature_celsius);
             ("feels_like_celsius", feels_like_celsius);
             ("temp_min_celsius", temp_min_celsius);
             ("temp_max_celsius", temp_max_celsius);
             ("humidity_percent", humidity_percent);
             ("pressure_hpa", pressure_hpa)])
    else Ok transformed_data in
  let? has_wind := contains "wind" data in
  let? transformed_data :=
    if has_wind then
      let? wind := getitem data "wind" in
      let? wind_speed_ms := get_method wind "speed" in
      let? wind := getitem data "wind" in
      let? wind_direction_degrees := get_method wind "deg" in
      Ok (dict_update transformed_data
            [("wind_speed_ms", wind_speed_ms);
             ("wind_direction_degrees", wind_direction_degrees)])
    else Ok transformed_data in
  let? has_sun := has_sun_times data in
  let? transformed_data :=
    if has_sun then
      let? sunrise := sys_time data "sunrise" in
      let? sunset := sys_time data "sunset" in
      Ok (dict_update transformed_data
            [("sunrise", sunrise); ("sunset", sunset)])
    else Ok transformed_data in
  Ok transformed_data.

Definition transform_weather_data (data : pyval) : M pydict :=
  event_timestamp <- perform Utcnow (Ok (utcnow_timestamp w)) ;;
  lift (transform_at event_timestamp data).

(* ------------------------------------------------------------------ *)
(** ** [lambda_handler], lines 95-148 *)

(** The returned dictionary. *)
Definition response_dict (status_code : Z) (body : pyval) : pyval :=
  PyDict [("statusCode", PyInt status_code);
          ("body", PyStr (json_dumps lib body))].

(** Line 101:
    [event.get('city') or DEFAULT_CITY or random.choice(RANDOM_CITIES)] *)
Definition city_of (event : pyval) : M pyval :=
  c <- lift (get_method event "city") ;;
  if truthy c then ret c
  else if truthy (PyStr DEFAULT_CITY) then ret (PyStr DEFAULT_CITY)
  else perform RandomChoice (Ok (PyStr (random_choice RANDOM_CITIES))).

Definition no_api_key_message : string :=
  "No API key available. Set WEATHER_API_KEY environment variable or configure secret.".

(** Line 108: [f"{WEATHER_API_URL}?q={city}&appid={api_key}"] *)
Definition request_url (city api_key : pyval) : string :=
  WEATHER_API_URL ++ "?q=" ++ str city ++ "&appid=" ++ str api_key.

(** Lines 111-141: what the handler does with the provider's response. *)
Definition handle_response (city : pyval) (response : HTTPResponse) : M pyval :=
  if negb (status response =? 200) then
    text <- lift (decode_utf8 (data response)) ;;
    let error_msg :=
      "Weather API error: Status " ++ str_of_int (status response)
        ++ ", Response: " ++ text in
    ret (response_dict (status response)
           (PyDict [("error", PyStr error_msg)]))
  else
    text <- lift (decode_utf8 (data response)) ;;
    weather_data <- loads (PyStr text) ;;
    transformed_data <- transform_weather_data weather_data ;;
    let json_data := json_dumps lib (PyDict transformed_data) ++ newline in
    response <- perform (PutRecord DELIVERY_STREAM_NAME json_data)
                  (put_record w DELIVERY_STREAM_NAME json_data) ;;
    record_id <- lift (get_method response "RecordId") ;;
    ret (response_dict 200
           (PyDict [("message", PyStr "Weather data successfully sent to Firehose");
                    ("city", city);
                    ("recordId", record_id)])).

(** The [try] block, lines 97-141. *)
Definition handler_body (event context : pyval) : M pyval :=
  api_key <- get_api_key ;;
  city <- city_of event ;;
  if negb (truthy api_key) then
    raise (Raise ValueError no_api_key_message)
  else
    let url := request_url city api_key in
    response <- perform (HttpRequest "GET" url) (http_request w "GET" url) ;;
    handle_response city response.

(** The [except Exception as e] block, lines 143-148. *)
Definition handler_except (e : exception) : M pyval :=
  let error_message := "Error processing weather data: " ++ exc_str e in
  ret (response_dict 500 (PyDict [("error", PyStr error_message)])).

Definition lambda_handler (event context : pyval) : M pyval :=
  try_except (handler_body event context) handler_except.

End Module.

Arguments lambda_handler lib w event context : simpl never.

(* ================================================================== *)
(** * Test doubles *)
(* ================================================================== *)

(** A small library and a few worlds on which the definitions can be
    run: a provider that answers with canned bodies, an in-memory
    secret store, a sink that accepts every record. *)
Module Demo.

Definition dquote : string := String (ascii_of_nat 34) EmptyString.
Definition quoted (s : string) : string := dquote ++ s ++ dquote.

Definition dumps_scalar (v : pyval) : string :=
  match v with
  | PyNone => "null"
  | PyBool true => "true"
  | PyBool false => "false"
  | PyInt n => str_of_int n
  | PyStr s => quoted s
  | _ => "..."
  end.

(** Enough of [json.dumps] for flat dictionaries of plain strings and
    integers. *)
Definition dumps (v : pyval) : string :=
  match v with
  | PyDict d =>
      "{" ++ String.concat ", "
               (map (fun kv => quoted (fst kv) ++ ": " ++ dumps_scalar (snd kv)) d)
          ++ "}"
  | _ => dumps_scalar v
  end.

(** A complete observation, and observations lacking some section or
    sub-field. *)
Definition clear_sky : pyval :=
  PyDict
    [("name", PyStr "Paris");
     ("sys", PyDict [("country", PyStr "FR");
                     ("sunrise", PyInt 1700000000);
                     ("sunset", PyInt 1700034000)]);
     ("weather", PyList [PyDict [("main", PyStr "Clear");
                                 ("description", PyStr "clear sky")]]);
     ("main", PyDict [("temp", PyFloat 300.15);
                      ("feels_like", PyFloat 273.15);
                      ("temp_min", PyInt 290);
                      ("temp_max", PyFloat 301.5);
                      ("humidity", PyInt 40);
                      ("pressure", PyInt 1013)]);
     ("wind", PyDict [("speed", PyFloat 3.6); ("deg", PyInt 250)])].

Definition empty_wind : pyval :=
  PyDict
    [("name", PyStr "Cairo");
     ("sys", PyDict [("country", PyStr "EG")]);
     ("weather", PyList [PyDict [("main", PyStr "Dust");
                                 ("description", PyStr "dust")]]);
     ("wind", PyDict [])].

Definition gust_only : pyval :=
  PyDict
    [("name", PyStr "Cairo");
     ("sys", PyDict [("country", PyStr "EG")]);
     ("weather", PyList [PyDict [("main", PyStr "Dust");
                                 ("description", PyStr "dust")]]);
     ("wind", PyDict [("deg", PyInt 90); ("gust", PyFloat 7.5)])].

Definition no_conditions_fields : pydict :=
  [("name", PyStr "Oslo");
   ("sys", PyDict [("country", PyStr "NO")]);
   ("weather", PyList [])].

Definition no_conditions : pyval := PyDict no_conditions_fields.

(** The canned bodies of the provider. *)
Definition clear_sky_body : string := "<clear sky over Paris>".
Definition no_conditions_body : string := "<Oslo, no conditions>".

Definition parse (text : string) : result pyval :=
  if String.eqb text clear_sky_body then Ok clear_sky
  else if String.eqb text no_conditions_body then Ok no_conditions
  else if String.eqb text "{}" then Ok (PyDict [])
  else if String.eqb text "<secret object>"
  then Ok (PyDict [("OpenWeatherMapApiKey", PyStr "k-json-1")])
  else Err (Raise JSONDecodeError "Expecting value: line 1 column 1 (char 0)").

Definition lib : PyLib :=
  {| json_loads := parse;
     json_dumps := dumps;
     repr_value := fun _ => "...";
     decode_error_str := fun _ => "'utf-8' codec can't decode bytes";
     timestamp_error := fun _ => Raise ValueError "year is out of range" |}.

Definition no_secret_store (secret_id : string) : result pyval :=
  Err (Raise (OtherException "ResourceNotFoundException")
         "Secrets Manager can't find the specified secret.").

Definition accepting_sink (stream record : string) : result pyval :=
  Ok (PyDict [("RecordId", PyStr "record-1")]).

Definition failing_sink (stream record : string) : result pyval :=
  Err (Raise (OtherException "ServiceUnavailableException") "Slow down.").

Definition answering (code : Z) (body : string) (method url : string)
  : result HTTPResponse :=
  Ok {| status := code; data := body |}.

(** A store whose secret is the bare key, and one whose secret is a
    JSON object holding the key. *)
Definition raw_secret : string := "k-raw-1".
Definition json_secret : string := "<secret object>".

Definition raw_secret_store (secret_id : string) : result pyval :=
  Ok (PyDict [("SecretString", PyStr raw_secret)]).

Definition json_secret_store (secret_id : string) : result pyval :=
  Ok (PyDict [("SecretString", PyStr json_secret)]).

Definition make (store : string -> result pyval)
    (env : list (string * string))
    (http : string -> string -> result HTTPResponse)
    (sink : string -> string -> result pyval) : World :=
  {| environ := env;
     get_secret_value := store;
     http_request := http;
     put_record := sink;
     random_draw := 4;
     utcnow_timestamp := 1700000123 |}.

Definition world := make no_secret_store.

Definition with_key : list (string * string) :=
  [("OpenWeatherMapApiKey", "k123")].

Definition with_secret_name : list (string * string) :=
  [("WEATHER_API_SECRET_NAME", "weather/api"); ("OpenWeatherMapApiKey", "k123")].

(** A body that is not UTF-8: the single byte 0xFF. *)
Definition undecodable : string := String (ascii_of_nat 255) EmptyString.

End Demo.

(* ================================================================== *)
(** * The normalized record, group by group *)
(* ================================================================== *)

(** The record of section 3 of the specification: five required fields,
    then three optional groups, each independently present or absent.
    [normalized_record] assembles it from separate groups; it is shown
    below to be what [transform_weather_data] computes. *)

Definition required_fields : list string :=
  ["city"; "country"; "weather_condition"; "weather_description";
   "event_timestamp"].
Definition main_fields : list string :=
  ["temperature_celsius"; "feels_like_celsius"; "temp_min_celsius";
   "temp_max_celsius"; "humidity_percent"; "pressure_hpa"].
Definition wind_fields : list string :=
  ["wind_speed_ms"; "wind_direction_degrees"].
Definition sun_fields : list string := ["sunrise"; "sunset"].

(** The observation has a top-level section [k]. *)
Definition has_section (k : string) (data : pyval) : bool :=
  match data with
  | PyDict d => dict_mem k d
  | _ => false
  end.

(** The [sys] object of the observation has a field [k]. *)
Definition sys_has (k : string) (data : pyval) : bool :=
  match data with
  | PyDict d =>
      match dict_lookup "sys" d with
      | Some (PyDict s) => dict_mem k s
      | _ => false
      end
  | _ => false
  end.

Definition has_sunrise_and_sunset (data : pyval) : bool :=
  sys_has "sunrise" data && sys_has "sunset" data.

Section Groups.

Context (lib : PyLib).

Definition required_group (event_timestamp : Z) (data : pyval) : result pydict :=
  let? city := getitem data "name" in
  let? country := getitem2 data "sys" "country" in
  let? weather_condition := weather0 data "main" in
  let? weather_description := weather0 data "description" in
  Ok [("city", city);
      ("country", country);
      ("weather_condition", weather_condition);
      ("weather_description", weather_description);
      ("event_timestamp", PyInt event_timestamp)].

Definition main_group (data : pyval) : result pydict :=
  if has_section "main" data then
    let? temperature_celsius := main_celsius data "temp" in
    let? feels_like_celsius := main_celsius data "feels_like" in
    let? temp_min_celsius := main_celsius data "temp_min" in
    let? temp_max_celsius := main_celsius data "temp_max" in
    let? humidity_percent := getitem2 data "main" "humidity" in
    let? pressure_hpa := getitem2 data "main" "pressure" in
    Ok [("temperature_celsius", temperature_celsius);
        ("feels_like_celsius", feels_like_celsius);
        ("temp_min_celsius", temp_min_celsius);
        ("temp_max_celsius", temp_max_celsius);
        ("humidity_percent", humidity_percent);
        ("pressure_hpa", pressure_hpa)]
  else Ok [].

Definition wind_group (data : pyval) : result pydict :=
  if has_section "wind" data then
    let? wind := getitem data "wind" in
    let? wind_speed_ms := get_method wind "speed" in
    let? wind_direction_degrees := get_method wind "deg" in
    Ok [("wind_speed_ms", wind_speed_ms);
        ("wind_direction_degrees", wind_direction_degrees)]
  else Ok [].

Definition sun_group (data : pyval) : result pydict :=
  if has_sunrise_and_sunset data then
    let? sunrise := sys_time lib data "sunrise" in
    let? sunset := sys_time lib data "sunset" in
    Ok [("sunrise", sunrise); ("sunset", sunset)]
  else Ok [].

Definition normalized_record (event_timestamp : Z) (data : pyval)
  : result pydict :=
  let? required := required_group event_timestamp data in
  let? main := main_group data in
  let? wind := wind_group data in
  let? sun := sun_group data in
  Ok (required ++ main ++ wind ++ sun)%list.

End Groups.

(* ================================================================== *)
(** * The calendar and the time format, as [datetime] defines them *)
(* ================================================================== *)

(** The proleptic Gregorian ordinal of a date ([date.toordinal]): the
    days before its year, before its month, and its day. *)
Definition is_leap (y : Z) : bool :=
  (y mod 4 =? 0) && (negb (y mod 100 =? 0) || (y mod 400 =? 0)).

Definition days_before_year (y : Z) : Z :=
  let p := y - 1 in p * 365 + p / 4 - p / 100 + p / 400.

Definition days_in_month (y m : Z) : Z :=
  if (m =? 2) && is_leap y then 29
  else nth (Z.to_nat m) [-1; 31; 28; 31; 30; 31; 30; 31; 31; 30; 31; 30; 31] (-1).

Definition days_before_month (y m : Z) : Z :=
  nth (Z.to_nat m) [-1; 0; 31; 59; 90; 120; 151; 181; 212; 243; 273; 304; 334] (-1)
  + (if (2 <? m) && is_leap y then 1 else 0).

Definition ymd2ord (y m d : Z) : Z :=
  days_before_year y + days_before_month y m + d.

(** [date(1970, 1, 1).toordinal()] *)
Definition epoch_ordinal : Z := 719163.

Definition valid_datetime (dt : datetime) : bool :=
  (1 <=? year dt) && (year dt <=? 9999)
  && (1 <=? month dt) && (month dt <=? 12)
  && (1 <=? day dt) && (day dt <=? days_in_month (year dt) (month dt))
  && (0 <=? hour dt) && (hour dt <? 24)
  && (0 <=? minute dt) && (minute dt <? 60)
  && (0 <=? second dt) && (second dt <? 60).

(** The seconds from the epoch to a UTC date and time. *)
Definition timegm (dt : datetime) : Z :=
  (ymd2ord (year dt) (month dt) (day dt) - epoch_ordinal) * 86400
  + hour dt * 3600 + minute dt * 60 + second dt.

(** Reading a text of the form [YYYY-MM-DD HH:MM:SS UTC]. *)
Definition digit_value (c : ascii) : option Z :=
  let n := byte_value c in
  if (48 <=? n) && (n <=? 57) then Some (n - 48) else None.

Definition number (digits : list ascii) : option Z :=
  fold_left
    (fun acc c =>
       match acc, digit_value c with
       | Some a, Some v => Some (10 * a + v)
       | _, _ => None
       end)
    digits (Some 0).

Definition parse_utc (text : string) : option datetime :=
  match list_ascii_of_string text with
  | [y1; y2; y3; y4; p1; m1; m2; p2; d1; d2; p3; h1; h2; p4; n1; n2; p5;
     s1; s2; p6; p7; p8; p9] =>
      if String.eqb (string_of_list_ascii [p1; p2; p3; p4; p5; p6; p7; p8; p9])
           "-- :: UTC"
      then
        match number [y1; y2; y3; y4], number [m1; m2], number [d1; d2],
              number [h1; h2], number [n1; n2], number [s1; s2] with
        | Some y, Some m, Some d, Some h, Some n, Some s =>
            Some (Datetime y m d h n s)
        | _, _, _, _, _, _ => None
        end
      else None
  | _ => None
  end.

(** [p] holds of the [2 ^ n] integers from [lo] on. *)
Fixpoint all_from (n : nat) (lo : Z) (p : Z -> bool) : bool :=
  match n with
  | O => p lo
  | S k => all_from k lo p && all_from k (lo + 2 ^ Z.of_nat k) p
  end.

(** The date computed for day [doe] of era 0 is a valid date whose
    ordinal is that of this day. *)
Definition civil_day_ok (doe : Z) : bool :=
  let '(y, m, d) := civil_from_days (doe - 719468) in
  (1 <=? m) && (m <=? 12) && (1 <=? d) && (d <=? days_in_month y m)
  && (ymd2ord y m d - epoch_ordinal =? doe - 719468).

(* ================================================================== *)
(** * Predicates on worlds, traces and observations *)
(* ================================================================== *)

(** The secret identifier is configured: set and not empty. *)
Definition secret_configured (w : World) : bool :=
  match SECRET_NAME w with
  | Some (String _ _) => true
  | _ => false
  end.

(** The calls of [get_api_key] go to the secret store and to
    [json.loads] only. *)
Definition is_credential_call (c : call) : bool :=
  match c with
  | GetSecretValue _ | JsonLoads _ => true
  | _ => false
  end.

(** The calls made before the provider is contacted: those of
    [get_api_key], and the random draw of the city. *)
Definition is_preparation_call (c : call) : bool :=
  match c with
  | GetSecretValue _ | JsonLoads _ | RandomChoice => true
  | _ => false
  end.

(** The [sys] section of an observation is an object, or is absent. *)
Definition sys_is_object_or_absent (d : pydict) : bool :=
  match dict_lookup "sys" d with
  | None | Some (PyDict _) => true
  | Some _ => false
  end.

(** The observation has no [name], or no [sys.country], or its
    [weather] array is empty. *)
Definition lacks_required (d : pydict) : bool :=
  negb (dict_mem "name" d)
  || match dict_lookup "sys" d with
     | None => true
     | Some (PyDict s) => negb (dict_mem "country" s)
     | Some _ => false
     end
  || match dict_lookup "weather" d with
     | Some (PyList []) => true
     | _ => false
     end.

(** The body of every error response: [{'error': message}]. *)
Definition error_body (message : string) : pyval :=
  PyDict [("error", PyStr message)].

(** The calls made after the request to the provider. *)
Fixpoint calls_after_request (t : list call) : list call :=
  match t with
  | [] => []
  | HttpRequest _ _ :: rest => rest
  | _ :: rest => calls_after_request rest
  end.

(** The invocation gets as far as the provider, which answers
    [response]: a key [key] was resolved (with the calls [t1]), the city
    is [city] (with the calls [t2]), and the request succeeded. *)
Definition receives (lib : PyLib) (w : World) (event : pyval)
    (key : pyval) (t1 : list call) (city : pyval) (t2 : list call)
    (response : HTTPResponse) : Prop :=
  get_api_key lib w = (Ok key, t1)
  /\ truthy key = true
  /\ city_of w event = (Ok city, t2)
  /\ http_request w "GET" (request_url lib city key) = Ok response.

(** [event.get('city')] on an event with the fields [d]. *)
Definition requested_city (d : pydict) : pyval :=
  match dict_lookup "city" d with
  | Some c => c
  | None => PyNone
  end.

(** The output fields computed by [kelvin_to_celsius], each with the
    field of [main] it is computed from. *)
Definition celsius_fields : list (string * string) :=
  [("temperature_celsius", "temp");
   ("feels_like_celsius", "feels_like");
   ("temp_min_celsius", "temp_min");
   ("temp_max_celsius", "temp_max")].

(* ================================================================== *)
(** * Further predicates and test doubles *)
(* ================================================================== *)

(** The [statusCode] of a returned dictionary. *)
Definition status_code (r : pyval) : option pyval :=
  match r with
  | PyDict d => dict_lookup "statusCode" d
  | _ => None
  end.

(** The calls of a complete invocation once the key and the city are
    resolved, in the order of the source: the request (line 109), the
    parse (line 120), the clock read by the transformer (line 56) and
    the record put on the stream (line 128). *)
Definition pipeline (url body stream line : string) : list call :=
  [HttpRequest "GET" url; JsonLoads body; Utcnow; PutRecord stream line].

(** The top-level sections of an observation that the transformer
    reads, and the fields of [main] it reads. *)
Definition used_sections : list string :=
  ["name"; "sys"; "weather"; "main"; "wind"].

Definition main_keys : list string :=
  ["temp"; "feels_like"; "temp_min"; "temp_max"; "humidity"; "pressure"].

(** The float nearest to [n / 100]: what [json.loads] gives for a
    number written with two decimals. *)
Definition nearest_hundredths (n : Z) : float :=
  match n with
  | Z0 => 0%float
  | Zpos p =>
      SF2Prim (SFdiv prec emax (S754_finite false p 0) (S754_finite false 100 0))
  | Zneg p =>
      SF2Prim (SFdiv prec emax (S754_finite true p 0) (S754_finite false 100 0))
  end.

(** [kelvin_to_celsius] of [n / 100] kelvins is the float nearest to
    [(n - 27315) / 100]. *)
Definition cent_exact (n : Z) : bool :=
  match kelvin_to_celsius (PyFloat (nearest_hundredths n)) with
  | Ok (PyFloat c) => PrimFloat.Leibniz.eqb c (nearest_hundredths (n - 27315))
  | _ => false
  end.

Module Cases.

(** A store whose secret is a JSON object without the key field. *)
Definition empty_object_store (secret_id : string) : result pyval :=
  Ok (PyDict [("SecretString", PyStr "{}")]).

(** A store whose secret is binary: the answer has no [SecretString]. *)
Definition binary_store (secret_id : string) : result pyval :=
  Ok (PyDict [("SecretBinary", PyStr "a2V5")]).

(** A provider that cannot be reached. *)
Definition unreachable (method url : string) : result HTTPResponse :=
  Err (Raise (OtherException "MaxRetryError") "Max retries exceeded").

(** A sink whose answer carries no record identifier. *)
Definition silent_sink (stream record : string) : result pyval :=
  Ok (PyDict []).

(** Observations with a partial [main] section and with a null [wind]. *)
Definition partial_main_fields : pydict :=
  [("name", PyStr "Lima");
   ("sys", PyDict [("country", PyStr "PE")]);
   ("weather", PyList [PyDict [("main", PyStr "Mist");
                               ("description", PyStr "mist")]]);
   ("main", PyDict [("temp", PyFloat 290.15); ("humidity", PyInt 88)])].

Definition null_wind_fields : pydict :=
  [("name", PyStr "Lima");
   ("sys", PyDict [("country", PyStr "PE")]);
   ("weather", PyList [PyDict [("main", PyStr "Mist");
                               ("description", PyStr "mist")];
                       PyDict [("main", PyStr "Rain");
                               ("description", PyStr "light rain")]]);
   ("wind", PyNone)].

(** The full observation of [Demo], with sections the transformer does
    not read. *)
Definition clear_sky_fields : pydict :=
  match Demo.clear_sky with
  | PyDict d => d
  | _ => []
  end.

Definition verbose_fields : pydict :=
  (("coord", PyDict [("lon", PyFloat 2.35); ("lat", PyFloat 48.85)])
     :: clear_sky_fields
     ++ [("dt", PyInt 1700000001); ("clouds", PyDict [("all", PyInt 0)])])%list.

End Cases.

(** A value subtraction with a float accepts: a float, an integer or a
    boolean. *)
Definition is_number (v : pyval) : bool :=
  match v with
  | PyFloat _ | PyInt _ | PyBool _ => true
  | _ => false
  end.

(** From the year 1000 on, the decimal digits of a year are its four
    digits. *)
Definition year_text_ok (y : Z) : bool :=
  (y <? 1000) || (9999 <? y) || String.eqb (str_of_int y) (pad4 y).

(** The float [x] is the integer [n], exactly. *)
Definition float_is_integer (x : float) (n : Z) : Prop :=
  match Prim2SF x with
  | S754_zero _ => n = 0
  | S754_finite s m e =>
      if 0 <=? e then n = cond_Zopp s (Zpos m) * 2 ^ e
      else cond_Zopp s (Zpos m) = n * 2 ^ (- e)
  | _ => False
  end.

(** The float nearest to [q / 100] for [q >= 0], with the sign [s]
    (also on zero). *)
Definition signed_hundredths (s : bool) (q : Z) : float :=
  match q with
  | Zpos p =>
      SF2Prim (SFdiv prec emax (S754_finite s p 0) (S754_finite false 100 0))
  | _ => SF2Prim (S754_zero s)
  end.

(** [q] is an integer nearest to [n / d], the even one when two are. *)
Definition nearest_even (q n d : Z) : Prop :=
  2 * Z.abs (n - q * d) <= d
  /\ (2 * Z.abs (n - q * d) = d -> Z.even q = true).

(** The largest integer not above a finite float. *)
Definition float_floor (x : float) : option Z :=
  match Prim2SF x with
  | S754_zero _ => Some 0
  | S754_finite s m e =>
      Some (if 0 <=? e then cond_Zopp s (Zpos m) * 2 ^ e
            else cond_Zopp s (Zpos m) / 2 ^ (- e))
  | _ => None
  end.

(** The first second of the year 1000. *)
Definition year_1000_timestamp : Z := -30610224000.

Module Medieval.

(** An observation whose sunrise is the last second of the year 999. *)
Definition observation : pyval :=
  PyDict
    [("name", PyStr "York");
     ("sys", PyDict [("country", PyStr "GB");
                     ("sunrise", PyInt (-30610224001));
                     ("sunset", PyInt 1700034000)]);
     ("weather", PyList [PyDict [("main", PyStr "Fog");
                                 ("description", PyStr "fog")]])].

End Medieval.

(** The whole seconds [utcfromtimestamp] takes from a number: an
    integer as it is, a boolean as 0 or 1, a float through
    [seconds_of_float]. *)
Definition epoch_seconds (v : pyval) (t : Z) : Prop :=
  match v with
  | PyInt n => t = n
  | PyBool b => t = if b then 1 else 0
  | PyFloat x => seconds_of_float x = Some t
  | _ => False
  end.

(** The decimal digits of a year below 1000 are fewer than four. *)
Definition year_text_short (y : Z) : bool :=
  (y <? 1) || (999 <? y) || (String.length (str_of_int y) <? 4)%nat.

(* ================================================================== *)
(** * Basic facts *)
(* ================================================================== *)

(** Inversion of a successful sequence, one step at a time. *)
Ltac ok_step H :=
  match type of H with
  | rbind ?r _ = Ok _ =>
      let E := fresh "E" in
      destruct r eqn:E; cbn [rbind] in H; [| discriminate H]
  | (if ?b then _ else _) = Ok _ =>
      let B := fresh "B" in destruct b eqn:B
  | Ok _ = Ok _ => injection H as H
  end.

(** One step of a proof that two sequences agree. *)
Ltac same_step :=
  match goal with
  | |- context [rbind ?r _] =>
      lazymatch r with
      | rbind _ _ => fail
      | _ => destruct r eqn:?; cbn [rbind]; [| reflexivity]
      end
  end.

Lemma getitem_ok v k x :
  getitem v k = Ok x -> exists d, v = PyDict d /\ dict_lookup k d = Some x.
Proof.
  destruct v; cbn; try discriminate.
  destruct (dict_lookup k entries) eqn:E; [| discriminate].
  intros [= <-]. eauto.
Qed.

Lemma getitem_dict d k :
  getitem (PyDict d) k =
    match dict_lookup k d with
    | Some x => Ok x
    | None => Err (Raise KeyError (repr_key k))
    end.
Proof. reflexivity. Qed.

Lemma get_method_ok v k x :
  get_method v k = Ok x ->
  exists d, v = PyDict d /\
            x = match dict_lookup k d with Some y => y | None => PyNone end.
Proof.
  destruct v; cbn; try discriminate. intros [= <-]. eauto.
Qed.

Lemma dict_mem_keys k d :
  dict_mem k d = existsb (String.eqb k) (dict_keys d).
Proof.
  unfold dict_mem. induction d as [| [k' v] d IH]; cbn; [reflexivity |].
  destruct (String.eqb k k'); [reflexivity | exact IH].
Qed.

Lemma dict_mem_lookup k d :
  dict_mem k d = false <-> dict_lookup k d = None.
Proof.
  unfold dict_mem. destruct (dict_lookup k d); split; congruence.
Qed.

Lemma dict_keys_app (a b : pydict) :
  dict_keys (a ++ b)%list = (dict_keys a ++ dict_keys b)%list.
Proof. apply map_app. Qed.

Lemma dict_lookup_app k (a b : pydict) :
  dict_lookup k (a ++ b)%list =
    match dict_lookup k a with
    | Some v => Some v
    | None => dict_lookup k b
    end.
Proof.
  induction a as [| [k' v] a IH]; cbn; [reflexivity |].
  destruct (String.eqb k k'); [reflexivity | exact IH].
Qed.

(** ['sys' in data and ...] computes [has_sunrise_and_sunset] once the
    required fields have been read. *)
Lemma has_sun_times_dict d s :
  dict_lookup "sys" d = Some (PyDict s) ->
  has_sun_times (PyDict d) = Ok (has_sunrise_and_sunset (PyDict d)).
Proof.
  intros Hsys. unfold has_sun_times, has_sunrise_and_sunset, sys_has.
  cbn [contains rbind]. unfold dict_mem at 1. rewrite getitem_dict, Hsys.
  cbn [rbind contains].
  destruct (dict_mem "sunrise" s); reflexivity.
Qed.

(** [transform_weather_data] computes the normalized record. *)
Lemma transform_at_normalized lib now data :
  transform_at lib now data = normalized_record lib now data.
Proof.
  unfold transform_at, normalized_record, required_group.
  same_step.
  destruct (getitem_ok _ _ Heqr) as (d & -> & Hname).
  same_step.
  assert (Hsys : exists s, dict_lookup "sys" d = Some (PyDict s)).
  { unfold getitem2 in Heqr0. ok_step Heqr0.
    destruct (getitem_ok _ _ E) as (d' & [= <-] & Hs).
    destruct (getitem_ok _ _ Heqr0) as (s & -> & _). eauto. }
  destruct Hsys as (s & Hsys).
  do 2 same_step.
  rewrite (has_sun_times_dict _ Hsys).
  unfold main_group, wind_group, sun_group. cbn [contains has_section rbind].
  destruct (dict_mem "main" d).
  - repeat same_step.
    destruct (dict_mem "wind" d).
    + repeat same_step.
      destruct (has_sunrise_and_sunset (PyDict d)); repeat same_step; reflexivity.
    + cbn [rbind].
      destruct (has_sunrise_and_sunset (PyDict d)); repeat same_step; reflexivity.
  - cbn [rbind]. destruct (dict_mem "wind" d).
    + repeat same_step.
      destruct (has_sunrise_and_sunset (PyDict d)); repeat same_step; reflexivity.
    + cbn [rbind].
      destruct (has_sunrise_and_sunset (PyDict d)); repeat same_step; reflexivity.
Qed.

Lemma outcome_transform_weather_data lib w data :
  outcome (transform_weather_data lib w data)
  = normalized_record lib (utcnow_timestamp w) data.
Proof.
  unfold transform_weather_data, outcome, perform, bind, lift.
  cbn. apply transform_at_normalized.
Qed.

Lemma trace_transform_weather_data lib w data :
  trace (transform_weather_data lib w data) = [Utcnow].
Proof. reflexivity. Qed.

(** Inversion of the groups: after [groups_inv H], with
    [H : normalized_record lib now data = Ok rec], the observation is a
    dictionary [d], its [sys] is a dictionary [s], and [rec] is an
    explicit list of fields for each combination of sections. *)
Lemma required_group_ok now data r :
  required_group now data = Ok r ->
  exists d s city country condition description,
    data = PyDict d /\
    dict_lookup "name" d = Some city /\
    dict_lookup "sys" d = Some (PyDict s) /\
    dict_lookup "country" s = Some country /\
    weather0 data "main" = Ok condition /\
    weather0 data "description" = Ok description /\
    r = [("city", city); ("country", country);
         ("weather_condition", condition);
         ("weather_description", description);
         ("event_timestamp", PyInt now)].
Proof.
  unfold required_group. intros H.
  ok_step H. destruct (getitem_ok _ _ E) as (d & -> & Hname).
  ok_step H. unfold getitem2 in E0. ok_step E0.
  destruct (getitem_ok _ _ E1) as (d' & [= <-] & Hsys).
  destruct (getitem_ok _ _ E0) as (s & -> & Hcountry).
  do 2 ok_step H. ok_step H. subst r.
  do 6 eexists. split; [reflexivity |].
  repeat split; eassumption.
Qed.

Lemma main_group_ok data m :
  main_group data = Ok m ->
  if has_section "main" data then
    exists t f lo hi h p,
      main_celsius data "temp" = Ok t /\
      main_celsius data "feels_like" = Ok f /\
      main_celsius data "temp_min" = Ok lo /\
      main_celsius data "temp_max" = Ok hi /\
      getitem2 data "main" "humidity" = Ok h /\
      getitem2 data "main" "pressure" = Ok p /\
      m = [("temperature_celsius", t); ("feels_like_celsius", f);
           ("temp_min_celsius", lo); ("temp_max_celsius", hi);
           ("humidity_percent", h); ("pressure_hpa", p)]
  else m = [].
Proof.
  unfold main_group. destruct (has_section "main" data).
  - intros H. do 6 ok_step H. ok_step H. subst m.
    do 6 eexists. repeat split; reflexivity.
  - intros [= <-]. reflexivity.
Qed.

Lemma wind_group_ok data wd :
  wind_group data = Ok wd ->
  if has_section "wind" data then
    exists wind,
      getitem data "wind" = Ok (PyDict wind) /\
      wd = [("wind_speed_ms",
             match dict_lookup "speed" wind with Some v => v | None => PyNone end);
            ("wind_direction_degrees",
             match dict_lookup "deg" wind with Some v => v | None => PyNone end)]
  else wd = [].
Proof.
  unfold wind_group. destruct (has_section "wind" data).
  - intros H. ok_step H.
    ok_step H. destruct (get_method_ok _ _ E0) as (wind & -> & ->).
    ok_step H. destruct (get_method_ok _ _ E1) as (wind' & [= <-] & ->).
    ok_step H. subst wd. exists wind. split; reflexivity.
  - intros [= <-]. reflexivity.
Qed.

Lemma sun_group_ok lib data sn :
  sun_group lib data = Ok sn ->
  if has_sunrise_and_sunset data then
    exists sunrise sunset,
      sys_time lib data "sunrise" = Ok sunrise /\
      sys_time lib data "sunset" = Ok sunset /\
      sn = [("sunrise", sunrise); ("sunset", sunset)]
  else sn = [].
Proof.
  unfold sun_group. destruct (has_sunrise_and_sunset data).
  - intros H. do 2 ok_step H. ok_step H. subst sn.
    do 2 eexists. repeat split; reflexivity.
  - intros [= <-]. reflexivity.
Qed.

Lemma normalized_record_ok lib now data rec :
  normalized_record lib now data = Ok rec ->
  exists r m wd sn,
    required_group now data = Ok r /\
    main_group data = Ok m /\
    wind_group data = Ok wd /\
    sun_group lib data = Ok sn /\
    rec = (r ++ m ++ wd ++ sn)%list.
Proof.
  unfold normalized_record. intros H. do 4 ok_step H. ok_step H.
  subst rec. do 4 eexists. repeat split; reflexivity.
Qed.

Ltac groups_inv H :=
  let r := fresh "r" in
  let m := fresh "m" in
  let wd := fresh "wd" in
  let sn := fresh "sn" in
  let Hr := fresh "Hr" in
  let Hm := fresh "Hm" in
  let Hw := fresh "Hw" in
  let Hs := fresh "Hs" in
  apply normalized_record_ok in H;
  destruct H as (r & m & wd & sn & Hr & Hm & Hw & Hs & ->);
  apply required_group_ok in Hr;
  destruct Hr as (?d & ?s & ?city & ?country & ?condition & ?description
                  & -> & ?Hname & ?Hsys & ?Hcountry & ?Hcond & ?Hdescr & ->);
  apply main_group_ok in Hm;
  apply wind_group_ok in Hw;
  apply sun_group_ok in Hs.

(** The keys of the record, in order. *)
Lemma normalized_record_keys lib now data rec :
  normalized_record lib now data = Ok rec ->
  dict_keys rec =
    (required_fields
       ++ (if has_section "main" data then main_fields else [])
       ++ (if has_section "wind" data then wind_fields else [])
       ++ (if has_sunrise_and_sunset data then sun_fields else []))%list.
Proof.
  intros H. groups_inv H.
  rewrite !dict_keys_app. f_equal. f_equal; [| f_equal].
  - destruct (has_section "main" (PyDict d)).
    + destruct Hm as (t & f & lo & hi & h & p & _ & _ & _ & _ & _ & _ & ->).
      reflexivity.
    + subst m. reflexivity.
  - destruct (has_section "wind" (PyDict d)).
    + destruct Hw as (wind & _ & ->). reflexivity.
    + subst wd. reflexivity.
  - destruct (has_sunrise_and_sunset (PyDict d)).
    + destruct Hs as (sr & ss & _ & _ & ->). reflexivity.
    + subst sn. reflexivity.
Qed.

(* ================================================================== *)
(** * The shape of the output record *)
(* ================================================================== *)

(** C1.  Whenever the transformer accepts an observation, the record it
    returns has exactly these keys, in this order: the five required
    fields, then the six main-metrics fields if and only if the
    observation has a [main] section, the two wind fields if and only if
    it has a [wind] section, and [sunrise] and [sunset] if and only if
    its [sys] object has both timestamps.  Hence every required field is
    present, and a field of an optional group is present exactly when its
    section is: when the section is absent the key is not in the record
    at all, so it does not appear with a null value either. *)
Theorem transform_record_fields lib w data rec :
  outcome (transform_weather_data lib w data) = Ok rec ->
  dict_keys rec =
    (required_fields
       ++ (if has_section "main" data then main_fields else [])
       ++ (if has_section "wind" data then wind_fields else [])
       ++ (if has_sunrise_and_sunset data then sun_fields else []))%list
  /\ (forall k, In k required_fields -> dict_mem k rec = true)
  /\ (forall k, In k main_fields ->
        dict_mem k rec = has_section "main" data)
  /\ (forall k, In k wind_fields ->
        dict_mem k rec = has_section "wind" data)
  /\ (forall k, In k sun_fields ->
        dict_mem k rec = has_sunrise_and_sunset data).
Proof.
  rewrite outcome_transform_weather_data. intros H.
  pose proof (normalized_record_keys _ _ _ H) as K.
  split; [exact K |].
  repeat split; intros k Hin; rewrite dict_mem_keys, K;
    destruct (has_section "main" data), (has_section "wind" data),
      (has_sunrise_and_sunset data);
    cbn in Hin; repeat (destruct Hin as [<- | Hin]; [reflexivity |]);
    contradiction.
Qed.

Lemma transform_record_fields_witness :
  exists rec,
    outcome (transform_weather_data Demo.lib
               (Demo.world [] (Demo.answering 200 Demo.clear_sky_body)
                  Demo.accepting_sink)
               Demo.empty_wind) = Ok rec
    /\ dict_keys rec = (required_fields ++ wind_fields)%list
    /\ dict_mem "sunrise" rec = false.
Proof.
  eexists. split; [reflexivity |].
  pose proof (@transform_record_fields Demo.lib
                (Demo.world [] (Demo.answering 200 Demo.clear_sky_body)
                   Demo.accepting_sink)
                Demo.empty_wind _ eq_refl) as (K & _ & _ & _ & S).
  split; [exact K | exact (S "sunrise" (or_introl eq_refl))].
Defined.

(* ================================================================== *)
(** * Wind fields *)
(* ================================================================== *)

(** C3, as the specification words it, does not hold: an observation
    whose [wind] object has a direction and a gust but no [speed] is
    accepted, and its record does contain the key [wind_speed_ms], with
    the value [None] (JSON [null]). *)
Lemma missing_wind_speed_is_null :
  let w := Demo.world [] (Demo.answering 200 Demo.clear_sky_body)
             Demo.accepting_sink in
  has_section "wind" Demo.gust_only = true
  /\ getitem2 Demo.gust_only "wind" "speed" = Err (Raise KeyError "'speed'")
  /\ exists rec,
       outcome (transform_weather_data Demo.lib w Demo.gust_only) = Ok rec
       /\ dict_mem "wind_speed_ms" rec = true
       /\ dict_lookup "wind_speed_ms" rec = Some PyNone
       /\ dict_lookup "wind_direction_degrees" rec = Some (PyInt 90).
Proof.
  cbv zeta. split; [reflexivity |]. split; [reflexivity |].
  eexists. split; [reflexivity |]. repeat split.
Qed.

(** C3, amended.  Whenever the transformer accepts an observation that
    has a [wind] section, that section is an object and the record has
    both wind fields: each holds the value of its sub-field ([speed],
    [deg]) unmodified when the sub-field is there, and [None] (JSON
    [null], not zero, and not an omitted key) when it is missing. *)
Theorem wind_fields_copied_or_null lib w data rec :
  outcome (transform_weather_data lib w data) = Ok rec ->
  has_section "wind" data = true ->
  exists wind,
    getitem data "wind" = Ok (PyDict wind)
    /\ dict_lookup "wind_speed_ms" rec =
         Some (match dict_lookup "speed" wind with
               | Some v => v
               | None => PyNone
               end)
    /\ dict_lookup "wind_direction_degrees" rec =
         Some (match dict_lookup "deg" wind with
               | Some v => v
               | None => PyNone
               end).
Proof.
  rewrite outcome_transform_weather_data. intros H Hwind.
  groups_inv H. rewrite Hwind in Hw.
  destruct Hw as (wind & Hget & ->). exists wind.
  split; [exact Hget |].
  destruct (has_section "main" (PyDict d)).
  - destruct Hm as (t & f & lo & hi & h & p & _ & _ & _ & _ & _ & _ & ->).
    split; reflexivity.
  - subst m. split; reflexivity.
Qed.

Lemma wind_fields_copied_or_null_witness :
  exists rec wind,
    outcome (transform_weather_data Demo.lib
               (Demo.world [] (Demo.answering 200 Demo.clear_sky_body)
                  Demo.accepting_sink)
               Demo.gust_only) = Ok rec
    /\ getitem Demo.gust_only "wind" = Ok (PyDict wind)
    /\ dict_lookup "wind_speed_ms" rec = Some PyNone
    /\ dict_lookup "wind_direction_degrees" rec = Some (PyInt 90).
Proof.
  destruct (@wind_fields_copied_or_null Demo.lib
              (Demo.world [] (Demo.answering 200 Demo.clear_sky_body)
                 Demo.accepting_sink)
              Demo.gust_only _ eq_refl eq_refl) as (wind & Hget & Hs & Hd).
  eexists. exists wind. split; [reflexivity |].
  split; [exact Hget |].
  injection Hget as <-. split; [exact Hs | exact Hd].
Defined.

(* ================================================================== *)
(** * Nested fields *)
(* ================================================================== *)

Lemma getitem2_ok m k1 k2 x :
  getitem2 (PyDict m) k1 k2 = Ok x ->
  exists inner,
    dict_lookup k1 m = Some (PyDict inner) /\ dict_lookup k2 inner = Some x.
Proof.
  unfold getitem2. intros H. ok_step H.
  destruct (getitem_ok _ _ E) as (d' & [= <-] & H1).
  destruct (getitem_ok _ _ H) as (inner & -> & H2). eauto.
Qed.

(* ================================================================== *)
(** * Calendar facts *)
(* ================================================================== *)

Lemma all_from_spec n p :
  forall lo, all_from n lo p = true ->
  forall z, lo <= z < lo + 2 ^ Z.of_nat n -> p z = true.
Proof.
  induction n as [| k IH]; intros lo H z Hz.
  - cbn in *. assert (z = lo) as -> by lia. exact H.
  - cbn [all_from] in H. apply andb_true_iff in H as [Hl Hr].
    rewrite Nat2Z.inj_succ, Z.pow_succ_r in Hz by lia.
    destruct (Z_lt_ge_dec z (lo + 2 ^ Z.of_nat k)).
    + apply (IH lo Hl). lia.
    + apply (IH _ Hr). lia.
Qed.

(** Every day of era 0, checked by computation: 146097 is below
    2^17 + 2^14. *)
Lemma civil_day_ok_era0 :
  forall doe, 0 <= doe < 146097 -> civil_day_ok doe = true.
Proof.
  intros doe Hdoe.
  destruct (Z_lt_ge_dec doe 131072).
  - apply (@all_from_spec 17 civil_day_ok 0); [vm_compute; reflexivity |].
    change (2 ^ Z.of_nat 17) with 131072. lia.
  - apply (@all_from_spec 14 civil_day_ok 131072); [vm_compute; reflexivity |].
    change (2 ^ Z.of_nat 14) with 16384. lia.
Qed.

Lemma is_leap_period y e : is_leap (y + e * 400) = is_leap y.
Proof.
  unfold is_leap.
  replace ((y + e * 400) mod 4) with (y mod 4)
    by (replace (e * 400) with (e * 100 * 4) by ring; now rewrite Z.mod_add).
  replace ((y + e * 400) mod 100) with (y mod 100)
    by (replace (e * 400) with (e * 4 * 100) by ring; now rewrite Z.mod_add).
  replace ((y + e * 400) mod 400) with (y mod 400) by (now rewrite Z.mod_add).
  reflexivity.
Qed.

Lemma days_before_year_period y e :
  days_before_year (y + e * 400) = days_before_year y + e * 146097.
Proof.
  unfold days_before_year. cbv zeta.
  replace (y + e * 400 - 1) with (y - 1 + e * 400) by ring.
  replace ((y - 1 + e * 400) / 4) with ((y - 1) / 4 + e * 100)
    by (replace (e * 400) with (e * 100 * 4) by ring; now rewrite Z.div_add).
  replace ((y - 1 + e * 400) / 100) with ((y - 1) / 100 + e * 4)
    by (replace (e * 400) with (e * 4 * 100) by ring; now rewrite Z.div_add).
  replace ((y - 1 + e * 400) / 400) with ((y - 1) / 400 + e)
    by (now rewrite Z.div_add).
  ring.
Qed.

Lemma civil_from_days_period z e :
  civil_from_days (z + e * 146097) =
    let '(y, m, d) := civil_from_days z in (y + e * 400, m, d).
Proof.
  unfold civil_from_days. cbv zeta.
  replace (z + e * 146097 + 719468) with (z + 719468 + e * 146097) by ring.
  rewrite Z.div_add, Z.mod_add by lia.
  f_equal. f_equal. ring.
Qed.

Lemma civil_from_days_era doe e :
  0 <= doe < 146097 ->
  let '(y, m, d) := civil_from_days (doe - 719468 + e * 146097) in
  1 <= m <= 12 /\ 1 <= d <= days_in_month y m
  /\ ymd2ord y m d - epoch_ordinal = doe - 719468 + e * 146097.
Proof.
  intros Hdoe.
  pose proof (civil_day_ok_era0 Hdoe) as Hok. unfold civil_day_ok in Hok.
  rewrite civil_from_days_period.
  destruct (civil_from_days (doe - 719468)) as [[y m] d].
  rewrite !andb_true_iff in Hok.
  destruct Hok as ((((H1 & H2) & H3) & H4) & H5).
  unfold days_in_month, ymd2ord, days_before_month in *.
  rewrite is_leap_period, days_before_year_period.
  lia.
Qed.

Lemma civil_from_days_correct z :
  let '(y, m, d) := civil_from_days z in
  1 <= m <= 12 /\ 1 <= d <= days_in_month y m
  /\ ymd2ord y m d - epoch_ordinal = z.
Proof.
  pose proof (Z.div_mod (z + 719468) 146097 ltac:(lia)) as Hdm.
  pose proof (Z.mod_pos_bound (z + 719468) 146097 ltac:(lia)) as Hdoe.
  pose proof (civil_from_days_era ((z + 719468) / 146097) Hdoe) as H.
  replace ((z + 719468) mod 146097 - 719468 + (z + 719468) / 146097 * 146097)
    with z in H by lia.
  exact H.
Qed.

Lemma days_to_year_end y m d :
  1 <= m <= 12 -> 1 <= d <= days_in_month y m ->
  1 <= days_before_month y m + d <= 366.
Proof.
  intros Hm Hd. unfold days_before_month, days_in_month in *.
  assert (Hc : m = 1 \/ m = 2 \/ m = 3 \/ m = 4 \/ m = 5 \/ m = 6 \/ m = 7
               \/ m = 8 \/ m = 9 \/ m = 10 \/ m = 11 \/ m = 12) by lia.
  destruct (is_leap y);
    repeat match goal with H : _ \/ _ |- _ => destruct H as [H | H] end;
    subst m;
    cbv [nth Z.to_nat Pos.to_nat Pos.iter_op Nat.add Z.eqb Z.ltb Z.compare
         Pos.compare Pos.compare_cont Pos.eqb andb] in *;
    lia.
Qed.

Lemma year_in_range y m d :
  1 <= m <= 12 -> 1 <= d <= days_in_month y m ->
  -719162 <= ymd2ord y m d - epoch_ordinal <= 2932896 ->
  1 <= y <= 9999.
Proof.
  intros Hm Hd Hord. pose proof (@days_to_year_end y m d Hm Hd) as Hdays.
  unfold ymd2ord, epoch_ordinal, days_before_year in Hord.
  cbv zeta in Hord.
  pose proof (Z.div_mod (y - 1) 4 ltac:(lia)).
  pose proof (Z.mod_pos_bound (y - 1) 4 ltac:(lia)).
  pose proof (Z.div_mod (y - 1) 100 ltac:(lia)).
  pose proof (Z.mod_pos_bound (y - 1) 100 ltac:(lia)).
  pose proof (Z.div_mod (y - 1) 400 ltac:(lia)).
  pose proof (Z.mod_pos_bound (y - 1) 400 ltac:(lia)).
  lia.
Qed.

Lemma gmtime_correct t :
  timestamp_in_range t = true ->
  valid_datetime (gmtime t) = true /\ timegm (gmtime t) = t.
Proof.
  unfold timestamp_in_range, min_timestamp, max_timestamp.
  rewrite andb_true_iff, !Z.leb_le. intros Ht.
  unfold gmtime, valid_datetime, timegm.
  pose proof (civil_from_days_correct (t / 86400)) as Hc.
  destruct (civil_from_days (t / 86400)) as [[y m] d].
  destruct Hc as (Hm & Hd & Hord). cbn [year month day hour minute second].
  pose proof (Z.div_mod t 86400 ltac:(lia)) as Ht1.
  pose proof (Z.mod_pos_bound t 86400 ltac:(lia)) as Ht2.
  assert (Hy : 1 <= y <= 9999).
  { apply (@year_in_range y m d Hm Hd). rewrite Hord. lia. }
  set (r := t mod 86400) in *.
  pose proof (Z.div_mod r 3600 ltac:(lia)).
  pose proof (Z.mod_pos_bound r 3600 ltac:(lia)).
  pose proof (Z.div_mod (r mod 3600) 60 ltac:(lia)).
  pose proof (Z.mod_pos_bound (r mod 3600) 60 ltac:(lia)).
  pose proof (Z.div_mod r 60 ltac:(lia)).
  pose proof (Z.mod_pos_bound r 60 ltac:(lia)).
  split.
  - rewrite !andb_true_iff, !Z.leb_le, !Z.ltb_lt. lia.
  - rewrite Hord. lia.
Qed.

Lemma digit_value_digit n : digit_value (digit n) = Some (n mod 10).
Proof.
  pose proof (Z.mod_pos_bound n 10 ltac:(lia)) as Hn.
  unfold digit_value, digit, byte_value.
  rewrite nat_ascii_embedding by lia.
  replace (Z.of_nat (48 + Z.to_nat (n mod 10))) with (48 + n mod 10) by lia.
  replace ((48 <=? 48 + n mod 10) && (48 + n mod 10 <=? 57)) with true
    by (symmetry; rewrite andb_true_iff, !Z.leb_le; lia).
  f_equal. lia.
Qed.

Lemma number2 a b :
  number [digit a; digit b] = Some (10 * (a mod 10) + b mod 10).
Proof.
  unfold number. cbn [fold_left]. rewrite !digit_value_digit. f_equal; lia.
Qed.

Lemma number4 a b c d :
  number [digit a; digit b; digit c; digit d]
  = Some (10 * (10 * (10 * (a mod 10) + b mod 10) + c mod 10) + d mod 10).
Proof.
  unfold number. cbn [fold_left]. rewrite !digit_value_digit. f_equal; lia.
Qed.

Lemma two_digits n : 0 <= n < 100 -> 10 * ((n / 10) mod 10) + n mod 10 = n.
Proof.
  intros Hn. pose proof (Z.div_mod n 10 ltac:(lia)).
  pose proof (Z.mod_pos_bound n 10 ltac:(lia)).
  rewrite (Z.mod_small (n / 10) 10) by lia. lia.
Qed.

Lemma four_digits n :
  0 <= n < 10000 ->
  10 * (10 * (10 * ((n / 1000) mod 10) + (n / 100) mod 10) + (n / 10) mod 10)
  + n mod 10 = n.
Proof.
  intros Hn.
  pose proof (Z.div_mod n 10 ltac:(lia)).
  pose proof (Z.mod_pos_bound n 10 ltac:(lia)).
  pose proof (Z.div_mod (n / 10) 10 ltac:(lia)).
  pose proof (Z.mod_pos_bound (n / 10) 10 ltac:(lia)).
  pose proof (Z.div_mod (n / 100) 10 ltac:(lia)).
  pose proof (Z.mod_pos_bound (n / 100) 10 ltac:(lia)).
  replace (n / 100) with (n / 10 / 10) in * by (rewrite Z.div_div by lia; reflexivity).
  replace (n / 1000) with (n / 10 / 10 / 10) by (rewrite !Z.div_div by lia; reflexivity).
  rewrite (Z.mod_small (n / 10 / 10 / 10) 10) by lia. lia.
Qed.

Lemma str_of_int_pad4 y :
  1000 <= y <= 9999 -> str_of_int y = pad4 y.
Proof.
  intros Hy.
  assert (H : year_text_ok y = true).
  { apply (@all_from_spec 14 year_text_ok 0); [vm_compute; reflexivity |].
    change (2 ^ Z.of_nat 14) with 16384. lia. }
  unfold year_text_ok in H.
  replace (y <? 1000) with false in H by (symmetry; apply Z.ltb_ge; lia).
  replace (9999 <? y) with false in H by (symmetry; apply Z.ltb_ge; lia).
  apply String.eqb_eq, H.
Qed.

Lemma parse_utc_strftime dt :
  valid_datetime dt = true -> 1000 <= year dt ->
  parse_utc (strftime dt) = Some dt.
Proof.
  unfold valid_datetime. rewrite !andb_true_iff, !Z.leb_le, !Z.ltb_lt.
  intros Hv Hyear. destruct dt as [y m d h n s].
  cbn [year month day hour minute second] in *.
  assert (Hd : d <= 31).
  { assert (Hd : d <= days_in_month y m) by lia.
    assert (Hm : 1 <= m <= 12) by lia. clear Hv.
    unfold days_in_month in Hd.
    assert (Hc : m = 1 \/ m = 2 \/ m = 3 \/ m = 4 \/ m = 5 \/ m = 6 \/ m = 7
               \/ m = 8 \/ m = 9 \/ m = 10 \/ m = 11 \/ m = 12) by lia.
    destruct (is_leap y);
    repeat match goal with H : _ \/ _ |- _ => destruct H as [H | H] end;
    subst m;
    cbv [nth Z.to_nat Pos.to_nat Pos.iter_op Nat.add Z.eqb Z.ltb Z.compare
         Pos.compare Pos.compare_cont Pos.eqb andb] in *;
    lia. }
  unfold strftime. cbn [year month day hour minute second].
  rewrite str_of_int_pad4 by lia.
  unfold parse_utc, pad4, pad2.
  cbn [append list_ascii_of_string string_of_list_ascii].
  change (String.eqb _ "-- :: UTC") with true. cbv iota.
  rewrite number4, !number2.
  rewrite four_digits, !two_digits by lia. reflexivity.
Qed.

Lemma utcfromtimestamp_ok lib v dt :
  utcfromtimestamp lib v = Ok dt ->
  exists t,
    timestamp_in_range t = true /\ dt = gmtime t
    /\ (forall n, v = PyInt n -> t = n).
Proof.
  unfold utcfromtimestamp.
  destruct v as [| b | n | x | | |]; try discriminate.
  - destruct (timestamp_in_range (if b then 1 else 0)) eqn:R; [| discriminate].
    intros [= <-]. eexists. split; [exact R |]. split; [reflexivity |].
    discriminate.
  - destruct (timestamp_in_range n) eqn:R; [| discriminate].
    intros [= <-]. exists n. split; [exact R |]. split; [reflexivity |].
    now intros ? [= <-].
  - destruct (is_nan x); [discriminate |].
    destruct (seconds_of_float x) as [t |]; [| discriminate].
    destruct (timestamp_in_range t) eqn:R; [| discriminate].
    intros [= <-]. exists t. split; [exact R |]. split; [reflexivity |].
    discriminate.
Qed.

Lemma sys_time_ok lib data k out :
  sys_time lib data k = Ok out ->
  exists v dt,
    getitem2 data "sys" k = Ok v
    /\ utcfromtimestamp lib v = Ok dt
    /\ out = PyStr (strftime dt).
Proof.
  unfold sys_time. intros H. do 2 ok_step H. ok_step H. subst out. eauto.
Qed.

(* ================================================================== *)
(** * Credential resolution *)
(* ================================================================== *)

Lemma get_api_key_unconfigured lib w :
  secret_configured w = false ->
  get_api_key lib w = (Ok (environ_get w "OpenWeatherMapApiKey"), []).
Proof.
  unfold secret_configured, get_api_key.
  destruct (SECRET_NAME w) as [[| c name] |]; try discriminate; reflexivity.
Qed.

(** What the [try] block of [get_api_key] does with the answer of the
    secret store. *)
Lemma get_api_key_configured lib w c name :
  SECRET_NAME w = Some (String c name) ->
  get_api_key lib w =
    match get_secret_value w (String c name) with
    | Err _ =>
        (Ok (environ_get w "OpenWeatherMapApiKey"),
         [GetSecretValue (String c name)])
    | Ok response =>
        match getitem response "SecretString" with
        | Err _ =>
            (Ok (environ_get w "OpenWeatherMapApiKey"),
             [GetSecretValue (String c name)])
        | Ok (PyStr secret) =>
            match json_loads lib secret with
            | Ok secret_dict =>
                match get_method secret_dict "OpenWeatherMapApiKey" with
                | Ok key =>
                    (Ok key, [GetSecretValue (String c name); JsonLoads secret])
                | Err _ =>
                    (Ok (environ_get w "OpenWeatherMapApiKey"),
                     [GetSecretValue (String c name); JsonLoads secret])
                end
            | Err (Raise JSONDecodeError _) =>
                (Ok (PyStr secret),
                 [GetSecretValue (String c name); JsonLoads secret])
            | Err _ =>
                (Ok (environ_get w "OpenWeatherMapApiKey"),
                 [GetSecretValue (String c name); JsonLoads secret])
            end
        | Ok _ =>
            (Ok (environ_get w "OpenWeatherMapApiKey"),
             [GetSecretValue (String c name)])
        end
    end.
Proof.
  intros Hname. unfold get_api_key. rewrite Hname.
  unfold perform, lift, bind, try_except, try_except_JSONDecodeError, ret.
  destruct (get_secret_value w (String c name)) as [response | e];
    [| reflexivity].
  destruct (getitem response "SecretString") as [secret | e]; [| reflexivity].
  destruct secret; try reflexivity.
  unfold loads, perform.
  destruct (json_loads lib s) as [secret_dict | [[] msg]]; try reflexivity.
  destruct secret_dict; reflexivity.
Qed.

Lemma get_api_key_total lib w :
  exists key t,
    get_api_key lib w = (Ok key, t) /\ forallb is_credential_call t = true.
Proof.
  destruct (secret_configured w) eqn:Hc.
  - unfold secret_configured in Hc.
    destruct (SECRET_NAME w) as [[| c name] |] eqn:Hname; try discriminate.
    rewrite (@get_api_key_configured lib w c name Hname).
    destruct (get_secret_value w (String c name)) as [response | e];
      [| eauto].
    destruct (getitem response "SecretString") as [[] | e]; eauto.
    destruct (json_loads lib s) as [secret_dict | [[] msg]]; eauto.
    destruct (get_method secret_dict "OpenWeatherMapApiKey"); eauto.
  - rewrite (@get_api_key_unconfigured lib w Hc). eauto.
Qed.

(** C9.  [get_api_key] never raises: it always returns a value.  When
    no secret identifier is configured, or when the secret store raises,
    it returns the environment value [OpenWeatherMapApiKey].  When the
    secret is a text that [json.loads] rejects with a [JSONDecodeError],
    the text itself is returned as the key; when it parses to an object,
    the field [OpenWeatherMapApiKey] of the object is returned ([None]
    if the object has no such field), and when it parses to anything
    else, the environment value is returned.  When the secret store is
    not configured or raises and the environment value is not set either,
    the result is [None]. *)
Theorem get_api_key_never_raises lib w :
  (exists key, outcome (get_api_key lib w) = Ok key)
  /\ (secret_configured w = false ->
      get_api_key lib w = (Ok (environ_get w "OpenWeatherMapApiKey"), []))
  /\ (forall name e,
        secret_configured w = true -> SECRET_NAME w = Some name ->
        get_secret_value w name = Err e ->
        get_api_key lib w
        = (Ok (environ_get w "OpenWeatherMapApiKey"), [GetSecretValue name]))
  /\ (forall name response secret msg,
        secret_configured w = true -> SECRET_NAME w = Some name ->
        get_secret_value w name = Ok response ->
        getitem response "SecretString" = Ok (PyStr secret) ->
        json_loads lib secret = Err (Raise JSONDecodeError msg) ->
        get_api_key lib w
        = (Ok (PyStr secret), [GetSecretValue name; JsonLoads secret]))
  /\ (forall name response secret value,
        secret_configured w = true -> SECRET_NAME w = Some name ->
        get_secret_value w name = Ok response ->
        getitem response "SecretString" = Ok (PyStr secret) ->
        json_loads lib secret = Ok value ->
        outcome (get_api_key lib w)
        = Ok (match value with
              | PyDict fields =>
                  match dict_lookup "OpenWeatherMapApiKey" fields with
                  | Some key => key
                  | None => PyNone
                  end
              | _ => environ_get w "OpenWeatherMapApiKey"
              end))
  /\ (assoc "OpenWeatherMapApiKey" (environ w) = None ->
      (secret_configured w = false
       \/ exists name e, SECRET_NAME w = Some name
                         /\ get_secret_value w name = Err e) ->
      outcome (get_api_key lib w) = Ok PyNone).
Proof.
  assert (Hconf : forall name,
            secret_configured w = true -> SECRET_NAME w = Some name ->
            exists c rest, name = String c rest).
  { unfold secret_configured. intros name Hc Hn. rewrite Hn in Hc.
    destruct name; [discriminate | eauto]. }
  split; [| split; [| split; [| split; [| split]]]].
  - destruct (get_api_key_total lib w) as (key & t & -> & _).
    exists key. reflexivity.
  - apply get_api_key_unconfigured.
  - intros name e Hc Hn Hstore.
    destruct (Hconf name Hc Hn) as (c & rest & ->).
    rewrite (@get_api_key_configured lib w c rest Hn), Hstore. reflexivity.
  - intros name response secret msg Hc Hn Hstore Hsecret Hloads.
    destruct (Hconf name Hc Hn) as (c & rest & ->).
    rewrite (@get_api_key_configured lib w c rest Hn), Hstore, Hsecret, Hloads.
    reflexivity.
  - intros name response secret value Hc Hn Hstore Hsecret Hloads.
    destruct (Hconf name Hc Hn) as (c & rest & ->).
    rewrite (@get_api_key_configured lib w c rest Hn), Hstore, Hsecret, Hloads.
    destruct value; reflexivity.
  - intros Henv [Hc | (name & e & Hn & Hstore)].
    + rewrite (@get_api_key_unconfigured lib w Hc).
      unfold environ_get. rewrite Henv. reflexivity.
    + destruct (secret_configured w) eqn:Hc.
      * destruct (Hconf name eq_refl Hn) as (c & rest & ->).
        rewrite (@get_api_key_configured lib w c rest Hn), Hstore.
        unfold environ_get. rewrite Henv. reflexivity.
      * rewrite (@get_api_key_unconfigured lib w Hc).
        unfold environ_get. rewrite Henv. reflexivity.
Qed.

Lemma get_api_key_never_raises_witness :
  get_api_key Demo.lib
    (Demo.world [] (Demo.answering 200 Demo.clear_sky_body) Demo.accepting_sink)
  = (Ok PyNone, [])
  /\ get_api_key Demo.lib
       (Demo.world Demo.with_secret_name
          (Demo.answering 200 Demo.clear_sky_body) Demo.accepting_sink)
     = (Ok (PyStr "k123"), [GetSecretValue "weather/api"])
  /\ get_api_key Demo.lib
       (Demo.make Demo.raw_secret_store Demo.with_secret_name
          (Demo.answering 200 Demo.clear_sky_body) Demo.accepting_sink)
     = (Ok (PyStr Demo.raw_secret),
        [GetSecretValue "weather/api"; JsonLoads Demo.raw_secret])
  /\ outcome (get_api_key Demo.lib
       (Demo.make Demo.json_secret_store Demo.with_secret_name
          (Demo.answering 200 Demo.clear_sky_body) Demo.accepting_sink))
     = Ok (PyStr "k-json-1")
  /\ outcome (get_api_key Demo.lib
       (Demo.world [("WEATHER_API_SECRET_NAME", "weather/api")]
          (Demo.answering 200 Demo.clear_sky_body) Demo.accepting_sink))
     = Ok PyNone.
Proof.
  split; [| split; [| split; [| split]]].
  - exact (proj1 (proj2 (@get_api_key_never_raises Demo.lib
             (Demo.world [] (Demo.answering 200 Demo.clear_sky_body)
                Demo.accepting_sink))) eq_refl).
  - exact (proj1 (proj2 (proj2 (@get_api_key_never_raises Demo.lib
             (Demo.world Demo.with_secret_name
                (Demo.answering 200 Demo.clear_sky_body) Demo.accepting_sink))))
             "weather/api" _ eq_refl eq_refl eq_refl).
  - exact (proj1 (proj2 (proj2 (proj2 (@get_api_key_never_raises Demo.lib
             (Demo.make Demo.raw_secret_store Demo.with_secret_name
                (Demo.answering 200 Demo.clear_sky_body) Demo.accepting_sink)))))
             "weather/api" _ Demo.raw_secret _ eq_refl eq_refl eq_refl eq_refl
             eq_refl).
  - exact (proj1 (proj2 (proj2 (proj2 (proj2 (@get_api_key_never_raises Demo.lib
             (Demo.make Demo.json_secret_store Demo.with_secret_name
                (Demo.answering 200 Demo.clear_sky_body) Demo.accepting_sink))))))
             "weather/api" _ Demo.json_secret _ eq_refl eq_refl eq_refl eq_refl
             eq_refl).
  - exact (proj2 (proj2 (proj2 (proj2 (proj2 (@get_api_key_never_raises Demo.lib
             (Demo.world [("WEATHER_API_SECRET_NAME", "weather/api")]
                (Demo.answering 200 Demo.clear_sky_body) Demo.accepting_sink))))))
             eq_refl
             (or_intror (ex_intro _ "weather/api" (ex_intro _ _ (conj eq_refl eq_refl))))).
Defined.

(* ================================================================== *)
(** * The handler, step by step *)
(* ================================================================== *)

Lemma city_of_cases w event :
  city_of w event =
    match get_method event "city" with
    | Err e => (Err e, [])
    | Ok c =>
        if truthy c then (Ok c, [])
        else if truthy (PyStr (DEFAULT_CITY w))
             then (Ok (PyStr (DEFAULT_CITY w)), [])
             else (Ok (PyStr (random_choice w RANDOM_CITIES)), [RandomChoice])
    end.
Proof.
  unfold city_of, lift, bind, ret, perform.
  destruct (get_method event "city") as [c | e]; [| reflexivity].
  destruct (truthy c); [reflexivity |].
  destruct (truthy (PyStr (DEFAULT_CITY w))); reflexivity.
Qed.

Lemma city_of_trace w event :
  forallb is_preparation_call (trace (city_of w event)) = true.
Proof.
  rewrite city_of_cases.
  destruct (get_method event "city") as [c | e]; [| reflexivity].
  destruct (truthy c); [reflexivity |].
  destruct (truthy (PyStr (DEFAULT_CITY w))); reflexivity.
Qed.

Lemma credential_calls_are_preparation t :
  forallb is_credential_call t = true -> forallb is_preparation_call t = true.
Proof.
  induction t as [| c t IH]; [reflexivity |]. cbn.
  rewrite !andb_true_iff. intros [Hc Ht]. split; [| exact (IH Ht)].
  destruct c; try discriminate; reflexivity.
Qed.

Lemma preparation_calls_only t :
  forallb is_preparation_call t = true ->
  existsb is_http_request t = false
  /\ existsb is_put_record t = false
  /\ existsb is_utcnow t = false.
Proof.
  induction t as [| c t IH]; [repeat split |]. cbn.
  rewrite andb_true_iff. intros [Hc Ht]. destruct (IH Ht) as (H1 & H2 & H3).
  rewrite H1, H2, H3. destruct c; try discriminate; repeat split.
Qed.

(** The [try] block, up to the moment the response arrives. *)
Lemma handler_body_cases lib w event context key t1 :
  get_api_key lib w = (Ok key, t1) ->
  handler_body lib w event context =
    match city_of w event with
    | (Err e, t2) => (Err e, t1 ++ t2)%list
    | (Ok city, t2) =>
        if truthy key then
          match http_request w "GET" (request_url lib city key) with
          | Err e =>
              (Err e,
               t1 ++ t2 ++ [HttpRequest "GET" (request_url lib city key)])%list
          | Ok response =>
              (outcome (handle_response lib w city response),
               t1 ++ t2 ++ HttpRequest "GET" (request_url lib city key)
                  :: trace (handle_response lib w city response))%list
          end
        else (Err (Raise ValueError no_api_key_message), t1 ++ t2)%list
    end.
Proof.
  intros Hkey. unfold handler_body. rewrite Hkey. unfold bind at 1.
  destruct (city_of w event) as [[city | e] t2]; [| reflexivity].
  unfold bind at 1.
  destruct (truthy key); cbn [negb]; [| cbn; rewrite app_nil_r; reflexivity].
  unfold bind, perform.
  destruct (http_request w "GET" (request_url lib city key)) as [response | e];
    [| reflexivity].
  destruct (handle_response lib w city response) as [r t3]. reflexivity.
Qed.

(** The [except] block turns any exception of the [try] block into a
    response with status 500. *)
Lemma lambda_handler_cases lib w event context :
  lambda_handler lib w event context =
    match handler_body lib w event context with
    | (Ok r, t) => (Ok r, t)
    | (Err e, t) =>
        (Ok (response_dict lib 500
               (error_body ("Error processing weather data: " ++ exc_str e))),
         t)
    end.
Proof.
  unfold lambda_handler, try_except, handler_except, ret.
  destruct (handler_body lib w event context) as [[r | e] t]; [reflexivity |].
  rewrite app_nil_r. reflexivity.
Qed.

Lemma handle_response_not_200 lib w city response :
  status response <> 200 ->
  handle_response lib w city response =
    match decode_utf8 lib (data response) with
    | Ok text =>
        (Ok (response_dict lib (status response)
               (error_body ("Weather API error: Status "
                              ++ str_of_int (status response)
                              ++ ", Response: " ++ text))),
         [])
    | Err e => (Err e, [])
    end.
Proof.
  intros Hstatus. unfold handle_response.
  destruct (Z.eqb_spec (status response) 200) as [E | _]; [contradiction |].
  cbn [negb]. unfold lift, bind, ret.
  destruct (decode_utf8 lib (data response)); reflexivity.
Qed.

Lemma calls_after_request_app t c rest :
  forallb is_preparation_call t = true ->
  calls_after_request (t ++ HttpRequest "GET" c :: rest) = rest.
Proof.
  induction t as [| x t IH]; [reflexivity |]. cbn [forallb app].
  rewrite andb_true_iff. intros [Hx Ht].
  destruct x; try discriminate; cbn; exact (IH Ht).
Qed.

Lemma forallb_app_true {A} (p : A -> bool) (a b : list A) :
  forallb p a = true -> forallb p b = true -> forallb p (a ++ b) = true.
Proof. intros Ha Hb. rewrite forallb_app, Ha, Hb. reflexivity. Qed.

(** Once the response is received, the handler returns what
    [handle_response] returns, or the status 500 if it raises. *)
Lemma lambda_handler_received lib w event context key t1 city t2 response :
  receives lib w event key t1 city t2 response ->
  forallb is_preparation_call (t1 ++ t2) = true
  /\ lambda_handler lib w event context =
      (match outcome (handle_response lib w city response) with
       | Ok r => Ok r
       | Err e =>
           Ok (response_dict lib 500
                 (error_body ("Error processing weather data: " ++ exc_str e)))
       end,
       t1 ++ t2 ++ HttpRequest "GET" (request_url lib city key)
          :: trace (handle_response lib w city response))%list.
Proof.
  intros (Hkey & Htruthy & Hcity & Hhttp). split.
  - apply forallb_app_true.
    + destruct (get_api_key_total lib w) as (k & t & E & Ht).
      rewrite Hkey in E. injection E as <- <-.
      apply credential_calls_are_preparation, Ht.
    + pose proof (city_of_trace w event) as Ht. rewrite Hcity in Ht. exact Ht.
  - rewrite lambda_handler_cases, (@handler_body_cases lib w event context key t1 Hkey).
    rewrite Hcity, Htruthy, Hhttp.
    destruct (outcome (handle_response lib w city response)); reflexivity.
Qed.

(* ================================================================== *)
(** * Upstream errors *)
(* ================================================================== *)

(** C6, as the specification words it, does not hold for every response:
    when the provider answers 404 with a body that is not UTF-8 (here the
    single byte 0xFF), decoding the body raises inside the [try] block
    and the handler returns status 500, not 404. *)
Lemma undecodable_error_body_gives_500 :
  let w := Demo.world Demo.with_key (Demo.answering 404 Demo.undecodable)
             Demo.accepting_sink in
  http_request w "GET"
    "https://api.openweathermap.org/data/2.5/weather?q=London&appid=k123"
  = Ok {| status := 404; data := Demo.undecodable |}
  /\ lambda_handler Demo.lib w (PyDict []) PyNone
     = (Ok (response_dict Demo.lib 500
              (error_body
                 "Error processing weather data: 'utf-8' codec can't decode bytes")),
        [HttpRequest "GET"
           "https://api.openweathermap.org/data/2.5/weather?q=London&appid=k123"]).
Proof.
  cbv zeta. split; reflexivity.
Qed.

(** C6, amended.  When the provider answers with a status other than 200
    and a body that is valid UTF-8, the handler returns that status with
    the body [{'error': 'Weather API error: Status <status>, Response:
    <body text>'}], and the request is the last call it makes: the body
    is not handed to [json.loads], the transformer is not run (the clock
    is not read) and nothing is put on the delivery stream. *)
Theorem upstream_error_mirrored lib w event context key t1 city t2 response :
  receives lib w event key t1 city t2 response ->
  status response <> 200 ->
  utf8_valid 0 0 0 (data response) = true ->
  lambda_handler lib w event context
  = (Ok (response_dict lib (status response)
           (error_body ("Weather API error: Status "
                          ++ str_of_int (status response)
                          ++ ", Response: " ++ data response))),
     t1 ++ t2 ++ [HttpRequest "GET" (request_url lib city key)])%list
  /\ calls_after_request (trace (lambda_handler lib w event context)) = []
  /\ existsb is_put_record (trace (lambda_handler lib w event context)) = false
  /\ existsb is_utcnow (trace (lambda_handler lib w event context)) = false.
Proof.
  intros Hrecv Hstatus Hutf8.
  destruct (lambda_handler_received context Hrecv) as (Hprep & ->).
  rewrite (@handle_response_not_200 lib w city response Hstatus).
  unfold decode_utf8. rewrite Hutf8. cbn [outcome trace fst snd].
  split; [reflexivity |].
  rewrite app_assoc.
  split; [apply calls_after_request_app, Hprep |].
  destruct (preparation_calls_only _ Hprep) as (_ & Hput & Hnow).
  split.
  - rewrite existsb_app, Hput. reflexivity.
  - rewrite existsb_app, Hnow. reflexivity.
Qed.

Lemma upstream_error_mirrored_witness :
  lambda_handler Demo.lib
    (Demo.world Demo.with_key (Demo.answering 404 "city not found")
       Demo.accepting_sink)
    (PyDict [("city", PyStr "Atlantis")]) PyNone
  = (Ok (response_dict Demo.lib 404
           (error_body "Weather API error: Status 404, Response: city not found")),
     [HttpRequest "GET"
        "https://api.openweathermap.org/data/2.5/weather?q=Atlantis&appid=k123"]).
Proof.
  refine (proj1 (@upstream_error_mirrored Demo.lib
            (Demo.world Demo.with_key (Demo.answering 404 "city not found")
               Demo.accepting_sink)
            (PyDict [("city", PyStr "Atlantis")]) PyNone
            (PyStr "k123") [] (PyStr "Atlantis") []
            {| status := 404; data := "city not found" |} _ _ _)).
  - repeat split.
  - discriminate.
  - reflexivity.
Defined.

(* ================================================================== *)
(** * Missing credentials *)
(* ================================================================== *)

(** C7.  When [get_api_key] returns no usable key ([None] or an empty
    value), the handler returns status 500 with an error body and makes
    no HTTP request; for an event that is an object the message of the
    body is the configuration error "No API key available...".  This is
    the case in particular when no secret is configured and the
    environment holds no key. *)
Theorem no_api_key_no_fetch lib w event context key t1 :
  get_api_key lib w = (Ok key, t1) ->
  truthy key = false ->
  (exists message,
      outcome (lambda_handler lib w event context)
      = Ok (response_dict lib 500 (error_body message)))
  /\ existsb is_http_request (trace (lambda_handler lib w event context))
     = false
  /\ (forall d, event = PyDict d ->
        outcome (lambda_handler lib w event context)
        = Ok (response_dict lib 500
                (error_body ("Error processing weather data: "
                               ++ no_api_key_message))))
  /\ (secret_configured w = false ->
      assoc "OpenWeatherMapApiKey" (environ w) = None ->
      key = PyNone /\ t1 = []).
Proof.
  intros Hkey Hfalsy.
  assert (Hprep : forallb is_preparation_call
                    (t1 ++ trace (city_of w event)) = true).
  { apply forallb_app_true; [| apply city_of_trace].
    destruct (get_api_key_total lib w) as (k & t & E & Ht).
    rewrite Hkey in E. injection E as <- <-.
    apply credential_calls_are_preparation, Ht. }
  rewrite lambda_handler_cases,
    (@handler_body_cases lib w event context key t1 Hkey), Hfalsy.
  destruct (city_of w event) as [[city | e] t2] eqn:Hcity;
    cbn [outcome trace fst snd] in *.
  - split; [eauto |].
    split; [apply (preparation_calls_only _ Hprep) |].
    split; [reflexivity |].
    intros Hc Henv. rewrite (@get_api_key_unconfigured lib w Hc) in Hkey.
    injection Hkey as <- <-. unfold environ_get. rewrite Henv. split; reflexivity.
  - split; [eauto |].
    split; [apply (preparation_calls_only _ Hprep) |].
    split.
    + intros d ->. rewrite city_of_cases in Hcity. unfold get_method in Hcity.
      repeat match type of Hcity with
             | context [if ?b then _ else _] => destruct b
             end; discriminate.
    + intros Hc Henv. rewrite (@get_api_key_unconfigured lib w Hc) in Hkey.
      injection Hkey as <- <-. unfold environ_get. rewrite Henv.
      split; reflexivity.
Qed.

Lemma no_api_key_no_fetch_witness :
  lambda_handler Demo.lib
    (Demo.world [] (Demo.answering 200 Demo.clear_sky_body) Demo.accepting_sink)
    (PyDict [("city", PyStr "Paris")]) PyNone
  = (Ok (response_dict Demo.lib 500
           (error_body ("Error processing weather data: " ++ no_api_key_message))),
     [])
  /\ existsb is_http_request
       (trace (lambda_handler Demo.lib
                 (Demo.world [] (Demo.answering 200 Demo.clear_sky_body)
                    Demo.accepting_sink)
                 (PyDict [("city", PyStr "Paris")]) PyNone)) = false.
Proof.
  destruct (@no_api_key_no_fetch Demo.lib
              (Demo.world [] (Demo.answering 200 Demo.clear_sky_body)
                 Demo.accepting_sink)
              (PyDict [("city", PyStr "Paris")]) PyNone PyNone []
              eq_refl eq_refl) as (_ & Hfetch & _ & _).
  split; [reflexivity | exact Hfetch].
Defined.

(* ================================================================== *)
(** * Malformed observations and the failure boundary *)
(* ================================================================== *)

Lemma required_group_missing_field now d :
  sys_is_object_or_absent d = true ->
  lacks_required d = true ->
  exists e, required_group now (PyDict d) = Err e /\ is_missing_field e = true.
Proof.
  unfold sys_is_object_or_absent, lacks_required, required_group, getitem2,
    weather0, dict_mem.
  intros Hsys Hlack. rewrite !getitem_dict.
  destruct (dict_lookup "name" d) as [name |]; [| eexists; split; reflexivity].
  cbn [rbind negb orb] in *.
  destruct (dict_lookup "sys" d) as [sys |]; [| eexists; split; reflexivity].
  cbn [rbind] in *. destruct sys; try discriminate.
  rewrite getitem_dict.
  destruct (dict_lookup "country" entries) as [country |];
    [| eexists; split; reflexivity].
  cbn [rbind negb orb] in *.
  destruct (dict_lookup "weather" d) as [[| | | | | [| x l] |] |];
    try discriminate.
  eexists; split; reflexivity.
Qed.

Lemma transform_missing_field lib w d :
  sys_is_object_or_absent d = true ->
  lacks_required d = true ->
  exists e,
    outcome (transform_weather_data lib w (PyDict d)) = Err e
    /\ is_missing_field e = true.
Proof.
  intros Hsys Hlack. rewrite outcome_transform_weather_data.
  destruct (@required_group_missing_field (utcnow_timestamp w) d Hsys Hlack)
    as (e & He & Hmiss).
  exists e. split; [| exact Hmiss].
  unfold normalized_record. rewrite He. reflexivity.
Qed.

(** What the handler does with a response of status 200 whose body is
    valid UTF-8. *)
Lemma handle_response_200 lib w city response :
  status response = 200 ->
  utf8_valid 0 0 0 (data response) = true ->
  handle_response lib w city response =
    match json_loads lib (data response) with
    | Err e => (Err e, [JsonLoads (data response)])
    | Ok observation =>
        match outcome (transform_weather_data lib w observation) with
        | Err e => (Err e, [JsonLoads (data response); Utcnow])
        | Ok rec =>
            let json_data := json_dumps lib (PyDict rec) ++ newline in
            let t := [JsonLoads (data response); Utcnow;
                      PutRecord (DELIVERY_STREAM_NAME w) json_data] in
            match put_record w (DELIVERY_STREAM_NAME w) json_data with
            | Err e => (Err e, t)
            | Ok answer =>
                match get_method answer "RecordId" with
                | Err e => (Err e, t)
                | Ok record_id =>
                    (Ok (response_dict lib 200
                           (PyDict
                              [("message",
                                PyStr "Weather data successfully sent to Firehose");
                               ("city", city);
                               ("recordId", record_id)])),
                     t)
                end
            end
        end
    end.
Proof.
  intros Hstatus Hutf8. unfold handle_response, decode_utf8.
  rewrite Hstatus, Hutf8.
  cbv beta iota zeta
    delta [bind perform lift ret outcome trace fst snd loads
           transform_weather_data Z.eqb Pos.eqb negb].
  destruct (json_loads lib (data response)) as [observation | e];
    [| reflexivity].
  destruct (transform_at lib (utcnow_timestamp w) observation) as [rec | e];
    [| reflexivity].
  destruct (put_record w (DELIVERY_STREAM_NAME w)
              (json_dumps lib (PyDict rec) ++ newline)) as [answer | e];
    [| reflexivity].
  destruct (get_method answer "RecordId"); reflexivity.
Qed.

(** C8.  A transformer given an observation (an object whose [sys], if
    present, is an object) without [name], without [sys.country] or with
    an empty [weather] array raises a [KeyError] or an [IndexError].  The
    handler never raises: whatever exception [e] its [try] block raises,
    it returns status 500 with the body
    [{'error': 'Error processing weather data: ' + str(e)}].  This is
    what happens when the provider's body parses to such an observation
    (and then nothing is put on the delivery stream), and when
    [put_record] raises. *)
Theorem failures_become_status_500 lib w :
  (forall d,
      sys_is_object_or_absent d = true -> lacks_required d = true ->
      exists e,
        outcome (transform_weather_data lib w (PyDict d)) = Err e
        /\ is_missing_field e = true)
  /\ (forall event context e,
        outcome (handler_body lib w event context) = Err e ->
        outcome (lambda_handler lib w event context)
        = Ok (response_dict lib 500
                (error_body ("Error processing weather data: " ++ exc_str e))))
  /\ (forall event context,
        exists r, outcome (lambda_handler lib w event context) = Ok r)
  /\ (forall event context key t1 city t2 response d,
        receives lib w event key t1 city t2 response ->
        status response = 200 ->
        utf8_valid 0 0 0 (data response) = true ->
        json_loads lib (data response) = Ok (PyDict d) ->
        sys_is_object_or_absent d = true -> lacks_required d = true ->
        exists e,
          is_missing_field e = true
          /\ outcome (transform_weather_data lib w (PyDict d)) = Err e
          /\ outcome (lambda_handler lib w event context)
             = Ok (response_dict lib 500
                     (error_body ("Error processing weather data: "
                                    ++ exc_str e)))
          /\ existsb is_put_record
               (trace (lambda_handler lib w event context)) = false)
  /\ (forall event context key t1 city t2 response observation rec e,
        receives lib w event key t1 city t2 response ->
        status response = 200 ->
        utf8_valid 0 0 0 (data response) = true ->
        json_loads lib (data response) = Ok observation ->
        outcome (transform_weather_data lib w observation) = Ok rec ->
        put_record w (DELIVERY_STREAM_NAME w)
          (json_dumps lib (PyDict rec) ++ newline) = Err e ->
        outcome (lambda_handler lib w event context)
        = Ok (response_dict lib 500
                (error_body ("Error processing weather data: " ++ exc_str e)))).
Proof.
  split; [exact (@transform_missing_field lib w) |].
  split.
  { intros event context e He. rewrite lambda_handler_cases.
    destruct (handler_body lib w event context) as [[r | e'] t];
      cbn [outcome fst] in *; [discriminate |].
    injection He as ->. reflexivity. }
  split.
  { intros event context. rewrite lambda_handler_cases.
    destruct (handler_body lib w event context) as [[r | e'] t];
      cbn [outcome fst]; eauto. }
  split.
  - intros event context key t1 city t2 response d Hrecv Hstatus Hutf8 Hloads
      Hsys Hlack.
    destruct (@transform_missing_field lib w d Hsys Hlack) as (e & He & Hmiss).
    exists e. split; [exact Hmiss |]. split; [exact He |].
    destruct (lambda_handler_received context Hrecv) as (Hprep & ->).
    rewrite (@handle_response_200 lib w city response Hstatus Hutf8), Hloads, He.
    cbn [outcome trace fst snd]. split; [reflexivity |].
    rewrite app_assoc, existsb_app.
    destruct (preparation_calls_only _ Hprep) as (_ & -> & _). reflexivity.
  - intros event context key t1 city t2 response observation rec e Hrecv
      Hstatus Hutf8 Hloads Hrec Hput.
    destruct (lambda_handler_received context Hrecv) as (_ & ->).
    rewrite (@handle_response_200 lib w city response Hstatus Hutf8), Hloads,
      Hrec.
    cbv zeta. rewrite Hput. reflexivity.
Qed.

Lemma failures_become_status_500_witness :
  (exists e,
      outcome (transform_weather_data Demo.lib
                 (Demo.world Demo.with_key
                    (Demo.answering 200 Demo.no_conditions_body)
                    Demo.accepting_sink)
                 Demo.no_conditions) = Err e
      /\ is_missing_field e = true)
  /\ outcome (lambda_handler Demo.lib
                (Demo.world Demo.with_key
                   (Demo.answering 200 Demo.no_conditions_body)
                   Demo.accepting_sink)
                (PyDict []) PyNone)
     = Ok (response_dict Demo.lib 500
             (error_body "Error processing weather data: list index out of range"))
  /\ outcome (lambda_handler Demo.lib
                (Demo.world Demo.with_key
                   (Demo.answering 200 Demo.clear_sky_body)
                   Demo.failing_sink)
                (PyDict []) PyNone)
     = Ok (response_dict Demo.lib 500
             (error_body "Error processing weather data: Slow down.")).
Proof.
  split; [| split].
  - exact (proj1 (@failures_become_status_500 Demo.lib
            (Demo.world Demo.with_key
               (Demo.answering 200 Demo.no_conditions_body)
               Demo.accepting_sink)) Demo.no_conditions_fields eq_refl eq_refl).
  - exact (proj1 (proj2 (@failures_become_status_500 Demo.lib
            (Demo.world Demo.with_key
               (Demo.answering 200 Demo.no_conditions_body)
               Demo.accepting_sink))) (PyDict []) PyNone
            (Raise IndexError "list index out of range") eq_refl).
  - exact (proj2 (proj2 (proj2 (proj2 (@failures_become_status_500 Demo.lib
            (Demo.world Demo.with_key
               (Demo.answering 200 Demo.clear_sky_body)
               Demo.failing_sink)))))
            (PyDict []) PyNone (PyStr "k123") [] (PyStr "London") []
            {| status := 200; data := Demo.clear_sky_body |}
            Demo.clear_sky _ _
            (conj eq_refl (conj eq_refl (conj eq_refl eq_refl)))
            eq_refl eq_refl eq_refl eq_refl eq_refl).
Defined.

(* ================================================================== *)
(** * City resolution *)
(* ================================================================== *)

Lemma random_choice_in w :
  In (random_choice w RANDOM_CITIES) RANDOM_CITIES.
Proof.
  unfold random_choice. apply nth_In.
  apply Nat.mod_upper_bound. discriminate.
Qed.

Lemma truthy_str s : truthy (PyStr s) = true <-> s <> EmptyString.
Proof.
  cbn. destruct s; cbn; split; congruence.
Qed.

(** C2.  For an event that is an object, the city is the event's [city]
    field when that field has a true value; otherwise it is
    [DEFAULT_CITY] when that is not empty; otherwise it is the element of
    [RANDOM_CITIES] at the drawn index, one of nine distinct cities (each
    index gives a different one).  No random draw is made in the first
    two cases.  With an empty event and no [DEFAULT_CITY] in the
    environment the city is "London", which is one of the nine.  The
    city so resolved is the [q] parameter of the request the handler
    sends. *)
Theorem city_priority_chain lib w d :
  (truthy (requested_city d) = true ->
     city_of w (PyDict d) = (Ok (requested_city d), []))
  /\ (truthy (requested_city d) = false ->
      DEFAULT_CITY w <> EmptyString ->
      city_of w (PyDict d) = (Ok (PyStr (DEFAULT_CITY w)), []))
  /\ (truthy (requested_city d) = false ->
      DEFAULT_CITY w = EmptyString ->
      city_of w (PyDict d)
      = (Ok (PyStr (nth (Nat.modulo (random_draw w) 9) RANDOM_CITIES EmptyString)),
         [RandomChoice])
      /\ In (nth (Nat.modulo (random_draw w) 9) RANDOM_CITIES EmptyString)
           RANDOM_CITIES)
  /\ (List.length RANDOM_CITIES = 9%nat /\ NoDup RANDOM_CITIES)
  /\ (d = [] -> assoc "DEFAULT_CITY" (environ w) = None ->
      city_of w (PyDict d) = (Ok (PyStr "London"), [])
      /\ In "London" RANDOM_CITIES)
  /\ (forall context key t1 city t2,
        get_api_key lib w = (Ok key, t1) -> truthy key = true ->
        city_of w (PyDict d) = (Ok city, t2) ->
        In (HttpRequest "GET"
              (WEATHER_API_URL ++ "?q=" ++ str lib city ++ "&appid="
                 ++ str lib key))
           (trace (lambda_handler lib w (PyDict d) context))).
Proof.
  assert (Hcases := city_of_cases w (PyDict d)).
  cbn [get_method] in Hcases. fold (requested_city d) in Hcases.
  split; [| split; [| split; [| split; [| split]]]].
  - intros Ht. rewrite Hcases, Ht. reflexivity.
  - intros Hf Hdef. rewrite Hcases, Hf.
    apply truthy_str in Hdef. rewrite Hdef. reflexivity.
  - intros Hf Hdef. rewrite Hcases, Hf, Hdef. split; [reflexivity |].
    apply (random_choice_in w).
  - split; [reflexivity |].
    repeat (constructor; [cbn; intuition discriminate |]). constructor.
  - intros -> Henv. unfold city_of, DEFAULT_CITY, environ_get_default.
    rewrite Henv. split; [reflexivity | left; reflexivity].
  - intros context key t1 city t2 Hkey Htruthy Hcity.
    rewrite lambda_handler_cases,
      (@handler_body_cases lib w (PyDict d) context key t1 Hkey),
      Hcity, Htruthy.
    fold (request_url lib city key).
    destruct (http_request w "GET" (request_url lib city key))
      as [response | e].
    + destruct (outcome (handle_response lib w city response));
        cbn [trace snd]; rewrite !in_app_iff; right; right; left; reflexivity.
    + cbn [trace snd]. rewrite !in_app_iff. right; right; left; reflexivity.
Qed.

Lemma city_priority_chain_witness :
  city_of (Demo.world Demo.with_key (Demo.answering 200 Demo.clear_sky_body)
             Demo.accepting_sink)
    (PyDict [("city", PyStr "Paris")])
  = (Ok (PyStr "Paris"), [])
  /\ city_of (Demo.world (("DEFAULT_CITY", "Oslo") :: Demo.with_key)
                (Demo.answering 200 Demo.clear_sky_body) Demo.accepting_sink)
       (PyDict [])
     = (Ok (PyStr "Oslo"), [])
  /\ city_of (Demo.world (("DEFAULT_CITY", EmptyString) :: Demo.with_key)
                (Demo.answering 200 Demo.clear_sky_body) Demo.accepting_sink)
       (PyDict [])
     = (Ok (PyStr "Tokyo"), [RandomChoice])
  /\ city_of (Demo.world Demo.with_key (Demo.answering 200 Demo.clear_sky_body)
                Demo.accepting_sink)
       (PyDict [])
     = (Ok (PyStr "London"), []).
Proof.
  split; [| split; [| split]].
  - exact (proj1 (@city_priority_chain Demo.lib
             (Demo.world Demo.with_key (Demo.answering 200 Demo.clear_sky_body)
                Demo.accepting_sink)
             [("city", PyStr "Paris")]) eq_refl).
  - refine (proj1 (proj2 (@city_priority_chain Demo.lib
             (Demo.world (("DEFAULT_CITY", "Oslo") :: Demo.with_key)
                (Demo.answering 200 Demo.clear_sky_body) Demo.accepting_sink)
             [])) eq_refl _).
    discriminate.
  - exact (proj1 (proj1 (proj2 (proj2 (@city_priority_chain Demo.lib
             (Demo.world (("DEFAULT_CITY", EmptyString) :: Demo.with_key)
                (Demo.answering 200 Demo.clear_sky_body) Demo.accepting_sink)
             []))) eq_refl eq_refl)).
  - exact (proj1 (proj1 (proj2 (proj2 (proj2 (proj2 (@city_priority_chain
             Demo.lib
             (Demo.world Demo.with_key (Demo.answering 200 Demo.clear_sky_body)
                Demo.accepting_sink)
             []))))) eq_refl eq_refl)).
Defined.

(** C10.  An event whose [city] field is there but has a false value
    (the empty string, [None], zero, an empty list) is handled exactly
    as an event without a [city] field: the same city is resolved, with
    the same calls, and the whole invocation is the same; the city is
    [DEFAULT_CITY] when that is not empty. *)
Theorem falsy_city_falls_through lib w d v d' context :
  dict_lookup "city" d = Some v ->
  truthy v = false ->
  dict_lookup "city" d' = None ->
  city_of w (PyDict d) = city_of w (PyDict d')
  /\ lambda_handler lib w (PyDict d) context
     = lambda_handler lib w (PyDict d') context
  /\ (DEFAULT_CITY w <> EmptyString ->
      city_of w (PyDict d) = (Ok (PyStr (DEFAULT_CITY w)), [])).
Proof.
  intros Hcity Hfalsy Habsent.
  assert (Hsame : city_of w (PyDict d) = city_of w (PyDict d')).
  { rewrite !city_of_cases. cbn [get_method].
    rewrite Hcity, Habsent, Hfalsy. reflexivity. }
  split; [exact Hsame |]. split.
  - unfold lambda_handler, handler_body. rewrite Hsame. reflexivity.
  - intros Hdef. rewrite city_of_cases. cbn [get_method].
    rewrite Hcity, Hfalsy. apply truthy_str in Hdef. rewrite Hdef. reflexivity.
Qed.

Lemma falsy_city_falls_through_witness :
  lambda_handler Demo.lib
    (Demo.world Demo.with_key (Demo.answering 404 "city not found")
       Demo.accepting_sink)
    (PyDict [("city", PyStr EmptyString)]) PyNone
  = lambda_handler Demo.lib
      (Demo.world Demo.with_key (Demo.answering 404 "city not found")
         Demo.accepting_sink)
      (PyDict []) PyNone
  /\ city_of (Demo.world Demo.with_key (Demo.answering 404 "city not found")
                Demo.accepting_sink)
       (PyDict [("city", PyStr EmptyString)])
     = (Ok (PyStr "London"), []).
Proof.
  destruct (@falsy_city_falls_through Demo.lib
              (Demo.world Demo.with_key (Demo.answering 404 "city not found")
                 Demo.accepting_sink)
              [("city", PyStr EmptyString)] (PyStr EmptyString) [] PyNone
              eq_refl eq_refl eq_refl) as (_ & Hsame & Hdefault).
  split; [exact Hsame |]. apply Hdefault. discriminate.
Defined.

(* ================================================================== *)
(** * The complete invocation *)
(* ================================================================== *)

Lemma handle_response_undecodable lib w city response :
  utf8_valid 0 0 0 (data response) = false ->
  handle_response lib w city response
  = (Err (Raise UnicodeDecodeError (decode_error_str lib (data response))), []).
Proof.
  intros Hutf8. unfold handle_response, decode_utf8. rewrite Hutf8.
  destruct (negb (status response =? 200)); reflexivity.
Qed.

(** X1.  When the provider answers 200 with a UTF-8 body that parses to
    an observation the transformer accepts, and the sink answers with an
    object, the handler returns status 200 with the message, the
    resolved city and the sink's [RecordId] ([None] when the answer has
    none).  After resolving the key and the city it makes exactly four
    calls, in this order: the request, the parse of the body, the clock,
    and one [put_record] on [DELIVERY_STREAM_NAME] whose data is
    [json.dumps] of the record followed by a newline. *)
Theorem handler_success lib w event context key t1 city t2 response
    observation rec answer :
  receives lib w event key t1 city t2 response ->
  status response = 200 ->
  utf8_valid 0 0 0 (data response) = true ->
  json_loads lib (data response) = Ok observation ->
  outcome (transform_weather_data lib w observation) = Ok rec ->
  put_record w (DELIVERY_STREAM_NAME w)
    (json_dumps lib (PyDict rec) ++ newline) = Ok (PyDict answer) ->
  lambda_handler lib w event context
  = (Ok (response_dict lib 200
           (PyDict
              [("message", PyStr "Weather data successfully sent to Firehose");
               ("city", city);
               ("recordId",
                match dict_lookup "RecordId" answer with
                | Some v => v
                | None => PyNone
                end)])),
     t1 ++ t2
        ++ pipeline (request_url lib city key) (data response)
             (DELIVERY_STREAM_NAME w)
             (json_dumps lib (PyDict rec) ++ newline))%list.
Proof.
  intros Hrecv Hstatus Hutf8 Hloads Hrec Hput.
  destruct (lambda_handler_received context Hrecv) as (_ & ->).
  rewrite (@handle_response_200 lib w city response Hstatus Hutf8), Hloads,
    Hrec.
  cbv zeta. rewrite Hput. reflexivity.
Qed.

Lemma handler_success_witness :
  lambda_handler Demo.lib
    (Demo.world Demo.with_key (Demo.answering 200 Demo.clear_sky_body)
       Cases.silent_sink)
    (PyDict [("city", PyStr "Paris")]) PyNone
  = (Ok (response_dict Demo.lib 200
           (PyDict
              [("message", PyStr "Weather data successfully sent to Firehose");
               ("city", PyStr "Paris");
               ("recordId", PyNone)])),
     pipeline
       "https://api.openweathermap.org/data/2.5/weather?q=Paris&appid=k123"
       Demo.clear_sky_body "weather-data-stream"
       (Demo.dumps
          (PyDict
             (match transform_at Demo.lib 1700000123 Demo.clear_sky with
              | Ok rec => rec
              | Err _ => []
              end)) ++ newline)).
Proof.
  exact (@handler_success Demo.lib
           (Demo.world Demo.with_key (Demo.answering 200 Demo.clear_sky_body)
              Cases.silent_sink)
           (PyDict [("city", PyStr "Paris")]) PyNone
           (PyStr "k123") [] (PyStr "Paris") []
           {| status := 200; data := Demo.clear_sky_body |}
           Demo.clear_sky _ []
           (conj eq_refl (conj eq_refl (conj eq_refl eq_refl)))
           eq_refl eq_refl eq_refl eq_refl eq_refl).
Defined.

(** The calls of [handle_response] are an initial part of: parse, clock,
    put. *)
Lemma handle_response_trace lib w city response :
  exists n line,
    (n <= 3)%nat
    /\ trace (handle_response lib w city response)
       = firstn n [JsonLoads (data response); Utcnow;
                   PutRecord (DELIVERY_STREAM_NAME w) line].
Proof.
  destruct (utf8_valid 0 0 0 (data response)) eqn:Hutf8.
  - destruct (Z.eq_dec (status response) 200) as [Hstatus | Hstatus].
    + rewrite (@handle_response_200 lib w city response Hstatus Hutf8).
      destruct (json_loads lib (data response)) as [observation | e].
      * destruct (outcome (transform_weather_data lib w observation))
          as [rec | e].
        -- exists 3%nat, (json_dumps lib (PyDict rec) ++ newline).
           split; [lia |]. cbv zeta.
           destruct (put_record w (DELIVERY_STREAM_NAME w)
                       (json_dumps lib (PyDict rec) ++ newline))
             as [answer | e]; [| reflexivity].
           destruct (get_method answer "RecordId"); reflexivity.
        -- exists 2%nat, EmptyString. split; [lia | reflexivity].
      * exists 1%nat, EmptyString. split; [lia | reflexivity].
    + rewrite (@handle_response_not_200 lib w city response Hstatus).
      unfold decode_utf8. rewrite Hutf8.
      exists 0%nat, EmptyString. split; [lia | reflexivity].
  - rewrite (@handle_response_undecodable lib w city response Hutf8).
    exists 0%nat, EmptyString. split; [lia | reflexivity].
Qed.

(** X2.  In every invocation the calls are, in this order: those of
    [get_api_key], those of the city resolution, then an initial part of
    the sequence request, parse, clock, put.  So the provider is asked at
    most once, at most one record is put on the stream, always on
    [DELIVERY_STREAM_NAME], and never before the request, the parse and
    the transformation have been done. *)
Theorem handler_calls_in_order lib w event context :
  exists n url body line,
    (n <= 4)%nat
    /\ trace (lambda_handler lib w event context)
       = (trace (get_api_key lib w) ++ trace (city_of w event)
            ++ firstn n (pipeline url body (DELIVERY_STREAM_NAME w) line))%list
    /\ (List.length (filter is_http_request
                       (trace (lambda_handler lib w event context))) <= 1)%nat
    /\ (List.length (filter is_put_record
                       (trace (lambda_handler lib w event context))) <= 1)%nat.
Proof.
  assert (Hshape : exists n url body line,
             (n <= 4)%nat
             /\ trace (lambda_handler lib w event context)
                = (trace (get_api_key lib w) ++ trace (city_of w event)
                     ++ firstn n (pipeline url body (DELIVERY_STREAM_NAME w)
                                    line))%list).
  { destruct (get_api_key_total lib w) as (key & t1 & Hkey & _).
    rewrite lambda_handler_cases,
      (@handler_body_cases lib w event context key t1 Hkey), Hkey.
    cbn [trace snd].
    destruct (city_of w event) as [[city | e] t2]; cbn [trace snd].
    - destruct (truthy key).
      + destruct (http_request w "GET" (request_url lib city key))
          as [response | e].
        * destruct (handle_response_trace lib w city response)
            as (n & line & Hn & Htrace).
          exists (S n), (request_url lib city key), (data response), line.
          split; [lia |].
          destruct (outcome (handle_response lib w city response));
            cbn [snd]; rewrite Htrace; reflexivity.
        * exists 1%nat, (request_url lib city key), EmptyString, EmptyString.
          split; [lia | reflexivity].
      + exists 0%nat, EmptyString, EmptyString, EmptyString.
        split; [lia |]. cbn. rewrite app_nil_r. reflexivity.
    - exists 0%nat, EmptyString, EmptyString, EmptyString.
      split; [lia |]. cbn. rewrite app_nil_r. reflexivity. }
  destruct Hshape as (n & url & body & line & Hn & Htrace).
  exists n, url, body, line. split; [exact Hn |]. split; [exact Htrace |].
  assert (Hprep : forallb is_preparation_call
                    (trace (get_api_key lib w) ++ trace (city_of w event))
                  = true).
  { apply forallb_app_true; [| apply city_of_trace].
    destruct (get_api_key_total lib w) as (k & t & E & Ht). rewrite E.
    apply credential_calls_are_preparation, Ht. }
  assert (Hnone : forall p,
             (forall c, is_preparation_call c = true -> p c = false) ->
             filter p (trace (get_api_key lib w) ++ trace (city_of w event))
             = []).
  { intros p Hp.
    induction (trace (get_api_key lib w) ++ trace (city_of w event))%list
      as [| c t IH]; [reflexivity |].
    cbn [forallb] in Hprep. apply andb_true_iff in Hprep as [Hc Ht].
    cbn [filter]. rewrite (Hp c Hc). exact (IH Ht). }
  rewrite Htrace, app_assoc.
  set (prep := (trace (get_api_key lib w) ++ trace (city_of w event))%list)
    in *.
  rewrite (filter_app is_http_request prep), (filter_app is_put_record prep).
  rewrite !Hnone by (intros [] ?; (discriminate || reflexivity)).
  cbn [app].
  destruct n as [| [| [| [| [| n]]]]]; cbn; split; lia.
Qed.

(** X3.  Every invocation returns a dictionary [{'statusCode': code,
    'body': json.dumps(...)}] whose code is 500, or 200 (and then a
    record was put on the stream), or the status, other than 200, of the
    response the provider gave to the request of this invocation. *)
Theorem handler_status_code lib w event context :
  exists code body,
    outcome (lambda_handler lib w event context)
    = Ok (response_dict lib code body)
    /\ (code = 500
        \/ (code = 200
            /\ existsb is_put_record
                 (trace (lambda_handler lib w event context)) = true)
        \/ (code <> 200
            /\ exists url response,
                 In (HttpRequest "GET" url)
                    (trace (lambda_handler lib w event context))
                 /\ http_request w "GET" url = Ok response
                 /\ status response = code)).
Proof.
  destruct (get_api_key_total lib w) as (key & t1 & Hkey & _).
  rewrite lambda_handler_cases,
    (@handler_body_cases lib w event context key t1 Hkey).
  destruct (city_of w event) as [[city | e] t2];
    [| do 2 eexists; split; [reflexivity | left; reflexivity]].
  destruct (truthy key);
    [| do 2 eexists; split; [reflexivity | left; reflexivity]].
  destruct (http_request w "GET" (request_url lib city key))
    as [response | e] eqn:Hhttp;
    [| do 2 eexists; split; [reflexivity | left; reflexivity]].
  destruct (utf8_valid 0 0 0 (data response)) eqn:Hutf8.
  - destruct (Z.eq_dec (status response) 200) as [Hstatus | Hstatus].
    + rewrite (@handle_response_200 lib w city response Hstatus Hutf8).
      destruct (json_loads lib (data response)) as [observation | e];
        [| do 2 eexists; split; [reflexivity | left; reflexivity]].
      destruct (outcome (transform_weather_data lib w observation))
        as [rec | e];
        [| do 2 eexists; split; [reflexivity | left; reflexivity]].
      cbv zeta.
      destruct (put_record w (DELIVERY_STREAM_NAME w)
                  (json_dumps lib (PyDict rec) ++ newline)) as [answer | e];
        [| do 2 eexists; split; [reflexivity | left; reflexivity]].
      destruct (get_method answer "RecordId");
        [| do 2 eexists; split; [reflexivity | left; reflexivity]].
      do 2 eexists. split; [reflexivity |]. right. left.
      split; [reflexivity |]. cbn [outcome trace fst snd].
      rewrite !existsb_app. cbn. rewrite !orb_true_r. reflexivity.
    + rewrite (@handle_response_not_200 lib w city response Hstatus).
      unfold decode_utf8. rewrite Hutf8. cbn [outcome trace fst snd].
      do 2 eexists. split; [reflexivity |]. right. right.
      split; [exact Hstatus |].
      exists (request_url lib city key), response.
      split; [| split; [exact Hhttp | reflexivity]].
      rewrite !in_app_iff. right. right. left. reflexivity.
  - rewrite (@handle_response_undecodable lib w city response Hutf8).
    do 2 eexists. split; [reflexivity | left; reflexivity].
Qed.

(** X4.  Once the key and the city are resolved, every failure of a
    later step ends the invocation with status 500 and the message of
    the exception, and nothing is put on the stream: when the request
    itself raises; when the body is not valid UTF-8 (whatever the
    status); when a 200 body is rejected by [json.loads]; when the
    transformer raises on the parsed observation. *)
Theorem failures_after_request lib w event context key t1 city t2 :
  get_api_key lib w = (Ok key, t1) ->
  truthy key = true ->
  city_of w event = (Ok city, t2) ->
  (forall e,
      http_request w "GET" (request_url lib city key) = Err e ->
      lambda_handler lib w event context
      = (Ok (response_dict lib 500
               (error_body ("Error processing weather data: " ++ exc_str e))),
         t1 ++ t2 ++ [HttpRequest "GET" (request_url lib city key)])%list)
  /\ (forall response,
        http_request w "GET" (request_url lib city key) = Ok response ->
        utf8_valid 0 0 0 (data response) = false ->
        lambda_handler lib w event context
        = (Ok (response_dict lib 500
                 (error_body ("Error processing weather data: "
                                ++ decode_error_str lib (data response)))),
           t1 ++ t2 ++ [HttpRequest "GET" (request_url lib city key)])%list)
  /\ (forall response e,
        http_request w "GET" (request_url lib city key) = Ok response ->
        status response = 200 ->
        utf8_valid 0 0 0 (data response) = true ->
        json_loads lib (data response) = Err e ->
        lambda_handler lib w event context
        = (Ok (response_dict lib 500
                 (error_body ("Error processing weather data: " ++ exc_str e))),
           t1 ++ t2 ++ [HttpRequest "GET" (request_url lib city key);
                        JsonLoads (data response)])%list)
  /\ (forall response observation e,
        http_request w "GET" (request_url lib city key) = Ok response ->
        status response = 200 ->
        utf8_valid 0 0 0 (data response) = true ->
        json_loads lib (data response) = Ok observation ->
        outcome (transform_weather_data lib w observation) = Err e ->
        lambda_handler lib w event context
        = (Ok (response_dict lib 500
                 (error_body ("Error processing weather data: " ++ exc_str e))),
           t1 ++ t2 ++ [HttpRequest "GET" (request_url lib city key);
                        JsonLoads (data response); Utcnow])%list).
Proof.
  intros Hkey Htruthy Hcity.
  assert (Hbody := @handler_body_cases lib w event context key t1 Hkey).
  rewrite Hcity, Htruthy in Hbody.
  split; [| split; [| split]].
  - intros e Hhttp. rewrite lambda_handler_cases, Hbody, Hhttp. reflexivity.
  - intros response Hhttp Hutf8.
    rewrite lambda_handler_cases, Hbody, Hhttp,
      (@handle_response_undecodable lib w city response Hutf8).
    reflexivity.
  - intros response e Hhttp Hstatus Hutf8 Hloads.
    rewrite lambda_handler_cases, Hbody, Hhttp,
      (@handle_response_200 lib w city response Hstatus Hutf8), Hloads.
    reflexivity.
  - intros response observation e Hhttp Hstatus Hutf8 Hloads Hrec.
    rewrite lambda_handler_cases, Hbody, Hhttp,
      (@handle_response_200 lib w city response Hstatus Hutf8), Hloads, Hrec.
    reflexivity.
Qed.

Lemma failures_after_request_witness :
  lambda_handler Demo.lib
    (Demo.world Demo.with_key Cases.unreachable Demo.accepting_sink)
    (PyDict []) PyNone
  = (Ok (response_dict Demo.lib 500
           (error_body "Error processing weather data: Max retries exceeded")),
     [HttpRequest "GET"
        "https://api.openweathermap.org/data/2.5/weather?q=London&appid=k123"])
  /\ lambda_handler Demo.lib
       (Demo.world Demo.with_key (Demo.answering 200 "<html>") Demo.accepting_sink)
       (PyDict []) PyNone
     = (Ok (response_dict Demo.lib 500
              (error_body
                 "Error processing weather data: Expecting value: line 1 column 1 (char 0)")),
        [HttpRequest "GET"
           "https://api.openweathermap.org/data/2.5/weather?q=London&appid=k123";
         JsonLoads "<html>"]).
Proof.
  split.
  - exact (proj1 (@failures_after_request Demo.lib
             (Demo.world Demo.with_key Cases.unreachable Demo.accepting_sink)
             (PyDict []) PyNone (PyStr "k123") [] (PyStr "London") []
             eq_refl eq_refl eq_refl) _ eq_refl).
  - exact (proj1 (proj2 (proj2 (@failures_after_request Demo.lib
             (Demo.world Demo.with_key (Demo.answering 200 "<html>")
                Demo.accepting_sink)
             (PyDict []) PyNone (PyStr "k123") [] (PyStr "London") []
             eq_refl eq_refl eq_refl)))
             {| status := 200; data := "<html>" |} _ eq_refl eq_refl eq_refl
             eq_refl).
Defined.

(* ================================================================== *)
(** * More on the transformer *)
(* ================================================================== *)

Lemma weather0_ok d k v :
  weather0 (PyDict d) k = Ok v ->
  exists first rest,
    dict_lookup "weather" d = Some (PyList (PyDict first :: rest))
    /\ dict_lookup k first = Some v.
Proof.
  unfold weather0. intros H. ok_step H.
  destruct (getitem_ok _ _ E) as (d' & [= <-] & Hweather).
  ok_step H.
  destruct (getitem_ok _ _ H) as (first & -> & Hk).
  destruct a as [| | | | s | [| x rest] |]; cbn in E0; try discriminate.
  - destruct s; discriminate.
  - injection E0 as ->. eauto.
Qed.

(** X5.  In every record the transformer returns, [city] is the
    observation's [name], [country] is [sys.country],
    [weather_condition] and [weather_description] are the [main] and
    [description] of the first element of the [weather] array (later
    elements are not read), and [event_timestamp] is the reading of the
    clock, whatever the observation holds. *)
Theorem required_fields_copied lib w observation rec :
  outcome (transform_weather_data lib w observation) = Ok rec ->
  exists d s first rest,
    observation = PyDict d
    /\ dict_lookup "sys" d = Some (PyDict s)
    /\ dict_lookup "weather" d = Some (PyList (PyDict first :: rest))
    /\ dict_lookup "city" rec = dict_lookup "name" d
    /\ dict_lookup "country" rec = dict_lookup "country" s
    /\ dict_lookup "weather_condition" rec = dict_lookup "main" first
    /\ dict_lookup "weather_description" rec = dict_lookup "description" first
    /\ dict_lookup "event_timestamp" rec = Some (PyInt (utcnow_timestamp w)).
Proof.
  rewrite outcome_transform_weather_data. intros H. groups_inv H.
  destruct (@weather0_ok d "main" condition Hcond)
    as (first & rest & Hweather & Hmain).
  destruct (@weather0_ok d "description" description Hdescr)
    as (first' & rest' & Hweather' & Hdescription).
  rewrite Hweather in Hweather'. injection Hweather' as <- <-.
  exists d, s, first, rest.
  rewrite Hname, Hcountry, Hmain, Hdescription.
  repeat split; assumption || reflexivity.
Qed.

Lemma required_fields_copied_witness :
  exists rec,
    outcome (transform_weather_data Demo.lib
               (Demo.world [] (Demo.answering 200 Demo.clear_sky_body)
                  Demo.accepting_sink)
               Demo.clear_sky) = Ok rec
    /\ dict_lookup "city" rec = Some (PyStr "Paris")
    /\ dict_lookup "event_timestamp" rec = Some (PyInt 1700000123).
Proof.
  eexists. split; [reflexivity |].
  destruct (@required_fields_copied Demo.lib
              (Demo.world [] (Demo.answering 200 Demo.clear_sky_body)
                 Demo.accepting_sink)
              Demo.clear_sky _ eq_refl)
    as (d & s & first & rest & Hd & _ & _ & Hcity & _ & _ & _ & Hstamp).
  injection Hd as <-. split; [exact Hcity | exact Hstamp].
Defined.

(** X6.  The transformer reads five sections of the observation only:
    two observations that agree on [name], [sys], [weather], [main] and
    [wind] are transformed alike, whatever else they hold ([dt],
    [coord], [clouds], ...). *)
Theorem transform_reads_five_sections lib w d d' :
  (forall k, In k used_sections -> dict_lookup k d = dict_lookup k d') ->
  transform_weather_data lib w (PyDict d)
  = transform_weather_data lib w (PyDict d').
Proof.
  intros Hagree.
  assert (Hname := Hagree "name" ltac:(cbn; tauto)).
  assert (Hsys := Hagree "sys" ltac:(cbn; tauto)).
  assert (Hweather := Hagree "weather" ltac:(cbn; tauto)).
  assert (Hmain := Hagree "main" ltac:(cbn; tauto)).
  assert (Hwind := Hagree "wind" ltac:(cbn; tauto)).
  unfold transform_weather_data. f_equal.
  unfold transform_at, main_celsius, sys_time, getitem2, weather0,
    has_sun_times, contains, dict_mem.
  rewrite !getitem_dict.
  rewrite Hname, Hsys, Hweather, Hmain, Hwind. reflexivity.
Qed.

Lemma transform_reads_five_sections_witness :
  transform_weather_data Demo.lib
    (Demo.world [] (Demo.answering 200 Demo.clear_sky_body) Demo.accepting_sink)
    (PyDict Cases.verbose_fields)
  = transform_weather_data Demo.lib
      (Demo.world [] (Demo.answering 200 Demo.clear_sky_body)
         Demo.accepting_sink)
      Demo.clear_sky.
Proof.
  refine (@transform_reads_five_sections Demo.lib
            (Demo.world [] (Demo.answering 200 Demo.clear_sky_body)
               Demo.accepting_sink)
            Cases.verbose_fields Cases.clear_sky_fields _).
  intros k Hk. cbn in Hk.
  repeat (destruct Hk as [<- | Hk]; [reflexivity |]). contradiction.
Defined.

Lemma main_celsius_lookup d k c :
  main_celsius (PyDict d) k = Ok c ->
  exists m x,
    dict_lookup "main" d = Some (PyDict m) /\ dict_lookup k m = Some x.
Proof.
  unfold main_celsius. intros H. ok_step H.
  destruct (@getitem2_ok d "main" k a E) as (m & Hmain & Hk). eauto.
Qed.

(** X7.  Unlike [wind], the [main] section is all or nothing: when an
    observation has a [main] section that is not an object holding all
    of [temp], [feels_like], [temp_min], [temp_max], [humidity] and
    [pressure], the transformer raises and no record is produced.  When
    the required fields are there and [main] is an object without
    [temp], the exception is [KeyError('temp')]. *)
Theorem partial_main_rejected lib w d mv :
  dict_lookup "main" d = Some mv ->
  (forall m, mv = PyDict m ->
     exists k, In k main_keys /\ dict_lookup k m = None) ->
  (exists e, outcome (transform_weather_data lib w (PyDict d)) = Err e)
  /\ (forall r m,
        required_group (utcnow_timestamp w) (PyDict d) = Ok r ->
        mv = PyDict m -> dict_lookup "temp" m = None ->
        outcome (transform_weather_data lib w (PyDict d))
        = Err (Raise KeyError "'temp'")).
Proof.
  intros Hmain Hpartial. rewrite outcome_transform_weather_data. split.
  - destruct (normalized_record lib (utcnow_timestamp w) (PyDict d))
      as [rec | e] eqn:H; [exfalso | eauto].
    apply normalized_record_ok in H.
    destruct H as (r & m & wd & sn & _ & Hm & _ & _ & _).
    apply main_group_ok in Hm.
    assert (Hsec : has_section "main" (PyDict d) = true)
      by (cbn; unfold dict_mem; rewrite Hmain; reflexivity).
    rewrite Hsec in Hm.
    destruct Hm as (t & f & lo & hi & h & p & Ht & Hf & Hlo & Hhi & Hh & Hp & _).
    destruct (@main_celsius_lookup _ _ _ Ht) as (m0 & x1 & Hm0 & H1).
    destruct (@main_celsius_lookup _ _ _ Hf) as (m1 & x2 & Hm1 & H2).
    destruct (@main_celsius_lookup _ _ _ Hlo) as (m2 & x3 & Hm2 & H3).
    destruct (@main_celsius_lookup _ _ _ Hhi) as (m3 & x4 & Hm3 & H4).
    destruct (@getitem2_ok _ _ _ _ Hh) as (m4 & Hm4 & H5).
    destruct (@getitem2_ok _ _ _ _ Hp) as (m5 & Hm5 & H6).
    rewrite Hmain in *.
    injection Hm0 as ->. injection Hm1 as <-. injection Hm2 as <-.
    injection Hm3 as <-. injection Hm4 as <-. injection Hm5 as <-.
    destruct (Hpartial m0 eq_refl) as (k & Hin & Hnone).
    cbn in Hin.
    repeat (destruct Hin as [<- | Hin]; [congruence |]). contradiction.
  - intros r m Hreq -> Htemp. unfold normalized_record. rewrite Hreq.
    cbn [rbind]. unfold main_group. cbn [has_section]. unfold dict_mem.
    rewrite Hmain. unfold main_celsius, getitem2. rewrite getitem_dict, Hmain.
    cbn [rbind]. rewrite getitem_dict, Htemp. reflexivity.
Qed.

Lemma partial_main_rejected_witness :
  exists e,
    outcome (transform_weather_data Demo.lib
               (Demo.world [] (Demo.answering 200 Demo.clear_sky_body)
                  Demo.accepting_sink)
               (PyDict Cases.partial_main_fields)) = Err e.
Proof.
  refine (proj1 (@partial_main_rejected Demo.lib
            (Demo.world [] (Demo.answering 200 Demo.clear_sky_body)
               Demo.accepting_sink)
            Cases.partial_main_fields
            (PyDict [("temp", PyFloat 290.15); ("humidity", PyInt 88)])
            eq_refl _)).
  intros m [= <-]. exists "pressure". split; [cbn; tauto | reflexivity].
Defined.

(** X8.  A [wind] section that is there but is not an object (a JSON
    [null], a number, a list) makes the transformer raise
    [AttributeError], even though the required fields and the [main]
    section are fine: the record is lost, not just its wind fields. *)
Theorem non_object_wind_rejected lib w d r m v :
  required_group (utcnow_timestamp w) (PyDict d) = Ok r ->
  main_group (PyDict d) = Ok m ->
  dict_lookup "wind" d = Some v ->
  (forall wd, v <> PyDict wd) ->
  outcome (transform_weather_data lib w (PyDict d))
  = Err (Raise AttributeError
           ("'" ++ type_name v ++ "' object has no attribute 'get'")).
Proof.
  intros Hreq Hmain Hwind Hnot. rewrite outcome_transform_weather_data.
  unfold normalized_record. rewrite Hreq, Hmain. cbn [rbind].
  unfold wind_group. cbn [has_section]. unfold dict_mem.
  rewrite Hwind, getitem_dict, Hwind. cbn [rbind].
  destruct v; try reflexivity. exfalso. exact (Hnot entries eq_refl).
Qed.

Lemma non_object_wind_rejected_witness :
  outcome (transform_weather_data Demo.lib
             (Demo.world [] (Demo.answering 200 Demo.clear_sky_body)
                Demo.accepting_sink)
             (PyDict Cases.null_wind_fields))
  = Err (Raise AttributeError "'NoneType' object has no attribute 'get'").
Proof.
  refine (@non_object_wind_rejected Demo.lib
            (Demo.world [] (Demo.answering 200 Demo.clear_sky_body)
               Demo.accepting_sink)
            Cases.null_wind_fields _ _ PyNone eq_refl eq_refl eq_refl _).
  discriminate.
Defined.

(** X14.  The keys of a record the transformer returns are pairwise
    distinct, and there are between 5 and 15 of them. *)
Theorem record_keys_distinct lib w observation rec :
  outcome (transform_weather_data lib w observation) = Ok rec ->
  NoDup (dict_keys rec)
  /\ (5 <= List.length rec <= 15)%nat.
Proof.
  rewrite outcome_transform_weather_data. intros H.
  pose proof (@normalized_record_keys _ _ _ _ H) as K.
  assert (L : List.length rec = List.length (dict_keys rec))
    by (unfold dict_keys; rewrite length_map; reflexivity).
  rewrite L, K.
  destruct (has_section "main" observation),
    (has_section "wind" observation), (has_sunrise_and_sunset observation);
    (split; [| cbn; lia]);
    repeat (constructor; [cbn; intuition discriminate |]); constructor.
Qed.

Lemma record_keys_distinct_witness :
  exists rec,
    outcome (transform_weather_data Demo.lib
               (Demo.world [] (Demo.answering 200 Demo.clear_sky_body)
                  Demo.accepting_sink)
               Demo.clear_sky) = Ok rec
    /\ NoDup (dict_keys rec)
    /\ List.length rec = 15%nat.
Proof.
  eexists. split; [reflexivity |].
  split; [| reflexivity].
  exact (proj1 (@record_keys_distinct Demo.lib
           (Demo.world [] (Demo.answering 200 Demo.clear_sky_body)
              Demo.accepting_sink)
           Demo.clear_sky _ eq_refl)).
Defined.

(* ================================================================== *)
(** * More on credentials and events *)
(* ================================================================== *)

(** X9.  [get_api_key] calls the secret store only when a secret
    identifier is configured, and then exactly once, with that
    identifier; it hands at most one text to [json.loads], the
    [SecretString] of the answer.  A secret without [SecretString] (a
    binary secret) gives the environment value. *)
Theorem get_api_key_calls lib w :
  (secret_configured w = false -> trace (get_api_key lib w) = [])
  /\ (forall name,
        secret_configured w = true -> SECRET_NAME w = Some name ->
        trace (get_api_key lib w) = [GetSecretValue name]
        \/ exists response secret,
             get_secret_value w name = Ok response
             /\ getitem response "SecretString" = Ok (PyStr secret)
             /\ trace (get_api_key lib w)
                = [GetSecretValue name; JsonLoads secret])
  /\ (forall name response e,
        secret_configured w = true -> SECRET_NAME w = Some name ->
        get_secret_value w name = Ok response ->
        getitem response "SecretString" = Err e ->
        get_api_key lib w
        = (Ok (environ_get w "OpenWeatherMapApiKey"), [GetSecretValue name])).
Proof.
  assert (Hconf : forall name,
            secret_configured w = true -> SECRET_NAME w = Some name ->
            exists c rest, name = String c rest).
  { unfold secret_configured. intros name Hc Hn. rewrite Hn in Hc.
    destruct name; [discriminate | eauto]. }
  split; [| split].
  - intros Hc. rewrite (@get_api_key_unconfigured lib w Hc). reflexivity.
  - intros name Hc Hn. destruct (Hconf name Hc Hn) as (c & rest & ->).
    rewrite (@get_api_key_configured lib w c rest Hn).
    destruct (get_secret_value w (String c rest)) as [response | e];
      [| left; reflexivity].
    destruct (getitem response "SecretString") as [[] | e] eqn:Hsecret;
      try (left; reflexivity).
    right. exists response, s. split; [reflexivity |].
    split; [exact Hsecret |].
    destruct (json_loads lib s) as [secret_dict | [[] msg]]; try reflexivity.
    destruct (get_method secret_dict "OpenWeatherMapApiKey"); reflexivity.
  - intros name response e Hc Hn Hstore Hsecret.
    destruct (Hconf name Hc Hn) as (c & rest & ->).
    rewrite (@get_api_key_configured lib w c rest Hn), Hstore, Hsecret.
    reflexivity.
Qed.

Lemma get_api_key_calls_witness :
  trace (get_api_key Demo.lib
           (Demo.world Demo.with_key (Demo.answering 200 Demo.clear_sky_body)
              Demo.accepting_sink)) = []
  /\ get_api_key Demo.lib
       (Demo.make Cases.binary_store Demo.with_secret_name
          (Demo.answering 200 Demo.clear_sky_body) Demo.accepting_sink)
     = (Ok (PyStr "k123"), [GetSecretValue "weather/api"]).
Proof.
  split.
  - exact (proj1 (@get_api_key_calls Demo.lib
             (Demo.world Demo.with_key (Demo.answering 200 Demo.clear_sky_body)
                Demo.accepting_sink)) eq_refl).
  - exact (proj2 (proj2 (@get_api_key_calls Demo.lib
             (Demo.make Cases.binary_store Demo.with_secret_name
                (Demo.answering 200 Demo.clear_sky_body) Demo.accepting_sink)))
             "weather/api" _ (Raise KeyError "'SecretString'")
             eq_refl eq_refl eq_refl eq_refl).
Defined.

(** X10.  When the secret parses to a JSON object that has no
    [OpenWeatherMapApiKey] field, [get_api_key] returns [None] without
    looking at the environment; the invocation then fails with the
    configuration error, status 500, and no request is made, even if the
    environment holds a key. *)
Theorem secret_object_without_key lib w d context name response secret fields :
  secret_configured w = true ->
  SECRET_NAME w = Some name ->
  get_secret_value w name = Ok response ->
  getitem response "SecretString" = Ok (PyStr secret) ->
  json_loads lib secret = Ok (PyDict fields) ->
  dict_lookup "OpenWeatherMapApiKey" fields = None ->
  get_api_key lib w = (Ok PyNone, [GetSecretValue name; JsonLoads secret])
  /\ outcome (lambda_handler lib w (PyDict d) context)
     = Ok (response_dict lib 500
             (error_body ("Error processing weather data: "
                            ++ no_api_key_message)))
  /\ existsb is_http_request (trace (lambda_handler lib w (PyDict d) context))
     = false.
Proof.
  intros Hc Hn Hstore Hsecret Hloads Hfield.
  assert (Hkey : get_api_key lib w
                 = (Ok PyNone, [GetSecretValue name; JsonLoads secret])).
  { unfold secret_configured in Hc. rewrite Hn in Hc.
    destruct name as [| c rest]; [discriminate |].
    rewrite (@get_api_key_configured lib w c rest Hn), Hstore, Hsecret, Hloads.
    cbn [get_method]. rewrite Hfield. reflexivity. }
  split; [exact Hkey |].
  rewrite lambda_handler_cases,
    (@handler_body_cases lib w (PyDict d) context PyNone _ Hkey).
  rewrite city_of_cases. cbn [get_method].
  destruct (truthy match dict_lookup "city" d with
                   | Some x => x
                   | None => PyNone
                   end);
    [| destruct (truthy (PyStr (DEFAULT_CITY w)))];
    split; reflexivity.
Qed.

Lemma secret_object_without_key_witness :
  assoc "OpenWeatherMapApiKey"
    (environ (Demo.make Cases.empty_object_store Demo.with_secret_name
                (Demo.answering 200 Demo.clear_sky_body) Demo.accepting_sink))
  = Some "k123"
  /\ get_api_key Demo.lib
       (Demo.make Cases.empty_object_store Demo.with_secret_name
          (Demo.answering 200 Demo.clear_sky_body) Demo.accepting_sink)
     = (Ok PyNone, [GetSecretValue "weather/api"; JsonLoads "{}"])
  /\ outcome (lambda_handler Demo.lib
                (Demo.make Cases.empty_object_store Demo.with_secret_name
                   (Demo.answering 200 Demo.clear_sky_body)
                   Demo.accepting_sink)
                (PyDict []) PyNone)
     = Ok (response_dict Demo.lib 500
             (error_body ("Error processing weather data: "
                            ++ no_api_key_message)))
  /\ existsb is_http_request
       (trace (lambda_handler Demo.lib
                 (Demo.make Cases.empty_object_store Demo.with_secret_name
                    (Demo.answering 200 Demo.clear_sky_body)
                    Demo.accepting_sink)
                 (PyDict []) PyNone)) = false.
Proof.
  split; [reflexivity |].
  exact (@secret_object_without_key Demo.lib
           (Demo.make Cases.empty_object_store Demo.with_secret_name
              (Demo.answering 200 Demo.clear_sky_body) Demo.accepting_sink)
           [] PyNone "weather/api" _ "{}" []
           eq_refl eq_refl eq_refl eq_refl eq_refl eq_refl).
Defined.

(** X11.  An event that is not an object (a list, a string, a number,
    [None]) makes [event.get] raise: the handler returns status 500 with
    the [AttributeError] message.  The key has been resolved before, so
    the secret store may have been called, but no request is made and
    nothing else happens. *)
Theorem non_object_event lib w event context :
  (forall d, event <> PyDict d) ->
  outcome (lambda_handler lib w event context)
  = Ok (response_dict lib 500
          (error_body ("Error processing weather data: '"
                         ++ type_name event
                         ++ "' object has no attribute 'get'")))
  /\ trace (lambda_handler lib w event context) = trace (get_api_key lib w).
Proof.
  intros Hnot.
  destruct (get_api_key_total lib w) as (key & t1 & Hkey & _).
  rewrite lambda_handler_cases,
    (@handler_body_cases lib w event context key t1 Hkey), Hkey,
    city_of_cases.
  destruct event; cbn [get_method outcome trace fst snd];
    try (rewrite app_nil_r; split; reflexivity).
  exfalso. exact (Hnot entries eq_refl).
Qed.

Lemma non_object_event_witness :
  outcome (lambda_handler Demo.lib
             (Demo.world Demo.with_key (Demo.answering 200 Demo.clear_sky_body)
                Demo.accepting_sink)
             (PyList [PyStr "Paris"]) PyNone)
  = Ok (response_dict Demo.lib 500
          (error_body
             "Error processing weather data: 'list' object has no attribute 'get'"))
  /\ trace (lambda_handler Demo.lib
              (Demo.world Demo.with_key (Demo.answering 200 Demo.clear_sky_body)
                 Demo.accepting_sink)
              (PyList [PyStr "Paris"]) PyNone)
     = [].
Proof.
  refine (@non_object_event Demo.lib
            (Demo.world Demo.with_key (Demo.answering 200 Demo.clear_sky_body)
               Demo.accepting_sink)
            (PyList [PyStr "Paris"]) PyNone _).
  discriminate.
Defined.

(** X12.  The handler reads nothing of its arguments but the event's
    [city] field: two events that agree on it, with any two contexts,
    give the same calls and the same result. *)
Theorem event_read_through_city lib w d d' context context' :
  dict_lookup "city" d = dict_lookup "city" d' ->
  lambda_handler lib w (PyDict d) context
  = lambda_handler lib w (PyDict d') context'.
Proof.
  intros Hcity.
  assert (Hsame : city_of w (PyDict d) = city_of w (PyDict d')).
  { rewrite !city_of_cases. cbn [get_method]. rewrite Hcity. reflexivity. }
  unfold lambda_handler, handler_body. rewrite Hsame. reflexivity.
Qed.

Lemma event_read_through_city_witness :
  lambda_handler Demo.lib
    (Demo.world Demo.with_key (Demo.answering 404 "city not found")
       Demo.accepting_sink)
    (PyDict [("units", PyStr "metric"); ("city", PyStr "Atlantis")]) PyNone
  = lambda_handler Demo.lib
      (Demo.world Demo.with_key (Demo.answering 404 "city not found")
         Demo.accepting_sink)
      (PyDict [("city", PyStr "Atlantis")]) (PyStr "context").
Proof.
  exact (@event_read_through_city Demo.lib
           (Demo.world Demo.with_key (Demo.answering 404 "city not found")
              Demo.accepting_sink)
           [("units", PyStr "metric"); ("city", PyStr "Atlantis")]
           [("city", PyStr "Atlantis")] PyNone (PyStr "context") eq_refl).
Defined.

(* ================================================================== *)
(** * Exactness of the conversion *)
(* ================================================================== *)

Lemma cent_exact_checked : all_from 16 0 cent_exact = true.
Proof. vm_compute. reflexivity. Qed.

(** X13.  For every temperature written with two decimals from 0.00 K
    to 655.35 K, that is [n / 100] for an integer [n] below 65536,
    [kelvin_to_celsius] of the float [json.loads] gives for it is the
    float nearest to [(n - 27315) / 100]: the float subtraction and the
    rounding lose nothing, the Celsius value is right to the cent. *)
Theorem celsius_exact_to_the_cent n :
  0 <= n < 65536 ->
  kelvin_to_celsius (PyFloat (nearest_hundredths n))
  = Ok (PyFloat (nearest_hundredths (n - 27315))).
Proof.
  intros Hn.
  assert (Hcheck : cent_exact n = true).
  { apply (@all_from_spec 16 cent_exact 0 cent_exact_checked).
    change (2 ^ Z.of_nat 16) with 65536. lia. }
  unfold cent_exact in Hcheck.
  destruct (kelvin_to_celsius (PyFloat (nearest_hundredths n)))
    as [[| | | c | | |] | e]; try discriminate.
  apply FloatAxioms.Leibniz.eqb_spec in Hcheck. rewrite Hcheck. reflexivity.
Qed.

Lemma celsius_exact_to_the_cent_witness :
  kelvin_to_celsius (PyFloat 288.46%float) = Ok (PyFloat 15.31%float).
Proof.
  exact (@celsius_exact_to_the_cent 28846 ltac:(lia)).
Defined.

(* ================================================================== *)
(** * Values the transformer cannot convert *)
(* ================================================================== *)

(** X15.  A temperature that is not a number (a string such as
    "290.15", a JSON [null], a list) makes the transformer raise
    [TypeError]: when the required fields are there and [main] is an
    object whose [temp] is such a value, no record is produced. *)
Theorem non_numeric_temperature_rejected lib w d r m v :
  required_group (utcnow_timestamp w) (PyDict d) = Ok r ->
  dict_lookup "main" d = Some (PyDict m) ->
  dict_lookup "temp" m = Some v ->
  is_number v = false ->
  outcome (transform_weather_data lib w (PyDict d))
  = Err (Raise TypeError
           ("unsupported operand type(s) for -: '" ++ type_name v
              ++ "' and 'float'")).
Proof.
  intros Hreq Hmain Htemp Hnum. rewrite outcome_transform_weather_data.
  unfold normalized_record. rewrite Hreq. cbn [rbind].
  unfold main_group. cbn [has_section]. unfold dict_mem. rewrite Hmain.
  unfold main_celsius, getitem2. rewrite getitem_dict, Hmain. cbn [rbind].
  rewrite getitem_dict, Htemp. cbn [rbind].
  destruct v; try discriminate; reflexivity.
Qed.

Lemma non_numeric_temperature_rejected_witness :
  outcome (transform_weather_data Demo.lib
             (Demo.world [] (Demo.answering 200 Demo.clear_sky_body)
                Demo.accepting_sink)
             (PyDict [("name", PyStr "Lima");
                      ("sys", PyDict [("country", PyStr "PE")]);
                      ("weather", PyList [PyDict [("main", PyStr "Mist");
                                                  ("description", PyStr "mist")]]);
                      ("main", PyDict [("temp", PyStr "290.15")])]))
  = Err (Raise TypeError "unsupported operand type(s) for -: 'str' and 'float'").
Proof.
  eapply (@non_numeric_temperature_rejected Demo.lib
            (Demo.world [] (Demo.answering 200 Demo.clear_sky_body)
               Demo.accepting_sink)
            _ _ [("temp", PyStr "290.15")] (PyStr "290.15"));
    reflexivity.
Defined.

(** X16.  When [sys] has both [sunrise] and [sunset] but
    [utcfromtimestamp] raises on the sunrise value (a string, a
    timestamp outside the years 1 to 9999), the exception leaves the
    transformer although every other group is fine: the record is lost,
    not just its sunrise and sunset fields. *)
Theorem unusable_sunrise_rejected lib w d r m wd s v e :
  required_group (utcnow_timestamp w) (PyDict d) = Ok r ->
  main_group (PyDict d) = Ok m ->
  wind_group (PyDict d) = Ok wd ->
  dict_lookup "sys" d = Some (PyDict s) ->
  dict_lookup "sunrise" s = Some v ->
  dict_mem "sunset" s = true ->
  utcfromtimestamp lib v = Err e ->
  outcome (transform_weather_data lib w (PyDict d)) = Err e.
Proof.
  intros Hreq Hmain Hwind Hsys Hrise Hset Htime.
  rewrite outcome_transform_weather_data.
  unfold normalized_record. rewrite Hreq, Hmain, Hwind. cbn [rbind].
  unfold sun_group, has_sunrise_and_sunset, sys_has.
  rewrite Hsys, Hset. unfold dict_mem. rewrite Hrise. cbn [andb].
  unfold sys_time, getitem2. rewrite getitem_dict, Hsys. cbn [rbind].
  rewrite getitem_dict, Hrise. cbn [rbind]. rewrite Htime. reflexivity.
Qed.

Lemma unusable_sunrise_rejected_witness :
  outcome (transform_weather_data Demo.lib
             (Demo.world [] (Demo.answering 200 Demo.clear_sky_body)
                Demo.accepting_sink)
             (PyDict [("name", PyStr "Lima");
                      ("sys", PyDict [("country", PyStr "PE");
                                      ("sunrise", PyStr "06:02");
                                      ("sunset", PyInt 1700034000)]);
                      ("weather", PyList [PyDict [("main", PyStr "Mist");
                                                  ("description", PyStr "mist")]])]))
  = Err (Raise TypeError "'str' object cannot be interpreted as an integer").
Proof.
  eapply (@unusable_sunrise_rejected Demo.lib
            (Demo.world [] (Demo.answering 200 Demo.clear_sky_body)
               Demo.accepting_sink)
            _ _ _ _ _ (PyStr "06:02"));
    reflexivity.
Defined.

(* ================================================================== *)
(** * Floats: conversion of integers and rounding *)
(* ================================================================== *)

Lemma digits2_pos_lower p : 2 ^ (Zpos (digits2_pos p) - 1) <= Zpos p.
Proof.
  induction p as [p IH | p IH |]; cbn [digits2_pos].
  - rewrite Pos2Z.inj_succ.
    replace (Z.succ (Zpos (digits2_pos p)) - 1)
      with (Z.succ (Zpos (digits2_pos p) - 1)) by lia.
    rewrite Z.pow_succ_r by lia. lia.
  - rewrite Pos2Z.inj_succ.
    replace (Z.succ (Zpos (digits2_pos p)) - 1)
      with (Z.succ (Zpos (digits2_pos p) - 1)) by lia.
    rewrite Z.pow_succ_r by lia. lia.
  - reflexivity.
Qed.

Lemma digits2_pos_small p : Zpos p < 2 ^ 53 -> Zpos (digits2_pos p) <= 53.
Proof.
  intros Hp. destruct (Z_le_gt_dec (Zpos (digits2_pos p)) 53) as [H | H];
    [exact H | exfalso].
  pose proof (digits2_pos_lower p) as Hl.
  assert (2 ^ 53 <= 2 ^ (Zpos (digits2_pos p) - 1))
    by (apply Z.pow_le_mono_r; lia).
  lia.
Qed.

Lemma digits2_pos_iter p k :
  digits2_pos (Pos.iter xO p k) = (digits2_pos p + k)%positive.
Proof.
  induction k as [| k IH] using Pos.peano_ind.
  - cbn. rewrite Pos.add_1_r. reflexivity.
  - rewrite Pos.iter_succ. cbn [digits2_pos]. rewrite IH.
    rewrite Pos.add_succ_r. reflexivity.
Qed.

Lemma iter_xO_value p k : Zpos (Pos.iter xO p k) = Zpos p * 2 ^ Zpos k.
Proof.
  induction k as [| k IH] using Pos.peano_ind.
  - cbn. lia.
  - rewrite Pos.iter_succ, Pos2Z.inj_xO, IH, Pos2Z.inj_succ, Z.pow_succ_r by lia.
    ring.
Qed.

(** Rounding a mantissa of 53 digits does nothing. *)
Lemma binary_round_aux_canonical s mz ez :
  digits2_pos mz = 53%positive -> -1074 <= ez <= 971 ->
  binary_round_aux prec emax s (Zpos mz) ez loc_Exact = S754_finite s mz ez.
Proof.
  intros Hd He.
  assert (Hshr : shr_fexp prec emax (Zpos mz) ez loc_Exact
                 = ({| shr_m := Zpos mz; shr_r := false; shr_s := false |}, ez)).
  { unfold shr_fexp, Zdigits2, fexp, emin. rewrite Hd.
    replace (Z.max (53 + ez - prec) (3 - emax - prec)) with ez
      by (unfold prec, emax; lia).
    rewrite Z.sub_diag. reflexivity. }
  unfold binary_round_aux. rewrite Hshr. cbn [shr_m loc_of_shr_record
    round_nearest_even]. rewrite Hshr. cbn [shr_m].
  replace (ez <=? emax - prec) with true
    by (symmetry; apply Z.leb_le; unfold prec, emax; lia).
  reflexivity.
Qed.

(** The float of an integer below [2^53] in absolute value: a mantissa
    of 53 digits and an exponent that hold the integer exactly. *)
Lemma binary_normalize_exact s p :
  Zpos p < 2 ^ 53 ->
  exists mz ez,
    binary_round prec emax s p 0 = S754_finite s mz ez
    /\ digits2_pos mz = 53%positive
    /\ -52 <= ez <= 0
    /\ Zpos mz = Zpos p * 2 ^ (- ez).
Proof.
  intros Hp. pose proof (digits2_pos_small Hp) as Hd.
  assert (Hpos : 0 < Zpos (digits2_pos p)) by lia.
  unfold binary_round, shl_align, fexp, emin.
  replace (Z.max (Zpos (digits2_pos p) + 0 - prec) (3 - emax - prec))
    with (Zpos (digits2_pos p) - 53) by (unfold prec, emax; lia).
  rewrite Z.sub_0_r.
  destruct (Zpos (digits2_pos p) - 53) as [| k | k] eqn:Hk; [| lia |].
  - exists p, 0. split; [apply binary_round_aux_canonical; [| lia] |].
    + apply Pos2Z.inj. lia.
    + split; [apply Pos2Z.inj; lia |]. split; [lia |]. cbn. lia.
  - exists (Pos.iter xO p k), (Z.neg k).
    assert (Hdigits : digits2_pos (Pos.iter xO p k) = 53%positive).
    { rewrite digits2_pos_iter. apply Pos2Z.inj.
      rewrite Pos2Z.inj_add. lia. }
    split; [apply binary_round_aux_canonical; [exact Hdigits | lia] |].
    split; [exact Hdigits |]. split; [lia |].
    rewrite iter_xO_value. reflexivity.
Qed.

Lemma float_of_int_exact n :
  Z.abs n < 2 ^ 53 ->
  exists x, float_of_int n = Ok x /\ float_is_integer x n.
Proof.
  intros Hn. unfold float_of_int, binary_normalize.
  destruct n as [| p | p].
  - exists 0%float. split; reflexivity.
  - destruct (@binary_normalize_exact false p Hn)
      as (mz & ez & -> & Hd & He & Hv).
    eexists. split; [reflexivity |].
    unfold float_is_integer. rewrite Prim2SF_SF2Prim.
    + destruct (Z.leb_spec 0 ez).
      * assert (ez = 0) by lia. subst ez. cbn in *. lia.
      * cbn [cond_Zopp]. exact Hv.
    + unfold valid_binary, bounded, canonical_mantissa, fexp, emin.
      rewrite Hd.
      apply andb_true_iff. split; [apply Z.eqb_eq | apply Z.leb_le];
        unfold prec, emax; lia.
  - destruct (@binary_normalize_exact true p Hn)
      as (mz & ez & -> & Hd & He & Hv).
    eexists. split; [reflexivity |].
    unfold float_is_integer. rewrite Prim2SF_SF2Prim.
    + destruct (Z.leb_spec 0 ez).
      * assert (ez = 0) by lia. subst ez. cbn in *. lia.
      * change (cond_Zopp true (Zpos mz)) with (- Zpos mz).
        rewrite Hv, <- Pos2Z.opp_pos. ring.
    + unfold valid_binary, bounded, canonical_mantissa, fexp, emin.
      rewrite Hd.
      apply andb_true_iff. split; [apply Z.eqb_eq | apply Z.leb_le];
        unfold prec, emax; lia.
Qed.

Lemma round_half_even_div_nearest n d :
  0 < d -> nearest_even (round_half_even_div n d) n d.
Proof.
  intros Hd. unfold nearest_even, round_half_even_div.
  pose proof (Z.div_mod n d ltac:(lia)) as Hdm.
  pose proof (Z.mod_pos_bound n d Hd) as Hr.
  set (q := n / d) in *. set (r := n mod d) in *.
  assert (Hq : n - q * d = r) by lia.
  assert (Hq1 : n - (q + 1) * d = r - d) by lia.
  destruct (Z.compare_spec (2 * r) d) as [He | Hl | Hg].
  - destruct (Z.even q) eqn:Hev.
    + rewrite Hq. split; [lia | intros _; exact Hev].
    + rewrite Hq1. split; [lia |]. intros _.
      rewrite Z.even_add, Hev. reflexivity.
  - rewrite Hq. split; lia.
  - rewrite Hq1. split; lia.
Qed.

Lemma round_half_even_div_nonneg n d :
  0 <= n -> 0 < d -> 0 <= round_half_even_div n d.
Proof.
  intros Hn Hd. unfold round_half_even_div.
  pose proof (Z.div_pos n d Hn Hd).
  destruct (2 * (n mod d) ?= d); [destruct (Z.even (n / d)) | |]; lia.
Qed.

(** What [round(x, 2)] returns. *)
Lemma round2_spec x :
  match Prim2SF x with
  | S754_finite s m e =>
      exists q,
        0 <= q
        /\ (if 0 <=? e then q = Zpos m * 100 * 2 ^ e
            else nearest_even q (Zpos m * 100) (2 ^ (- e)))
        /\ round2 x = signed_hundredths s q
  | _ => round2 x = x
  end.
Proof.
  unfold round2. destruct (Prim2SF x) as [s | s | | s m e]; try reflexivity.
  destruct (Z.leb_spec 0 e) as [He | He].
  - exists (Zpos m * 100 * 2 ^ e). split; [| split; reflexivity].
    pose proof (Z.pow_nonneg 2 e ltac:(lia)). lia.
  - assert (Hd : 0 < 2 ^ (- e)) by (apply Z.pow_pos_nonneg; lia).
    exists (round_half_even_div (Zpos m * 100) (2 ^ (- e))).
    split; [apply round_half_even_div_nonneg; lia |].
    split; [apply round_half_even_div_nearest, Hd | reflexivity].
Qed.

Lemma kelvin_to_celsius_int n x :
  float_of_int n = Ok x ->
  kelvin_to_celsius (PyInt n) = kelvin_to_celsius (PyFloat x).
Proof.
  intros H. unfold kelvin_to_celsius, sub_float. rewrite H. reflexivity.
Qed.

(* ================================================================== *)
(** * Whole seconds of a float timestamp *)
(* ================================================================== *)

Lemma binary_round_aux_sign sx mx ex lx s m e :
  binary_round_aux prec emax sx mx ex lx = S754_finite s m e -> s = sx.
Proof.
  unfold binary_round_aux.
  destruct (shr_fexp prec emax mx ex lx) as [mrs e1].
  destruct (shr_fexp prec emax _ e1 loc_Exact) as [mrs' e2].
  destruct (shr_m mrs'); try discriminate.
  destruct (e2 <=? emax - prec); [| discriminate].
  now intros [= <- _ _].
Qed.

Lemma seconds_of_float_floor x t :
  seconds_of_float x = Some t ->
  exists fl, float_floor x = Some fl /\ fl <= t <= fl + 1.
Proof.
  unfold seconds_of_float, float_floor.
  destruct (Prim2SF x) as [s | s | | s m e]; try discriminate.
  - intros [= <-]. exists 0. split; [reflexivity | lia].
  - destruct (Z.leb_spec 0 e) as [He | He].
    + set (p := 2 ^ e).
      intros H. assert (Ht : t = cond_Zopp s (Zpos m * p)) by congruence.
      clear H. subst t. eexists. split; [reflexivity |]. cbv iota.
      destruct s; cbn [cond_Zopp]; rewrite ?Z.mul_opp_l; lia.
    + assert (Hd : 0 < 2 ^ (- e)) by (apply Z.pow_pos_nonneg; lia).
      set (d := 2 ^ (- e)) in *.
      pose proof (Z.mod_pos_bound (Zpos m) d Hd) as Hr.
      set (us := match Zpos m mod d with Zpos f => _ | _ => 0 end).
      assert (Hus : exists a, 0 <= a /\ us = cond_Zopp s a
                              /\ (Zpos m mod d = 0 -> a = 0)).
      { subst us. destruct (Zpos m mod d) as [| f | f] eqn:Hf.
        - exists 0. repeat split; destruct s; reflexivity.
        - cbn [SFmul].
          destruct (binary_round_aux prec emax (xorb s false)
                      (Zpos (f * 1000000)) (e + 0) loc_Exact)
            as [s' | s' | | s' m' e'] eqn:Hb.
          1-3: exists 0; repeat split; destruct s; reflexivity.
          apply binary_round_aux_sign in Hb. rewrite xorb_false_r in Hb.
          subst s'. eexists. split; [| split; [reflexivity | discriminate]].
          destruct (Z.leb_spec 0 e').
          + pose proof (Z.pow_nonneg 2 e' ltac:(lia)). lia.
          + apply round_half_even_div_nonneg; [lia |].
            apply Z.pow_pos_nonneg; lia.
        - lia. }
      destruct Hus as (a & Ha & -> & Hzero).
      intros [= <-]. eexists. split; [reflexivity |]. cbv iota.
      destruct s; cbn [cond_Zopp].
      * destruct (Z.eq_dec (Zpos m mod d) 0) as [Hz | Hnz].
        -- rewrite (Hzero Hz).
           rewrite (Z_div_zero_opp_full (Zpos m) d Hz).
           cbn [Z.opp Z.leb Z.ltb Z.compare]. lia.
        -- rewrite (Z_div_nz_opp_full (Zpos m) d ltac:(lia) Hnz).
           destruct (Z.leb_spec 1000000 (- a)); [lia |].
           destruct (Z.ltb_spec (- a) 0); lia.
      * destruct (Z.leb_spec 1000000 a); [lia |].
        destruct (Z.ltb_spec a 0); lia.
Qed.

Lemma seconds_of_float_integer x n :
  float_is_integer x n -> seconds_of_float x = Some n.
Proof.
  unfold seconds_of_float, float_is_integer.
  destruct (Prim2SF x) as [s | s | | s m e]; try contradiction.
  - now intros ->.
  - destruct (Z.leb_spec 0 e) as [He | He].
    + intros ->. f_equal. destruct s; cbn [cond_Zopp];
        rewrite ?Z.mul_opp_l; reflexivity.
    + assert (Hd : 0 < 2 ^ (- e)) by (apply Z.pow_pos_nonneg; lia).
      set (d := 2 ^ (- e)) in *. intros H.
      assert (Hm : Zpos m = cond_Zopp s n * d).
      { destruct s; cbn [cond_Zopp] in *; lia. }
      rewrite Hm, Z.mod_mul, Z.div_mul by lia.
      cbv iota. cbn [Z.leb Z.ltb Z.compare]. cbv iota.
      f_equal. destruct s; cbn [cond_Zopp]; lia.
Qed.

(* ================================================================== *)
(** * The year of a timestamp and its text *)
(* ================================================================== *)

Lemma days_to_common_year_end y m d :
  1 <= m <= 12 -> 1 <= d <= days_in_month y m -> is_leap y = false ->
  days_before_month y m + d <= 365.
Proof.
  intros Hm Hd Hl. unfold days_before_month, days_in_month in *.
  rewrite Hl in *.
  assert (Hc : m = 1 \/ m = 2 \/ m = 3 \/ m = 4 \/ m = 5 \/ m = 6 \/ m = 7
               \/ m = 8 \/ m = 9 \/ m = 10 \/ m = 11 \/ m = 12) by lia.
  repeat match goal with H : _ \/ _ |- _ => destruct H as [H | H] end;
    subst m;
    cbv [nth Z.to_nat Pos.to_nat Pos.iter_op Nat.add Z.eqb Z.ltb Z.compare
         Pos.compare Pos.compare_cont Pos.eqb andb] in *;
    lia.
Qed.

Lemma year_from_ordinal y m d :
  1 <= m <= 12 -> 1 <= d <= days_in_month y m ->
  (1000 <= y <-> -354285 <= ymd2ord y m d - epoch_ordinal).
Proof.
  intros Hm Hd. pose proof (@days_to_year_end y m d Hm Hd) as Hdays.
  assert (H999 : y = 999 -> days_before_month y m + d <= 365).
  { intros ->. apply days_to_common_year_end; try assumption. reflexivity. }
  unfold ymd2ord, epoch_ordinal, days_before_year. cbv zeta.
  pose proof (Z.div_mod (y - 1) 4 ltac:(lia)).
  pose proof (Z.mod_pos_bound (y - 1) 4 ltac:(lia)).
  pose proof (Z.div_mod (y - 1) 100 ltac:(lia)).
  pose proof (Z.mod_pos_bound (y - 1) 100 ltac:(lia)).
  pose proof (Z.div_mod (y - 1) 400 ltac:(lia)).
  pose proof (Z.mod_pos_bound (y - 1) 400 ltac:(lia)).
  split; intros Hy.
  - lia.
  - destruct (Z.eq_dec y 999) as [E | E]; [specialize (H999 E) |]; lia.
Qed.

Lemma gmtime_year t :
  1000 <= year (gmtime t) <-> year_1000_timestamp <= t.
Proof.
  unfold gmtime, year_1000_timestamp.
  pose proof (civil_from_days_correct (t / 86400)) as Hc.
  destruct (civil_from_days (t / 86400)) as [[y m] d].
  destruct Hc as (Hm & Hd & Hord). cbn [year].
  rewrite (@year_from_ordinal y m d Hm Hd), Hord.
  pose proof (Z.div_mod t 86400 ltac:(lia)).
  pose proof (Z.mod_pos_bound t 86400 ltac:(lia)).
  lia.
Qed.

Lemma length_list_ascii_of_string s :
  List.length (list_ascii_of_string s) = String.length s.
Proof. induction s as [| c s IH]; [reflexivity | cbn; now rewrite IH]. Qed.

Lemma parse_utc_length text dt :
  parse_utc text = Some dt -> String.length text = 23%nat.
Proof.
  unfold parse_utc. rewrite <- length_list_ascii_of_string.
  destruct (list_ascii_of_string text) as [| c l]; [discriminate |].
  do 22 (destruct l as [| ? l]; [discriminate |]).
  destruct l; [reflexivity | discriminate].
Qed.

Lemma length_append (s s' : string) :
  String.length (s ++ s') = (String.length s + String.length s')%nat.
Proof. induction s as [| c s IH]; [reflexivity | cbn; now rewrite IH]. Qed.

Lemma strftime_short dt :
  1 <= year dt <= 999 ->
  (String.length (strftime dt) < 23)%nat /\ parse_utc (strftime dt) = None.
Proof.
  intros Hy.
  assert (H : year_text_short (year dt) = true).
  { apply (@all_from_spec 10 year_text_short 0); [vm_compute; reflexivity |].
    change (2 ^ Z.of_nat 10) with 1024. lia. }
  unfold year_text_short in H.
  replace (year dt <? 1) with false in H by (symmetry; apply Z.ltb_ge; lia).
  replace (999 <? year dt) with false in H by (symmetry; apply Z.ltb_ge; lia).
  cbn [orb] in H. apply Nat.ltb_lt in H.
  assert (Hlen : (String.length (strftime dt) < 23)%nat).
  { unfold strftime, pad2. rewrite length_append. cbn [String.length append].
    lia. }
  split; [exact Hlen |].
  destruct (parse_utc (strftime dt)) as [dt' |] eqn:Hp; [| reflexivity].
  apply parse_utc_length in Hp. lia.
Qed.

Lemma utcfromtimestamp_seconds lib v dt :
  utcfromtimestamp lib v = Ok dt ->
  exists t,
    epoch_seconds v t /\ timestamp_in_range t = true /\ dt = gmtime t.
Proof.
  unfold utcfromtimestamp, epoch_seconds.
  destruct v as [| b | n | x | | |]; try discriminate.
  - destruct (timestamp_in_range (if b then 1 else 0)) eqn:R; [| discriminate].
    intros [= <-]. eexists. split; [reflexivity |]. split; [exact R | reflexivity].
  - destruct (timestamp_in_range n) eqn:R; [| discriminate].
    intros [= <-]. exists n. split; [reflexivity |]. split; [exact R | reflexivity].
  - destruct (is_nan x); [discriminate |].
    destruct (seconds_of_float x) as [t |]; [| discriminate].
    destruct (timestamp_in_range t) eqn:R; [| discriminate].
    intros [= <-]. exists t. split; [reflexivity |]. split; [exact R | reflexivity].
Qed.

(* ================================================================== *)
(** * Kelvin to Celsius *)
(* ================================================================== *)

(** C4.  [kelvin_to_celsius] is [round(kelvin - 273.15, 2)] on every
    input.  On a float it subtracts the float nearest to 273.15 and
    rounds the difference to two decimals.  The rounding [round2]
    leaves zeros, infinities and NaN as they are, and takes a finite
    [(-1)^s * m * 2^e] to the float nearest to [q / 100] with the same
    sign, where [q] is the integer nearest to [m * 2^e * 100], the even
    one of two equally near.  An integer below [2^53] in absolute value
    is converted as the float equal to it, a boolean as 0 or 1, and an
    integer too large for a float raises [OverflowError]; any other
    value raises [TypeError].  So 300.15 K gives 27.0, 273.15 K gives
    0.0, 300.156 K gives 27.01, the integer 300 gives 26.85, [True]
    gives -272.15, and the differences 0.125 and 0.375, which lie
    halfway, give 0.12 and 0.38.  Whenever the transformer accepts an
    observation that has a [main] section, that section is an object,
    each of the four Celsius fields of the record is this conversion of
    its Kelvin field, and [humidity_percent] and [pressure_hpa] are the
    [humidity] and [pressure] values themselves. *)
Theorem celsius_conversion :
  (forall x : float,
      kelvin_to_celsius (PyFloat x)
      = Ok (PyFloat (round2 (PrimFloat.sub x 273.15%float))))
  /\ (forall x : float,
        match Prim2SF x with
        | S754_finite s m e =>
            exists q,
              0 <= q
              /\ (if 0 <=? e then q = Zpos m * 100 * 2 ^ e
                  else nearest_even q (Zpos m * 100) (2 ^ (- e)))
              /\ round2 x = signed_hundredths s q
        | _ => round2 x = x
        end)
  /\ (forall n : Z,
        Z.abs n < 2 ^ 53 ->
        exists x,
          float_of_int n = Ok x
          /\ float_is_integer x n
          /\ kelvin_to_celsius (PyInt n) = kelvin_to_celsius (PyFloat x))
  /\ (forall b : bool,
        kelvin_to_celsius (PyBool b)
        = kelvin_to_celsius (PyInt (if b then 1 else 0)))
  /\ (forall v,
        is_number v = false ->
        kelvin_to_celsius v
        = Err (Raise TypeError
                 ("unsupported operand type(s) for -: '" ++ type_name v
                    ++ "' and 'float'")))
  /\ kelvin_to_celsius (PyInt (2 ^ 1024))
     = Err (Raise OverflowError "int too large to convert to float")
  /\ kelvin_to_celsius (PyFloat 300.15%float) = Ok (PyFloat 27%float)
  /\ kelvin_to_celsius (PyFloat 273.15%float) = Ok (PyFloat 0%float)
  /\ kelvin_to_celsius (PyFloat 300.156%float) = Ok (PyFloat 27.01%float)
  /\ kelvin_to_celsius (PyFloat (PrimFloat.add 273.15 0.125)%float)
     = Ok (PyFloat 0.12%float)
  /\ kelvin_to_celsius (PyFloat (PrimFloat.add 273.15 0.375)%float)
     = Ok (PyFloat 0.38%float)
  /\ kelvin_to_celsius (PyInt 300) = Ok (PyFloat 26.85%float)
  /\ kelvin_to_celsius (PyBool true) = Ok (PyFloat (-272.15)%float)
  /\ forall lib w data rec,
       outcome (transform_weather_data lib w data) = Ok rec ->
       has_section "main" data = true ->
       exists main,
         getitem data "main" = Ok (PyDict main)
         /\ (forall out inp, In (out, inp) celsius_fields ->
               exists kelvin,
                 dict_lookup inp main = Some kelvin
                 /\ exists celsius,
                      kelvin_to_celsius kelvin = Ok celsius
                      /\ dict_lookup out rec = Some celsius)
         /\ (exists h, dict_lookup "humidity" main = Some h
                       /\ dict_lookup "humidity_percent" rec = Some h)
         /\ (exists p, dict_lookup "pressure" main = Some p
                       /\ dict_lookup "pressure_hpa" rec = Some p).
Proof.
  split; [reflexivity |].
  split; [exact round2_spec |].
  split.
  { intros n Hn. destruct (@float_of_int_exact n Hn) as (x & Hx & Hint).
    exists x. split; [exact Hx |]. split; [exact Hint |].
    apply kelvin_to_celsius_int, Hx. }
  split; [intros b; reflexivity |].
  split; [intros v Hv; destruct v; try discriminate; reflexivity |].
  do 8 (split; [vm_compute; reflexivity |]).
  intros lib w data rec. rewrite outcome_transform_weather_data.
  intros H Hmain. groups_inv H. rewrite Hmain in Hm.
  destruct Hm as (t & f & lo & hi & h & p & Ht & Hf & Hlo & Hhi & Hh & Hp & ->).
  destruct (getitem2_ok _ _ _ Hh) as (main & Hsec & Hhum).
  destruct (getitem2_ok _ _ _ Hp) as (main' & Hsec' & Hpres).
  rewrite Hsec in Hsec'. injection Hsec' as <-.
  exists main. split; [cbn; rewrite Hsec; reflexivity |].
  assert (Hfield : forall k c, main_celsius (PyDict d) k = Ok c ->
            exists kelvin, dict_lookup k main = Some kelvin
                           /\ kelvin_to_celsius kelvin = Ok c).
  { intros k c Hk. unfold main_celsius in Hk. ok_step Hk.
    destruct (getitem2_ok _ _ _ E) as (main' & Hsec' & Hk').
    rewrite Hsec in Hsec'. injection Hsec' as <-. eauto. }
  split; [| split; [exists h | exists p]; split; try assumption; reflexivity].
  intros out inp Hin. cbn in Hin.
  destruct Hin as [[= <- <-] | [[= <- <-] | [[= <- <-] | [[= <- <-] | []]]]].
  - destruct (Hfield _ _ Ht) as (kv & ? & ?). exists kv. split; [assumption |].
    eexists. split; [eassumption | reflexivity].
  - destruct (Hfield _ _ Hf) as (kv & ? & ?). exists kv. split; [assumption |].
    eexists. split; [eassumption | reflexivity].
  - destruct (Hfield _ _ Hlo) as (kv & ? & ?). exists kv. split; [assumption |].
    eexists. split; [eassumption | reflexivity].
  - destruct (Hfield _ _ Hhi) as (kv & ? & ?). exists kv. split; [assumption |].
    eexists. split; [eassumption | reflexivity].
Qed.

Lemma celsius_conversion_witness :
  (exists rec,
     outcome (transform_weather_data Demo.lib
                (Demo.world [] (Demo.answering 200 Demo.clear_sky_body)
                   Demo.accepting_sink)
                Demo.clear_sky) = Ok rec
     /\ dict_lookup "temperature_celsius" rec = Some (PyFloat 27%float)
     /\ dict_lookup "humidity_percent" rec = Some (PyInt 40))
  /\ (exists x,
        float_of_int 300 = Ok x /\ float_is_integer x 300
        /\ kelvin_to_celsius (PyInt 300) = kelvin_to_celsius (PyFloat x))
  /\ kelvin_to_celsius (PyStr "300.15")
     = Err (Raise TypeError
              "unsupported operand type(s) for -: 'str' and 'float'").
Proof.
  destruct celsius_conversion
    as (_ & _ & Hint & _ & Htype & _ & _ & _ & _ & _ & _ & _ & _ & H).
  split; [| split; [apply (Hint 300); reflexivity
                   | apply (Htype (PyStr "300.15")); reflexivity]].
  destruct (H Demo.lib
              (Demo.world [] (Demo.answering 200 Demo.clear_sky_body)
                 Demo.accepting_sink)
              Demo.clear_sky _ eq_refl eq_refl)
    as (main & Hget & Hc & (h & Hh & Hh') & _).
  eexists. split; [reflexivity |].
  injection Hget as <-.
  destruct (Hc "temperature_celsius" "temp" (or_introl eq_refl))
    as (kelvin & Hk & celsius & Hconv & Hout).
  injection Hk as <-. vm_compute in Hconv. injection Hconv as <-.
  injection Hh as <-.
  split; [exact Hout | exact Hh'].
Defined.

(* ================================================================== *)
(** * Sunrise and sunset *)
(* ================================================================== *)

(** C5, as the specification words it, does not hold for every
    observation: [strftime] writes the year without padding, so a
    sunrise in the years 1 to 999 is not written in the layout
    [YYYY-MM-DD HH:MM:SS UTC].  The observation whose sunrise is
    -30610224001, the last second of the year 999, is accepted, and its
    record holds the 22 characters [999-12-31 23:59:59 UTC], which do
    not read as a text of that layout. *)
Lemma ancient_sunrise_unpadded :
  let w := Demo.world [] (Demo.answering 200 Demo.clear_sky_body)
             Demo.accepting_sink in
  has_sunrise_and_sunset Medieval.observation = true
  /\ getitem2 Medieval.observation "sys" "sunrise" = Ok (PyInt (-30610224001))
  /\ exists rec,
       outcome (transform_weather_data Demo.lib w Medieval.observation) = Ok rec
       /\ dict_lookup "sunrise" rec = Some (PyStr "999-12-31 23:59:59 UTC")
       /\ String.length "999-12-31 23:59:59 UTC" = 22%nat
       /\ parse_utc "999-12-31 23:59:59 UTC" = None.
Proof.
  cbv zeta. split; [reflexivity |]. split; [reflexivity |].
  eexists. split; [vm_compute; reflexivity |].
  split; [reflexivity |]. split; reflexivity.
Qed.

(** C5, amended.  Whenever the transformer accepts an observation,
    [sunrise] and [sunset] are in the record if and only if the [sys]
    object of the observation has both a [sunrise] and a [sunset]
    field.  When they are, each value is a number whose whole seconds
    [t] (an integer itself, a boolean as 0 or 1, a float through
    [seconds_of_float]) lie in the years 1 to 9999, and the field is the
    text [strftime] gives for the UTC date and time [t] seconds after
    the epoch, a valid date and time.  From the year 1000 on, that is
    for [t] not below -30610224000, the text has the layout
    [YYYY-MM-DD HH:MM:SS UTC] and reads back as that date and time;
    before, it is shorter than the 23 characters of the layout.  The
    whole seconds of a float are never below its integer part rounded
    down and at most one above, and are the float itself when it is an
    integer.  The timestamp 1700000000, as an integer or as a float, is
    written [2023-11-14 22:13:20 UTC]; 1700000000.5 is in the same
    second, -0.5 in the second -1, and 0.9999999, which rounds to a full
    second, in the second 1. *)
Theorem sun_times_format lib w data rec :
  outcome (transform_weather_data lib w data) = Ok rec ->
  (forall k, In k sun_fields ->
     dict_mem k rec = has_sunrise_and_sunset data)
  /\ (has_sunrise_and_sunset data = true ->
      forall k, In k sun_fields ->
      exists v t,
        getitem2 data "sys" k = Ok v
        /\ epoch_seconds v t
        /\ timestamp_in_range t = true
        /\ utcfromtimestamp lib v = Ok (gmtime t)
        /\ dict_lookup k rec = Some (PyStr (strftime (gmtime t)))
        /\ valid_datetime (gmtime t) = true
        /\ timegm (gmtime t) = t
        /\ (year_1000_timestamp <= t ->
            1000 <= year (gmtime t)
            /\ parse_utc (strftime (gmtime t)) = Some (gmtime t))
        /\ (t < year_1000_timestamp ->
            (String.length (strftime (gmtime t)) < 23)%nat
            /\ parse_utc (strftime (gmtime t)) = None))
  /\ (forall x t,
        seconds_of_float x = Some t ->
        exists fl, float_floor x = Some fl /\ fl <= t <= fl + 1)
  /\ (forall x n, float_is_integer x n -> seconds_of_float x = Some n)
  /\ utcfromtimestamp lib (PyInt 1700000000) = Ok (gmtime 1700000000)
  /\ utcfromtimestamp lib (PyFloat 1700000000%float) = Ok (gmtime 1700000000)
  /\ utcfromtimestamp lib (PyFloat 1700000000.5%float) = Ok (gmtime 1700000000)
  /\ utcfromtimestamp lib (PyFloat (-0.5)%float) = Ok (gmtime (-1))
  /\ utcfromtimestamp lib (PyFloat 0.9999999%float) = Ok (gmtime 1)
  /\ strftime (gmtime 1700000000) = "2023-11-14 22:13:20 UTC".
Proof.
  rewrite outcome_transform_weather_data. intros H.
  pose proof (@normalized_record_keys _ _ _ _ H) as K.
  split; [| split; [| split; [exact seconds_of_float_floor |
                     split; [exact seconds_of_float_integer |]]]].
  - intros k Hin. rewrite dict_mem_keys, K.
    destruct (has_section "main" data), (has_section "wind" data),
      (has_sunrise_and_sunset data);
      cbn in Hin; repeat (destruct Hin as [<- | Hin]; [reflexivity |]);
      contradiction.
  - intros Hsun k Hin. groups_inv H. rewrite Hsun in Hs.
    destruct Hs as (sunrise & sunset & Hrise & Hset & ->).
    assert (Hfield : forall k out, sys_time lib (PyDict d) k = Ok out ->
              exists v t,
                getitem2 (PyDict d) "sys" k = Ok v
                /\ epoch_seconds v t
                /\ timestamp_in_range t = true
                /\ utcfromtimestamp lib v = Ok (gmtime t)
                /\ out = PyStr (strftime (gmtime t))
                /\ valid_datetime (gmtime t) = true
                /\ timegm (gmtime t) = t
                /\ (year_1000_timestamp <= t ->
                    1000 <= year (gmtime t)
                    /\ parse_utc (strftime (gmtime t)) = Some (gmtime t))
                /\ (t < year_1000_timestamp ->
                    (String.length (strftime (gmtime t)) < 23)%nat
                    /\ parse_utc (strftime (gmtime t)) = None)).
    { intros k' out Hk.
      destruct (@sys_time_ok _ _ _ _ Hk) as (v & dt & Hv & Hdt & ->).
      destruct (@utcfromtimestamp_seconds _ _ _ Hdt) as (t & Hsec & Hr & ->).
      destruct (@gmtime_correct _ Hr) as (Hvalid & Hinv).
      exists v, t. do 7 (split; [first [assumption | reflexivity] |]).
      split.
      - intros Ht. apply gmtime_year in Ht. split; [exact Ht |].
        apply parse_utc_strftime; assumption.
      - intros Ht. apply strftime_short.
        assert (Hy : ~ 1000 <= year (gmtime t)).
        { rewrite gmtime_year. lia. }
        unfold valid_datetime in Hvalid.
        rewrite !andb_true_iff, !Z.leb_le in Hvalid. lia. }
    assert (Hlook : dict_lookup "sunrise"
               ([("city", city); ("country", country);
                 ("weather_condition", condition);
                 ("weather_description", description);
                 ("event_timestamp", PyInt (utcnow_timestamp w))]
                ++ m ++ wd ++ [("sunrise", sunrise); ("sunset", sunset)])%list
             = Some sunrise
             /\ dict_lookup "sunset"
               ([("city", city); ("country", country);
                 ("weather_condition", condition);
                 ("weather_description", description);
                 ("event_timestamp", PyInt (utcnow_timestamp w))]
                ++ m ++ wd ++ [("sunrise", sunrise); ("sunset", sunset)])%list
             = Some sunset).
    { destruct (has_section "main" (PyDict d)), (has_section "wind" (PyDict d)).
      all: try (destruct Hm as (? & ? & ? & ? & ? & ? & _ & _ & _ & _ & _ & _ & ->)).
      all: try (destruct Hw as (? & _ & ->)).
      all: subst; split; reflexivity. }
    destruct Hlook as (Lrise & Lset).
    cbn in Hin. destruct Hin as [<- | [<- | []]].
    + destruct (Hfield _ _ Hrise)
        as (v & t & ? & ? & ? & ? & -> & ? & ? & ? & ?).
      exists v, t. repeat split; try assumption; tauto.
    + destruct (Hfield _ _ Hset)
        as (v & t & ? & ? & ? & ? & -> & ? & ? & ? & ?).
      exists v, t. repeat split; try assumption; tauto.
  - repeat split; vm_compute; reflexivity.
Qed.

Lemma sun_times_format_witness :
  exists rec,
    outcome (transform_weather_data Demo.lib
               (Demo.world [] (Demo.answering 200 Demo.clear_sky_body)
                  Demo.accepting_sink)
               Demo.clear_sky) = Ok rec
    /\ dict_lookup "sunrise" rec = Some (PyStr "2023-11-14 22:13:20 UTC")
    /\ dict_mem "sunset" rec = true.
Proof.
  destruct (@sun_times_format Demo.lib
              (Demo.world [] (Demo.answering 200 Demo.clear_sky_body)
                 Demo.accepting_sink)
              Demo.clear_sky _ eq_refl) as (Hmem & Hfmt & _).
  eexists. split; [reflexivity |].
  destruct (Hfmt eq_refl "sunrise" (or_introl eq_refl))
    as (v & t & Hv & Hsec & _ & _ & Hout & _).
  injection Hv as <-. cbn in Hsec. subst t.
  split; [exact Hout | exact (Hmem "sunset" (or_intror (or_introl eq_refl)))].
Defined.
